(** * CatalogFS lister: the catalog-record codec of [catalogfs_lister.py]

    A shallow embedding of the reader and the writer of CatalogFS files
    (the current format, version 3, and the two old formats, versions 1
    and 2), and of the part of [process_one_file] that calls them.

    Python values are represented as follows.
    - [int] is [Z] (unbounded).
    - [float] is the pair of a mantissa and a binary exponent, both in [Z]:
      the finite values.  The only floats of the program are the times of a
      stat, which are finite; [inf] and [nan] have no representation.
    - [str] is [list ascii]; a character stands for the code point of the
      same number, so the texts covered are those over U+0000..U+00FF.
    - positions in a string are [Z], because the code uses [-1] as the
      "not found" value and passes it on to slices and to [str.find].
    - a function that may raise returns an [outcome]; a loop whose exit the
      code does not guarantee takes its number of iterations as fuel and
      answers [OutOfFuel] when they are used up. *)

From Stdlib Require Import String Ascii.
From Stdlib Require Import ZArith List Bool Lia Arith.
From Stdlib Require Import DecimalString DecimalZ.
From Stdlib Require Import Permutation.
Import ListNotations.
Local Open Scope Z_scope.

(** ** Strings *)

Definition str := list ascii.

Definition lit (s : string) : str := list_ascii_of_string s.

Definition len (s : str) : Z := Z.of_nat (length s).

Definition chr_eqb (a b : ascii) : bool := Ascii.eqb a b.

Fixpoint str_eqb (a b : str) : bool :=
  match a, b with
  | [], [] => true
  | x :: a', y :: b' => chr_eqb x y && str_eqb a' b'
  | _, _ => false
  end.

Definition char_in (chars : str) (c : ascii) : bool :=
  existsb (chr_eqb c) chars.

(** ** Exceptions and outcomes *)

(** The messages of the [RuntimeError]s the reader raises. *)
Inductive message :=
| Invalid_string                       (* 'Invalid string in CatalogFS file' *)
| Not_an_integer (raw : str)           (* 'Invalid field value, not an integer: ...' *)
| No_valid_header                      (* 'CatalogFS file expected but no valid header found' *)
| Invalid_version_string (raw : str)   (* 'CatalogFS file has invalid version string: ...' *)
| Unsupported_version (v : Z)          (* 'CatalogFS file has unsupported version ...' *)
| Unknown_param_name                   (* 'Unknown param name in CatalogFS file' *)
| Unknown_format_version (v : Z)       (* 'Unknown format version of CatalogFS file: ...' *)
| Invalid_old_format_version (v : Z).  (* 'CatalogFS file has invalid old-format version ...' *)

Inductive exn :=
| RuntimeError (m : message)
| IndexError.

Inductive outcome (A : Type) :=
| Returns (a : A)
| Raises (e : exn)
| OutOfFuel.

Arguments Returns {A} a.
Arguments Raises {A} e.
Arguments OutOfFuel {A}.

Definition bind {A B} (m : outcome A) (k : A -> outcome B) : outcome B :=
  match m with
  | Returns a => k a
  | Raises e => Raises e
  | OutOfFuel => OutOfFuel
  end.

Notation "'do' x <- m ; k" := (bind m (fun x => k))
  (at level 10, x pattern, m at level 99, k at level 200).

Definition terminates {A} (m : outcome A) : Prop :=
  match m with OutOfFuel => False | _ => True end.

(** ** Python's string primitives *)

Module Py.

(** [s[i]]: a negative index counts from the end, an index out of range
    raises [IndexError]. *)
Definition getitem (s : str) (i : Z) : option ascii :=
  let n := len s in
  if (i <? - n) || (n <=? i) then None
  else nth_error s (Z.to_nat (if i <? 0 then i + n else i)).

(** The bounds of a slice [s[a:b]] after adjustment to the length [n]. *)
Definition adjust (n i : Z) : Z :=
  if i <? 0 then Z.max 0 (i + n) else Z.min i n.

Definition slice (s : str) (a b : Z) : str :=
  let a' := adjust (len s) a in
  let b' := adjust (len s) b in
  firstn (Z.to_nat (b' - a')) (skipn (Z.to_nat a') s).

(** [s[a:]] *)
Definition slice_from (s : str) (a : Z) : str := slice s a (len s).

Fixpoint is_prefix (p s : str) : bool :=
  match p, s with
  | [], _ => true
  | x :: p', y :: s' => chr_eqb x y && is_prefix p' s'
  | _ :: _, [] => false
  end.

Definition startswith (s p : str) : bool := is_prefix p s.

(** Index of the first occurrence of [sub] in [s]. *)
Fixpoint index_of (sub s : str) : option nat :=
  if is_prefix sub s then Some O
  else match s with
       | [] => None
       | _ :: s' => option_map S (index_of sub s')
       end.

(** [s.find(sub, a, b)].  The start is adjusted like a slice bound except
    that it is not cut down to the length; the search fails at once when
    fewer than [len sub] characters lie between the bounds. *)
Definition find (s sub : str) (a b : Z) : Z :=
  let n := len s in
  let b' := adjust n b in
  let a' := if a <? 0 then Z.max 0 (a + n) else a in
  if b' - a' <? len sub then -1
  else match index_of sub (slice s a' b') with
       | Some k => a' + Z.of_nat k
       | None => -1
       end.

(** [s.find(sub, a)] *)
Definition find_from (s sub : str) (a : Z) : Z := find s sub a (len s).

Fixpoint lstrip_by (f : ascii -> bool) (s : str) : str :=
  match s with
  | [] => []
  | c :: s' => if f c then lstrip_by f s' else s
  end.

Definition rstrip_by (f : ascii -> bool) (s : str) : str :=
  rev (lstrip_by f (rev s)).

Definition strip_by (f : ascii -> bool) (s : str) : str :=
  rstrip_by f (lstrip_by f s).

(** [s.strip(chars)] and [s.rstrip(chars)] *)
Definition strip_chars (chars s : str) : str := strip_by (char_in chars) s.
Definition rstrip_chars (chars s : str) : str := rstrip_by (char_in chars) s.

(** The white space of [str.strip()] among U+0000..U+00FF: U+0009..U+000D,
    U+001C..U+0020, U+0085 and U+00A0. *)
Definition isspace (c : ascii) : bool :=
  let n := Z.of_nat (nat_of_ascii c) in
  ((9 <=? n) && (n <=? 13)) || ((28 <=? n) && (n <=? 32))
  || (n =? 133) || (n =? 160).

(** The white space that [int()] passes over at both ends of its argument:
    U+0009..U+000D and U+0020, and U+0085 and U+00A0, which it reads as
    spaces.  The separators U+001C..U+001F, which [str.strip()] removes, are
    not among them: [int()] refuses a text that has one. *)
Definition int_space (c : ascii) : bool :=
  let n := Z.of_nat (nat_of_ascii c) in
  ((9 <=? n) && (n <=? 13)) || (n =? 32) || (n =? 133) || (n =? 160).

(** [s.strip()] *)
Definition strip (s : str) : str := strip_by isspace s.

Definition digit_of (c : ascii) : option (Decimal.uint -> Decimal.uint) :=
  match c with
  | "0"%char => Some Decimal.D0 | "1"%char => Some Decimal.D1
  | "2"%char => Some Decimal.D2 | "3"%char => Some Decimal.D3
  | "4"%char => Some Decimal.D4 | "5"%char => Some Decimal.D5
  | "6"%char => Some Decimal.D6 | "7"%char => Some Decimal.D7
  | "8"%char => Some Decimal.D8 | "9"%char => Some Decimal.D9
  | _ => None
  end.

(** The digits of an integer literal given to [int()]: one digit or more,
    with single underscores allowed between digits. *)
Fixpoint digits (s : str) : option Decimal.uint :=
  match s with
  | [] => None
  | c :: t =>
      match digit_of c with
      | None => None
      | Some d =>
          match t with
          | [] => Some (d Decimal.Nil)
          | "_"%char :: t' => option_map d (digits t')
          | _ => option_map d (digits t)
          end
      end
  end.

(** [int(s)]: [None] stands for [ValueError]. *)
Definition int (s : str) : option Z :=
  match strip_by int_space s with
  | "-"%char :: t => option_map (fun d => Z.of_int (Decimal.Neg d)) (digits t)
  | "+"%char :: t => option_map (fun d => Z.of_int (Decimal.Pos d)) (digits t)
  | t => option_map (fun d => Z.of_int (Decimal.Pos d)) (digits t)
  end.

(** [str(z)], which is also what an f-string writes for an [int]. *)
Definition str_of_int (z : Z) : str :=
  list_ascii_of_string (NilZero.string_of_int (Z.to_int z)).

(** A finite [float]: the number [mantissa * 2 ^ exponent]. *)
Record float := mkFloat {
  mantissa : Z;
  exponent : Z
}.

(** A number: an [int] or a [float]. *)
Inductive number :=
| Int (z : Z)
| Float (x : float).

(** [int(x)] of a [float]: the integer part, the fraction being dropped, so
    that the result is the integer next to [x] in the direction of zero. *)
Definition int_of_float (x : float) : Z :=
  if 0 <=? exponent x then mantissa x * 2 ^ exponent x
  else Z.quot (mantissa x) (2 ^ (- exponent x)).

(** [int(x)] of a number: an [int] is returned as it is. *)
Definition int_of_number (x : number) : Z :=
  match x with
  | Int z => z
  | Float x => int_of_float x
  end.

End Py.

(** ** Constants of the format *)

Definition CFSFILE_VERSION_1 : Z := 1.
Definition CFSFILE_VERSION_2 : Z := 2.
Definition CFSFILE_VERSION_3 : Z := 3.
Definition CFSFILE_CURRENT_VERSION : Z := CFSFILE_VERSION_3.

Definition FORMAT_FIELD_DELIMITER : str := lit "=".
Definition FORMAT_NEW_LINE_CHAR : ascii := "010"%char.
Definition FORMAT_NEW_LINE_CHAR_2 : ascii := "013"%char.
Definition FORMAT_NEW_LINE_LENGTH : Z := 1.
Definition FORMAT_TRIMMING_CHARS : str :=
  [" "%char; "009"%char; "013"%char; "010"%char].

Definition FORMAT_MAX_FILE_SIZE : Z := 1048576.

Definition FORMAT_HEADER_NAME : str := lit "CatalogFS".
Definition FORMAT_HEADER_TO_WRITE : str :=
  FORMAT_HEADER_NAME ++ FORMAT_FIELD_DELIMITER
  ++ Py.str_of_int CFSFILE_CURRENT_VERSION ++ [FORMAT_NEW_LINE_CHAR].
Definition FORMAT_HEADER_PREFIX_OLD_FORMAT : str := lit "CatalogFS.File.".

(** ** The record: class [CFSFile] *)

(** Every attribute starts as [None].  The three times hold the number
    they were given: an [int] when it was read from a text, a [float] when
    it was taken from a stat. *)
Record CFSFile := mkCFSFile {
  size : option Z;
  blocks : option Z;
  mode : option Z;
  uid : option Z;
  gid : option Z;
  atime : option Py.number;
  mtime : option Py.number;
  ctime : option Py.number;
  atimensec : option Z;
  mtimensec : option Z;
  ctimensec : option Z;
  nlink : option Z;
  blksize : option Z;
  sha256 : option str
}.

(** [CFSFile()] *)
Definition CFSFile_new : CFSFile :=
  mkCFSFile None None None None None None None None None None None None None None.

(** The assignments [cfs_file.<attribute> = v]. *)
Definition set_size (v : option Z) (c : CFSFile) : CFSFile :=
  mkCFSFile v (blocks c) (mode c) (uid c) (gid c) (atime c) (mtime c) (ctime c) (atimensec c) (mtimensec c) (ctimensec c) (nlink c) (blksize c) (sha256 c).
Definition set_blocks (v : option Z) (c : CFSFile) : CFSFile :=
  mkCFSFile (size c) v (mode c) (uid c) (gid c) (atime c) (mtime c) (ctime c) (atimensec c) (mtimensec c) (ctimensec c) (nlink c) (blksize c) (sha256 c).
Definition set_mode (v : option Z) (c : CFSFile) : CFSFile :=
  mkCFSFile (size c) (blocks c) v (uid c) (gid c) (atime c) (mtime c) (ctime c) (atimensec c) (mtimensec c) (ctimensec c) (nlink c) (blksize c) (sha256 c).
Definition set_uid (v : option Z) (c : CFSFile) : CFSFile :=
  mkCFSFile (size c) (blocks c) (mode c) v (gid c) (atime c) (mtime c) (ctime c) (atimensec c) (mtimensec c) (ctimensec c) (nlink c) (blksize c) (sha256 c).
Definition set_gid (v : option Z) (c : CFSFile) : CFSFile :=
  mkCFSFile (size c) (blocks c) (mode c) (uid c) v (atime c) (mtime c) (ctime c) (atimensec c) (mtimensec c) (ctimensec c) (nlink c) (blksize c) (sha256 c).
Definition set_atime (v : option Py.number) (c : CFSFile) : CFSFile :=
  mkCFSFile (size c) (blocks c) (mode c) (uid c) (gid c) v (mtime c) (ctime c) (atimensec c) (mtimensec c) (ctimensec c) (nlink c) (blksize c) (sha256 c).
Definition set_mtime (v : option Py.number) (c : CFSFile) : CFSFile :=
  mkCFSFile (size c) (blocks c) (mode c) (uid c) (gid c) (atime c) v (ctime c) (atimensec c) (mtimensec c) (ctimensec c) (nlink c) (blksize c) (sha256 c).
Definition set_ctime (v : option Py.number) (c : CFSFile) : CFSFile :=
  mkCFSFile (size c) (blocks c) (mode c) (uid c) (gid c) (atime c) (mtime c) v (atimensec c) (mtimensec c) (ctimensec c) (nlink c) (blksize c) (sha256 c).
Definition set_atimensec (v : option Z) (c : CFSFile) : CFSFile :=
  mkCFSFile (size c) (blocks c) (mode c) (uid c) (gid c) (atime c) (mtime c) (ctime c) v (mtimensec c) (ctimensec c) (nlink c) (blksize c) (sha256 c).
Definition set_mtimensec (v : option Z) (c : CFSFile) : CFSFile :=
  mkCFSFile (size c) (blocks c) (mode c) (uid c) (gid c) (atime c) (mtime c) (ctime c) (atimensec c) v (ctimensec c) (nlink c) (blksize c) (sha256 c).
Definition set_ctimensec (v : option Z) (c : CFSFile) : CFSFile :=
  mkCFSFile (size c) (blocks c) (mode c) (uid c) (gid c) (atime c) (mtime c) (ctime c) (atimensec c) (mtimensec c) v (nlink c) (blksize c) (sha256 c).
Definition set_nlink (v : option Z) (c : CFSFile) : CFSFile :=
  mkCFSFile (size c) (blocks c) (mode c) (uid c) (gid c) (atime c) (mtime c) (ctime c) (atimensec c) (mtimensec c) (ctimensec c) v (blksize c) (sha256 c).
Definition set_blksize (v : option Z) (c : CFSFile) : CFSFile :=
  mkCFSFile (size c) (blocks c) (mode c) (uid c) (gid c) (atime c) (mtime c) (ctime c) (atimensec c) (mtimensec c) (ctimensec c) (nlink c) v (sha256 c).
Definition set_sha256 (v : option str) (c : CFSFile) : CFSFile :=
  mkCFSFile (size c) (blocks c) (mode c) (uid c) (gid c) (atime c) (mtime c) (ctime c) (atimensec c) (mtimensec c) (ctimensec c) (nlink c) (blksize c) v.

(** ** The reader of the current format *)

Definition is_old_format_cfsfile (data : str) : bool :=
  Py.startswith data FORMAT_HEADER_PREFIX_OLD_FORMAT.

Definition is_newline_char (c : ascii) : bool :=
  chr_eqb c FORMAT_NEW_LINE_CHAR || chr_eqb c FORMAT_NEW_LINE_CHAR_2.

(** [for i in range(i, i + n)]: the first [i] with a new-line character at
    [s[i]], or [-1]. *)
Fixpoint newline_scan (s : str) (n : nat) (i : Z) : outcome Z :=
  match n with
  | O => Returns (-1)
  | S n' =>
      match Py.getitem s i with
      | None => Raises IndexError
      | Some c =>
          if is_newline_char c then Returns i else newline_scan s n' (i + 1)
      end
  end.

Definition find_next_newline_in_string (s : str) (start_position : Z)
  : outcome Z :=
  newline_scan s (Z.to_nat (len s - start_position)) start_position.

(** How a turn of a loop ends: the loop goes on from a new position, or the
    function returns. *)
Inductive turn (A : Type) :=
| Continue (current_pos : Z)
| Return (a : A).

Arguments Continue {A} current_pos.
Arguments Return {A} a.

(** One turn of the [while current_pos < len(data)] loop of
    [cfsfile_get_next_option_pair], entered with
    [current_pos < len(data)]. *)
Definition option_pair_step (data : str) (current_pos : Z)
  : outcome (turn (Z * str * str)) :=
  do found <- find_next_newline_in_string data current_pos;
  let line_end := if found =? -1 then len data else found in
  let param_end :=
    Py.find data FORMAT_FIELD_DELIMITER current_pos line_end in
  if param_end =? -1 then
    if 0 <? len (Py.strip_chars FORMAT_TRIMMING_CHARS
                   (Py.slice data current_pos line_end))
    then Raises (RuntimeError Invalid_string)
    else Returns (Continue (line_end + FORMAT_NEW_LINE_LENGTH))
  else
    let option :=
      Py.strip_chars FORMAT_TRIMMING_CHARS
        (Py.slice data current_pos param_end) in
    let value_start := param_end + len FORMAT_FIELD_DELIMITER in
    let value := Py.slice data value_start line_end in
    Returns (Return (line_end + FORMAT_NEW_LINE_LENGTH, option, value)).

Fixpoint option_pair_loop (fuel : nat) (data : str) (current_pos : Z)
  : outcome (Z * str * str) :=
  match fuel with
  | O => OutOfFuel
  | S fuel' =>
      if current_pos <? len data then
        do t <- option_pair_step data current_pos;
        match t with
        | Continue current_pos' => option_pair_loop fuel' data current_pos'
        | Return r => Returns r
        end
      else Returns (-1, [], [])
  end.

(** Every turn of the loop moves [current_pos] forward, so that
    [len data - start_position] turns and the last test are enough. *)
Definition cfsfile_get_next_option_pair (data : str) (start_position : Z)
  : outcome (Z * str * str) :=
  if len data <=? start_position then Returns (-1, [], [])
  else option_pair_loop (S (Z.to_nat (len data - start_position)))
         data start_position.

Definition cfsfile_extract_int (field_value_str : str) : outcome Z :=
  match Py.int (Py.strip_chars FORMAT_TRIMMING_CHARS field_value_str) with
  | Some field_value_int => Returns field_value_int
  | None => Raises (RuntimeError (Not_an_integer field_value_str))
  end.

(** The [if param == ... elif ...] chain of [fill_cfsfile_from_string]. *)
Definition fill_field (cfs_file : CFSFile) (param value : str)
  : outcome CFSFile :=
  let store (set : option Z -> CFSFile -> CFSFile) :=
    do v <- cfsfile_extract_int value; Returns (set (Some v) cfs_file) in
  let store_time (set : option Py.number -> CFSFile -> CFSFile) :=
    do v <- cfsfile_extract_int value;
    Returns (set (Some (Py.Int v)) cfs_file) in
  if str_eqb param (lit "size") then store set_size
  else if str_eqb param (lit "blocks") then store set_blocks
  else if str_eqb param (lit "mode") then store set_mode
  else if str_eqb param (lit "uid") then store set_uid
  else if str_eqb param (lit "gid") then store set_gid
  else if str_eqb param (lit "atime") then store_time set_atime
  else if str_eqb param (lit "mtime") then store_time set_mtime
  else if str_eqb param (lit "ctime") then store_time set_ctime
  else if str_eqb param (lit "atimensec") then store set_atimensec
  else if str_eqb param (lit "mtimensec") then store set_mtimensec
  else if str_eqb param (lit "ctimensec") then store set_ctimensec
  else if str_eqb param (lit "nlink") then store set_nlink
  else if str_eqb param (lit "blksize") then store set_blksize
  else if str_eqb param (lit "sha256") then
    Returns (set_sha256
               (Some (Py.strip_chars FORMAT_TRIMMING_CHARS value)) cfs_file)
  else Raises (RuntimeError Unknown_param_name).

(** The [while True] loop of [fill_cfsfile_from_string]. *)
Fixpoint fill_loop (fuel : nat) (data : str) (current_pos : Z)
  (cfs_file : CFSFile) : outcome CFSFile :=
  match fuel with
  | O => OutOfFuel
  | S fuel' =>
      do (new_pos, option, value) <-
        cfsfile_get_next_option_pair data current_pos;
      if new_pos =? -1 then Returns cfs_file
      else
        do cfs_file' <- fill_field cfs_file option value;
        fill_loop fuel' data new_pos cfs_file'
  end.

(** Each pair read moves the position forward by one character at least,
    which bounds the turns of the loop by the length of the data. *)
Definition fill_cfsfile_from_string (data : str) (cfs_file : CFSFile)
  : outcome CFSFile :=
  do (body_start, header_name, version_str) <-
    cfsfile_get_next_option_pair data 0;
  if negb (str_eqb header_name FORMAT_HEADER_NAME) then
    Raises (RuntimeError No_valid_header)
  else
    match Py.int version_str with
    | None => Raises (RuntimeError (Invalid_version_string version_str))
    | Some version_int =>
        if negb (version_int =? CFSFILE_VERSION_3) then
          Raises (RuntimeError (Unsupported_version version_int))
        else fill_loop (S (length data)) data body_start cfs_file
    end.

(** ** The reader of the old formats (versions 1 and 2) *)

Definition old_new_line : str := ["010"%char].

Definition old_format_extract_next_int (data : str) (start_position : Z)
  : outcome (Z * Z) :=
  let found := Py.find_from data old_new_line start_position in
  let field_end := if found =? -1 then len data else found in
  let field_value_str := Py.strip (Py.slice data start_position field_end) in
  match Py.int field_value_str with
  | Some field_value_int =>
      Returns (field_end + len old_new_line, field_value_int)
  | None => Raises (RuntimeError (Not_an_integer field_value_str))
  end.

Definition old_format_extract_next_string (data : str) (start_position : Z)
  : Z * str :=
  let found := Py.find_from data old_new_line start_position in
  let field_end := if found =? -1 then len data else found in
  let field_value_str := Py.strip (Py.slice data start_position field_end) in
  (field_end + len old_new_line, field_value_str).

Definition old_path_end : str := ["000"%char; "010"%char].

Definition old_format_extract_next_path (data : str) (start_position : Z)
  : Z * str :=
  let found := Py.find_from data old_path_end start_position in
  let field_end := if found =? -1 then len data else found in
  let field_value_path :=
    Py.rstrip_chars ["000"%char] (Py.slice data start_position field_end) in
  (field_end + len old_path_end, field_value_path).

Definition old_field_sep : str := lit ": ".

(** The [if param == ... elif ...] chain of
    [old_format_fill_cfsfile_body_from_string]; the result is [new_pos] and
    the record after the assignment. *)
Definition old_fill_field (data : str) (cfs_file : CFSFile) (param : str)
  (value_start : Z) : outcome (Z * CFSFile) :=
  let store (set : option Z -> CFSFile -> CFSFile) :=
    do (new_pos, v) <- old_format_extract_next_int data value_start;
    Returns (new_pos, set (Some v) cfs_file) in
  let store_time (set : option Py.number -> CFSFile -> CFSFile) :=
    do (new_pos, v) <- old_format_extract_next_int data value_start;
    Returns (new_pos, set (Some (Py.Int v)) cfs_file) in
  if str_eqb param (lit "size") then store set_size
  else if str_eqb param (lit "blocks") then store set_blocks
  else if str_eqb param (lit "mode") then store set_mode
  else if str_eqb param (lit "uid") then store set_uid
  else if str_eqb param (lit "gid") then store set_gid
  else if str_eqb param (lit "atime") then store_time set_atime
  else if str_eqb param (lit "mtime") then store_time set_mtime
  else if str_eqb param (lit "ctime") then store_time set_ctime
  else if str_eqb param (lit "atimensec") then store set_atimensec
  else if str_eqb param (lit "mtimensec") then store set_mtimensec
  else if str_eqb param (lit "ctimensec") then store set_ctimensec
  else if str_eqb param (lit "nlink") then store set_nlink
  else if str_eqb param (lit "blksize") then store set_blksize
  else if str_eqb param (lit "sha256") then
    let '(new_pos, v) := old_format_extract_next_string data value_start in
    Returns (new_pos, set_sha256 (Some v) cfs_file)
  else if str_eqb param (lit "name") then
    Returns (fst (old_format_extract_next_path data value_start), cfs_file)
  else if str_eqb param (lit "path") then
    Returns (fst (old_format_extract_next_path data value_start), cfs_file)
  else Raises (RuntimeError Unknown_param_name).

(** One turn of the [while current_pos < len(data)] loop, entered with
    [current_pos < len(data)]: either the loop goes on from a new position
    with a new record, or an exception ends it. *)
Definition old_body_step (data : str) (current_pos : Z) (cfs_file : CFSFile)
  : outcome (Z * CFSFile) :=
  let line_end := Py.find_from data old_new_line current_pos in
  let param_end := Py.find data old_field_sep current_pos line_end in
  if param_end =? -1 then
    if 0 <? len (Py.strip_chars FORMAT_TRIMMING_CHARS
                   (Py.slice data current_pos line_end))
    then Raises (RuntimeError Invalid_string)
    else Returns (line_end + len old_new_line, cfs_file)
  else
    let param := Py.slice data current_pos param_end in
    let value_start := param_end + len old_field_sep in
    old_fill_field data cfs_file param value_start.

Fixpoint old_body_loop (fuel : nat) (data : str) (current_pos : Z)
  (cfs_file : CFSFile) : outcome CFSFile :=
  match fuel with
  | O => OutOfFuel
  | S fuel' =>
      if current_pos <? len data then
        do (new_pos, cfs_file') <- old_body_step data current_pos cfs_file;
        old_body_loop fuel' data new_pos cfs_file'
      else Returns cfs_file
  end.

Definition old_format_fill_cfsfile_body_from_string (fuel : nat) (data : str)
  (version : Z) (cfs_file : CFSFile) : outcome CFSFile :=
  if negb (version =? CFSFILE_VERSION_1) && negb (version =? CFSFILE_VERSION_2)
  then Raises (RuntimeError (Unknown_format_version version))
  else old_body_loop fuel data 0 cfs_file.

Definition old_format_fill_cfsfile_from_string (fuel : nat) (data : str)
  (cfs_file : CFSFile) : outcome CFSFile :=
  let header_end := Py.find_from data old_new_line 0 in
  if header_end =? -1 then Raises (RuntimeError No_valid_header)
  else
    let header := Py.slice data 0 header_end in
    if negb (Py.startswith header FORMAT_HEADER_PREFIX_OLD_FORMAT) then
      Raises (RuntimeError No_valid_header)
    else
      let version_str :=
        Py.slice_from header (len FORMAT_HEADER_PREFIX_OLD_FORMAT) in
      match Py.int version_str with
      | None => Raises (RuntimeError (Invalid_version_string version_str))
      | Some version_int =>
          if negb (version_int =? CFSFILE_VERSION_1)
             && negb (version_int =? CFSFILE_VERSION_2)
          then Raises (RuntimeError (Invalid_old_format_version version_int))
          else
            let body_data :=
              Py.slice_from data (header_end + len old_new_line) in
            old_format_fill_cfsfile_body_from_string
              fuel body_data version_int cfs_file
      end.

(** [read_cfsfile], from the text [data] that [filepath.read_text] gave. *)
Definition read_cfsfile (fuel : nat) (data : str) (cfs_file : CFSFile)
  : outcome CFSFile :=
  if is_old_format_cfsfile data then
    old_format_fill_cfsfile_from_string fuel data cfs_file
  else fill_cfsfile_from_string data cfs_file.

(** ** The writer *)

(** A line [name=value] of the output when the condition of the source's
    conditional expression holds ([Some]), nothing otherwise. *)
Definition field_line (name : str) (value : option str) : str :=
  match value with
  | Some v => name ++ FORMAT_FIELD_DELIMITER ++ v ++ [FORMAT_NEW_LINE_CHAR]
  | None => []
  end.

(** [f"{v}"] under [if v is not None]. *)
Definition if_not_none (v : option Z) : option str :=
  option_map Py.str_of_int v.

(** [f"{int(v)}"] under [if v is not None], for the times. *)
Definition if_not_none_int (v : option Py.number) : option str :=
  option_map (fun x => Py.str_of_int (Py.int_of_number x)) v.

(** [f"{v}"] under [if v is not None and v != 0]. *)
Definition if_not_none_nor_zero (v : option Z) : option str :=
  match v with
  | Some z => if z =? 0 then None else Some (Py.str_of_int z)
  | None => None
  end.

(** [write_cfsfile]: the text handed to [write_text].  The mode, the owner
    and the times of the output file, which the function sets afterwards,
    are not part of the model. *)
Definition write_cfsfile (cfs_file : CFSFile)
  (flag_data_only flag_data_and_time_only : bool) : str :=
  if flag_data_only then
    FORMAT_HEADER_TO_WRITE
    ++ field_line (lit "size") (if_not_none (size cfs_file))
    ++ field_line (lit "sha256") (sha256 cfs_file)
  else if flag_data_and_time_only then
    FORMAT_HEADER_TO_WRITE
    ++ field_line (lit "size") (if_not_none (size cfs_file))
    ++ field_line (lit "mtime") (if_not_none_int (mtime cfs_file))
    ++ field_line (lit "mtimensec") (if_not_none_nor_zero (mtimensec cfs_file))
    ++ field_line (lit "sha256") (sha256 cfs_file)
  else
    FORMAT_HEADER_TO_WRITE
    ++ field_line (lit "size") (if_not_none (size cfs_file))
    ++ field_line (lit "blocks") (if_not_none (blocks cfs_file))
    ++ field_line (lit "mode") (if_not_none (mode cfs_file))
    ++ field_line (lit "uid") (if_not_none (uid cfs_file))
    ++ field_line (lit "gid") (if_not_none (gid cfs_file))
    ++ field_line (lit "atime") (if_not_none_int (atime cfs_file))
    ++ field_line (lit "mtime") (if_not_none_int (mtime cfs_file))
    ++ field_line (lit "ctime") (if_not_none_int (ctime cfs_file))
    ++ field_line (lit "atimensec") (if_not_none_nor_zero (atimensec cfs_file))
    ++ field_line (lit "mtimensec") (if_not_none_nor_zero (mtimensec cfs_file))
    ++ field_line (lit "ctimensec") (if_not_none_nor_zero (ctimensec cfs_file))
    ++ field_line (lit "nlink") (if_not_none (nlink cfs_file))
    ++ field_line (lit "blksize") (if_not_none (blksize cfs_file))
    ++ field_line (lit "sha256") (sha256 cfs_file).

(** ** One file of the source tree: [process_one_file] *)

(** [os.stat_result]: the times in seconds are floats, the times in
    nanoseconds are integers. *)
Record stat_result := mkStat {
  st_mode : Z;
  st_size : Z;
  st_blocks : Z;
  st_uid : Z;
  st_gid : Z;
  st_atime : Py.float;
  st_mtime : Py.float;
  st_ctime : Py.float;
  st_atime_ns : Z;
  st_mtime_ns : Z;
  st_ctime_ns : Z;
  st_nlink : Z;
  st_blksize : Z
}.

Definition S_IFMT (mode : Z) : Z := Z.land mode 61440.   (* 0o170000 *)
Definition S_ISREG (mode : Z) : bool := S_IFMT mode =? 32768.  (* 0o100000 *)
Definition S_ISLNK (mode : Z) : bool := S_IFMT mode =? 40960.  (* 0o120000 *)

Definition create_cfsfile_from_regularfile (st : stat_result) : CFSFile :=
  mkCFSFile
    (Some (st_size st)) (Some (st_blocks st)) (Some (st_mode st))
    (Some (st_uid st)) (Some (st_gid st))
    (Some (Py.Float (st_atime st))) (Some (Py.Float (st_mtime st)))
    (Some (Py.Float (st_ctime st)))
    (Some (st_atime_ns st mod 1000000000))
    (Some (st_mtime_ns st mod 1000000000))
    (Some (st_ctime_ns st mod 1000000000))
    (Some (st_nlink st)) (Some (st_blksize st))
    None.

(** What [does_exist] finds at the output path. *)
Inductive output_entry :=
| Nothing_there
| Regular_or_symlink
| Something_else.

(** The error the function prints before it returns [False]. *)
Inductive failure :=
| Output_exists            (* 'Output file already exists and will not be modified' *)
| Output_name_taken        (* 'Cannot create output file because something already has the same name' *)
| Not_regular_nor_symlink  (* 'Source file was skipped as it is not a regular file nor symlink' *)
| Too_big (size : Z)       (* 'File is too big (... bytes) to be a valid CatalogFS file' *)
| Read_failed (e : exn).   (* 'Failed to read CFSFile, error ...' *)

Inductive file_result :=
| Skipped_existing         (* returns [True], nothing written *)
| Listed (data : str)      (* returns [True], [data] written to the output file *)
| Symlink_copied           (* returns [True] *)
| Failed (why : failure).  (* returns [False] *)

(** [process_one_file].  [output] is the state of the output path, [st] the
    result of [os.lstat(source_file)], [content] the text of the source
    file, [sha256_str] the result of [sha256_wrapper].  [fuel] bounds the
    loop of the reader of the old formats. *)
Definition process_one_file (fuel : nat) (output : output_entry)
  (st : stat_result) (content : str) (sha256_str : option str)
  (skip_existing flag_source_is_cfsfile : bool)
  (flag_data_only flag_data_and_time_only : bool) : outcome file_result :=
  match output with
  | Regular_or_symlink =>
      if skip_existing then Returns Skipped_existing
      else Returns (Failed Output_exists)
  | Something_else => Returns (Failed Output_name_taken)
  | Nothing_there =>
      if negb (S_ISREG (st_mode st)) && negb (S_ISLNK (st_mode st)) then
        Returns (Failed Not_regular_nor_symlink)
      else if S_ISREG (st_mode st) then
        if flag_source_is_cfsfile then
          if FORMAT_MAX_FILE_SIZE <? st_size st then
            Returns (Failed (Too_big (st_size st)))
          else
            match read_cfsfile fuel content
                    (create_cfsfile_from_regularfile st) with
            | Returns cfs_file =>
                Returns (Listed (write_cfsfile cfs_file flag_data_only
                                   flag_data_and_time_only))
            | Raises e => Returns (Failed (Read_failed e))
            | OutOfFuel => OutOfFuel
            end
        else
          Returns (Listed (write_cfsfile
                             (set_sha256 sha256_str
                                (create_cfsfile_from_regularfile st))
                             flag_data_only flag_data_and_time_only))
      else Returns Symlink_copied
  end.
(** ** Auxiliary definitions for the proofs *)

(** Index of the first character of [s] that satisfies [f]. *)
Fixpoint first_index (f : ascii -> bool) (s : str) : option nat :=
  match s with
  | [] => None
  | c :: s' => if f c then Some O else option_map S (first_index f s')
  end.

(** A position found [k] characters after [base], or [-1]. *)
Definition at_offset (base : Z) (k : option nat) : Z :=
  match k with
  | Some k => base + Z.of_nat k
  | None => -1
  end.

(** A position, or [-1], of a string seen from [k] characters before its
    start. *)
Definition shift_pos (k r : Z) : Z := if r =? -1 then -1 else k + r.

(** The length of the first line of [s], without its new-line character. *)
Definition line_length (s : str) : nat :=
  match first_index is_newline_char s with
  | Some k => k
  | None => length s
  end.

Definition is_delimiter (c : ascii) : bool := chr_eqb "="%char c.

(** What one turn of the loop of [cfsfile_get_next_option_pair] does at
    position [base], told from the text [s] that starts there. *)
Definition line_turn (base : Z) (s : str) : outcome (turn (Z * str * str)) :=
  let k := line_length s in
  let line := firstn k s in
  match first_index is_delimiter line with
  | None =>
      if 0 <? len (Py.strip_chars FORMAT_TRIMMING_CHARS line)
      then Raises (RuntimeError Invalid_string)
      else Returns (Continue (base + Z.of_nat k + 1))
  | Some j =>
      Returns (Return (base + Z.of_nat k + 1,
                       Py.strip_chars FORMAT_TRIMMING_CHARS (firstn j line),
                       skipn (S j) line))
  end.

(** The result of the tokenizer on a text, seen from [k] characters before
    the start of the text. *)
Definition shift_pair (k : Z) (r : outcome (Z * str * str))
  : outcome (Z * str * str) :=
  match r with
  | Returns (new_pos, option, value) =>
      Returns (shift_pos k new_pos, option, value)
  | Raises e => Raises e
  | OutOfFuel => OutOfFuel
  end.

Definition no_newline (s : str) : bool :=
  forallb (fun c => negb (is_newline_char c)) s.

Definition no_delimiter (s : str) : bool :=
  forallb (fun c => negb (is_delimiter c)) s.

(** The text ends, or goes on with a new-line character. *)
Definition at_line_end (rest : str) : bool :=
  match rest with
  | [] => true
  | c :: _ => is_newline_char c
  end.

(** A line [name=value] as the writer lays it out. *)
Definition text_line (name value : str) : str :=
  name ++ FORMAT_FIELD_DELIMITER ++ value ++ [FORMAT_NEW_LINE_CHAR].

Fixpoint text_lines (lines : list (str * str)) : str :=
  match lines with
  | [] => []
  | (name, value) :: lines' => text_line name value ++ text_lines lines'
  end.

(** A line the tokenizer reads back as the pair it was made of. *)
Definition plain_line (l : str * str) : bool :=
  no_delimiter (fst l) && no_newline (fst l) && no_newline (snd l).

(** The assignments of the reader for a list of pairs, in order. *)
Fixpoint fill_fields (cfs_file : CFSFile) (lines : list (str * str))
  : outcome CFSFile :=
  match lines with
  | [] => Returns cfs_file
  | (name, value) :: lines' =>
      do cfs_file' <-
        fill_field cfs_file
          (Py.strip_chars FORMAT_TRIMMING_CHARS name) value;
      fill_fields cfs_file' lines'
  end.

(** The characters of a decimal number. *)
Fixpoint uint_chars (d : Decimal.uint) : str :=
  match d with
  | Decimal.Nil => []
  | Decimal.D0 d => "0"%char :: uint_chars d
  | Decimal.D1 d => "1"%char :: uint_chars d
  | Decimal.D2 d => "2"%char :: uint_chars d
  | Decimal.D3 d => "3"%char :: uint_chars d
  | Decimal.D4 d => "4"%char :: uint_chars d
  | Decimal.D5 d => "5"%char :: uint_chars d
  | Decimal.D6 d => "6"%char :: uint_chars d
  | Decimal.D7 d => "7"%char :: uint_chars d
  | Decimal.D8 d => "8"%char :: uint_chars d
  | Decimal.D9 d => "9"%char :: uint_chars d
  end.

(** The characters [str_of_int] writes: the digits and the minus sign. *)
Definition is_int_char (c : ascii) : bool :=
  match Py.digit_of c with
  | Some _ => true
  | None => chr_eqb c "-"%char
  end.

(** The characters that neither [strip], nor [strip(FORMAT_TRIMMING_CHARS)]
    removes, and that neither end a line nor separate a name from its
    value. *)
Definition is_plain_char (c : ascii) : bool :=
  negb (Py.isspace c) && negb (char_in FORMAT_TRIMMING_CHARS c)
  && negb (is_newline_char c) && negb (is_delimiter c).

(** ** The fields of the record, by name *)

Inductive field :=
| F_size
| F_blocks
| F_mode
| F_uid
| F_gid
| F_atime
| F_mtime
| F_ctime
| F_atimensec
| F_mtimensec
| F_ctimensec
| F_nlink
| F_blksize
| F_sha256.

Definition field_name (f : field) : str :=
  match f with
  | F_size => lit "size"
  | F_blocks => lit "blocks"
  | F_mode => lit "mode"
  | F_uid => lit "uid"
  | F_gid => lit "gid"
  | F_atime => lit "atime"
  | F_mtime => lit "mtime"
  | F_ctime => lit "ctime"
  | F_atimensec => lit "atimensec"
  | F_mtimensec => lit "mtimensec"
  | F_ctimensec => lit "ctimensec"
  | F_nlink => lit "nlink"
  | F_blksize => lit "blksize"
  | F_sha256 => lit "sha256"
  end.

Definition field_eqb (f g : field) : bool :=
  str_eqb (field_name f) (field_name g).

(** What an attribute may hold: an [int], a [float] (a time taken from a
    stat) or a text (the hash). *)
Inductive field_value :=
| Int_value (z : Z)
| Float_value (x : Py.float)
| Text_value (s : str).

Definition number_value (x : Py.number) : field_value :=
  match x with
  | Py.Int z => Int_value z
  | Py.Float x => Float_value x
  end.

Definition get_field (f : field) (c : CFSFile) : option field_value :=
  match f with
  | F_size => option_map Int_value (size c)
  | F_blocks => option_map Int_value (blocks c)
  | F_mode => option_map Int_value (mode c)
  | F_uid => option_map Int_value (uid c)
  | F_gid => option_map Int_value (gid c)
  | F_atime => option_map number_value (atime c)
  | F_mtime => option_map number_value (mtime c)
  | F_ctime => option_map number_value (ctime c)
  | F_atimensec => option_map Int_value (atimensec c)
  | F_mtimensec => option_map Int_value (mtimensec c)
  | F_ctimensec => option_map Int_value (ctimensec c)
  | F_nlink => option_map Int_value (nlink c)
  | F_blksize => option_map Int_value (blksize c)
  | F_sha256 => option_map Text_value (sha256 c)
  end.

(** The value the reader takes from the text after the delimiter. *)
Definition read_value (f : field) (value : str) : outcome field_value :=
  match f with
  | F_sha256 =>
      Returns (Text_value (Py.strip_chars FORMAT_TRIMMING_CHARS value))
  | _ => do z <- cfsfile_extract_int value; Returns (Int_value z)
  end.

Definition store_value (f : field) (x : field_value) (c : CFSFile) : CFSFile :=
  match f, x with
  | F_size, Int_value z => set_size (Some z) c
  | F_blocks, Int_value z => set_blocks (Some z) c
  | F_mode, Int_value z => set_mode (Some z) c
  | F_uid, Int_value z => set_uid (Some z) c
  | F_gid, Int_value z => set_gid (Some z) c
  | F_atime, Int_value z => set_atime (Some (Py.Int z)) c
  | F_mtime, Int_value z => set_mtime (Some (Py.Int z)) c
  | F_ctime, Int_value z => set_ctime (Some (Py.Int z)) c
  | F_atime, Float_value x => set_atime (Some (Py.Float x)) c
  | F_mtime, Float_value x => set_mtime (Some (Py.Float x)) c
  | F_ctime, Float_value x => set_ctime (Some (Py.Float x)) c
  | F_atimensec, Int_value z => set_atimensec (Some z) c
  | F_mtimensec, Int_value z => set_mtimensec (Some z) c
  | F_ctimensec, Int_value z => set_ctimensec (Some z) c
  | F_nlink, Int_value z => set_nlink (Some z) c
  | F_blksize, Int_value z => set_blksize (Some z) c
  | F_sha256, Text_value s => set_sha256 (Some s) c
  | _, _ => c
  end.

Definition value_of (f : field) (value : str) : option field_value :=
  match read_value f value with
  | Returns x => Some x
  | _ => None
  end.

(** A line of a field: its value has no new-line character and is one the
    reader accepts for the field. *)
Definition valid_line (l : field * str) : bool :=
  no_newline (snd l) &&
  match value_of (fst l) (snd l) with Some _ => true | None => false end.

Definition named (lines : list (field * str)) : list (str * str) :=
  map (fun l => (field_name (fst l), snd l)) lines.

(** The text after the delimiter on the last line of the field [f]. *)
Fixpoint last_line (f : field) (lines : list (field * str)) : option str :=
  match lines with
  | [] => None
  | (g, v) :: lines' =>
      match last_line f lines' with
      | Some v' => Some v'
      | None => if field_eqb f g then Some v else None
      end
  end.

(** ** What a profile of the writer keeps of a record *)

(** A nanosecond field that is zero is not written. *)
Definition nonzero (v : option Z) : option Z :=
  match v with
  | Some z => if z =? 0 then None else Some z
  | None => None
  end.

(** A time is written in whole seconds, as [int(v)]: of a [float] the
    fraction is lost; an [int] is kept as it is. *)
Definition whole_seconds (v : option Py.number) : option Py.number :=
  option_map (fun x => Py.Int (Py.int_of_number x)) v.

Definition preserved (c : CFSFile)
  (flag_data_only flag_data_and_time_only : bool) : CFSFile :=
  if flag_data_only then
    mkCFSFile (size c) None None None None None None None None None None
      None None (sha256 c)
  else if flag_data_and_time_only then
    mkCFSFile (size c) None None None None None (whole_seconds (mtime c)) None
      None (nonzero (mtimensec c)) None None None (sha256 c)
  else
    mkCFSFile (size c) (blocks c) (mode c) (uid c) (gid c)
      (whole_seconds (atime c)) (whole_seconds (mtime c))
      (whole_seconds (ctime c))
      (nonzero (atimensec c)) (nonzero (mtimensec c)) (nonzero (ctimensec c))
      (nlink c) (blksize c) (sha256 c).

Definition is_none {A} (v : option A) : bool :=
  match v with None => true | Some _ => false end.

Definition not_zero (v : option Z) : bool :=
  match v with Some z => negb (z =? 0) | None => true end.

(** The time, when set, is an [int]: whole seconds, as a record of the
    format has them. *)
Definition is_int (v : option Py.number) : bool :=
  match v with
  | Some (Py.Float _) => false
  | _ => true
  end.

(** Every attribute of the record that is set is one that the profile
    writes, as the record has it: a time is an [int], a nanosecond field is
    not zero. *)
Definition only_emitted (c : CFSFile)
  (flag_data_only flag_data_and_time_only : bool) : bool :=
  if flag_data_only then
    is_none (blocks c) && is_none (mode c) && is_none (uid c)
    && is_none (gid c) && is_none (atime c) && is_none (mtime c)
    && is_none (ctime c) && is_none (atimensec c) && is_none (mtimensec c)
    && is_none (ctimensec c) && is_none (nlink c) && is_none (blksize c)
  else if flag_data_and_time_only then
    is_none (blocks c) && is_none (mode c) && is_none (uid c)
    && is_none (gid c) && is_none (atime c) && is_int (mtime c)
    && is_none (ctime c)
    && is_none (atimensec c) && not_zero (mtimensec c)
    && is_none (ctimensec c) && is_none (nlink c) && is_none (blksize c)
  else
    is_int (atime c) && is_int (mtime c) && is_int (ctime c)
    && not_zero (atimensec c) && not_zero (mtimensec c)
    && not_zero (ctimensec c).

(** A hash as the record holds it: a text that trimming leaves as it is and
    that has no new-line character; a hexadecimal digest is one. *)
Definition hash_wellformed (h : option str) : bool :=
  match h with
  | Some s =>
      str_eqb (Py.strip_chars FORMAT_TRIMMING_CHARS s) s && no_newline s
  | None => true
  end.

Definition is_hex_char (c : ascii) : bool :=
  let n := Z.of_nat (nat_of_ascii c) in
  ((48 <=? n) && (n <=? 57)) || ((97 <=? n) && (n <=? 102)).

Definition is_hex_digest (s : str) : bool :=
  forallb is_hex_char s && (len s =? 64).

(** The lines of the writer, field by field. *)
Definition opt_line (f : field) (value : option str) : list (field * str) :=
  match value with
  | Some v => [(f, v)]
  | None => []
  end.

Definition written_lines (c : CFSFile)
  (flag_data_only flag_data_and_time_only : bool) : list (field * str) :=
  if flag_data_only then
    opt_line F_size (if_not_none (size c))
    ++ opt_line F_sha256 (sha256 c)
  else if flag_data_and_time_only then
    opt_line F_size (if_not_none (size c))
    ++ opt_line F_mtime (if_not_none_int (mtime c))
    ++ opt_line F_mtimensec (if_not_none_nor_zero (mtimensec c))
    ++ opt_line F_sha256 (sha256 c)
  else
    opt_line F_size (if_not_none (size c))
    ++ opt_line F_blocks (if_not_none (blocks c))
    ++ opt_line F_mode (if_not_none (mode c))
    ++ opt_line F_uid (if_not_none (uid c))
    ++ opt_line F_gid (if_not_none (gid c))
    ++ opt_line F_atime (if_not_none_int (atime c))
    ++ opt_line F_mtime (if_not_none_int (mtime c))
    ++ opt_line F_ctime (if_not_none_int (ctime c))
    ++ opt_line F_atimensec (if_not_none_nor_zero (atimensec c))
    ++ opt_line F_mtimensec (if_not_none_nor_zero (mtimensec c))
    ++ opt_line F_ctimensec (if_not_none_nor_zero (ctimensec c))
    ++ opt_line F_nlink (if_not_none (nlink c))
    ++ opt_line F_blksize (if_not_none (blksize c))
    ++ opt_line F_sha256 (sha256 c).

(** ** Texts of the old formats *)

(** No line feed, the one character that ends a line of the old formats. *)
Definition no_line_feed (s : str) : bool :=
  forallb (fun c => negb (chr_eqb "010"%char c)) s.

(** The header pattern as the specification words it: the prefix of the old
    formats followed directly by a digit. *)
Definition legacy_header_pattern (data : str) : bool :=
  Py.startswith data FORMAT_HEADER_PREFIX_OLD_FORMAT &&
  match skipn (length FORMAT_HEADER_PREFIX_OLD_FORMAT) data with
  | c :: _ => match Py.digit_of c with Some _ => true | None => false end
  | [] => false
  end.

(** A record of version 1 whose last line is one space, with no line feed
    after it. *)
Definition unterminated_blank_line : str :=
  lit "CatalogFS.File.1
size: 5
 ".

(** Lines of white space only, each ended by a new-line character. *)
Definition blank_lines (ws : str) : bool :=
  forallb (char_in FORMAT_TRIMMING_CHARS) ws &&
  match rev ws with
  | [] => true
  | c :: _ => is_newline_char c
  end.

(** ** Fields that are not in the text *)

(** [sub in s] *)
Definition contains (s sub : str) : bool :=
  match Py.index_of sub s with
  | Some _ => true
  | None => false
  end.

Definition occurs_in (x s : str) : Prop := exists a b, s = a ++ x ++ b.

Definition is_nsec_field (f : field) : bool :=
  match f with
  | F_atimensec | F_mtimensec | F_ctimensec => true
  | _ => false
  end.


(** The record with the attribute of [f] unset. *)
Definition clear_field (f : field) (c : CFSFile) : CFSFile :=
  match f with
  | F_size => set_size None c
  | F_blocks => set_blocks None c
  | F_mode => set_mode None c
  | F_uid => set_uid None c
  | F_gid => set_gid None c
  | F_atime => set_atime None c
  | F_mtime => set_mtime None c
  | F_ctime => set_ctime None c
  | F_atimensec => set_atimensec None c
  | F_mtimensec => set_mtimensec None c
  | F_ctimensec => set_ctimensec None c
  | F_nlink => set_nlink None c
  | F_blksize => set_blksize None c
  | F_sha256 => set_sha256 None c
  end.

(** ** Further auxiliary definitions *)

(** The function returned, or raised a [RuntimeError]: it did not run out
    of turns and raised no other exception. *)
Definition returns_or_runtime_error {A} (m : outcome A) : Prop :=
  match m with
  | Returns _ => True
  | Raises (RuntimeError _) => True
  | Raises IndexError => False
  | OutOfFuel => False
  end.

Definition all_fields : list field :=
  [F_size; F_blocks; F_mode; F_uid; F_gid; F_atime; F_mtime; F_ctime;
   F_atimensec; F_mtimensec; F_ctimensec; F_nlink; F_blksize; F_sha256].

(** The text is one of the names the reader knows. *)
Definition is_field_name (o : str) : bool :=
  existsb (fun f => str_eqb o (field_name f)) all_fields.

(** The text has a character that trimming does not remove. *)
Definition not_blank (l : str) : bool :=
  negb (forallb (char_in FORMAT_TRIMMING_CHARS) l).

(** Lines [name=value], each ended by a carriage return and a line feed;
    the text starts after the carriage return of the line before. *)
Fixpoint crlf_lines (lines : list (str * str)) : str :=
  match lines with
  | [] => []
  | (name, value) :: lines' =>
      name ++ "="%char :: value
        ++ "013"%char :: "010"%char :: crlf_lines lines'
  end.

(** ** Records laid over records *)

Definition or_else {A} (v w : option A) : option A :=
  match v with
  | Some x => Some x
  | None => w
  end.

(** The record [b] with the attributes that are set in [a] taken from
    [a]. *)
Definition overlay (a b : CFSFile) : CFSFile :=
  mkCFSFile
    (or_else (size a) (size b))
    (or_else (blocks a) (blocks b))
    (or_else (mode a) (mode b))
    (or_else (uid a) (uid b))
    (or_else (gid a) (gid b))
    (or_else (atime a) (atime b))
    (or_else (mtime a) (mtime b))
    (or_else (ctime a) (ctime b))
    (or_else (atimensec a) (atimensec b))
    (or_else (mtimensec a) (mtimensec b))
    (or_else (ctimensec a) (ctimensec b))
    (or_else (nlink a) (nlink b))
    (or_else (blksize a) (blksize b))
    (or_else (sha256 a) (sha256 b)).

(** The second profile writes no field that the first one leaves out. *)
Definition profile_within (d' t' d t : bool) : bool :=
  d' || (negb d && (t' || negb t)).

Definition is_some {A} (v : option A) : bool :=
  match v with Some _ => true | None => false end.

(** Every numeric attribute is set, and no nanosecond attribute is zero:
    the full profile writes a line for each of them. *)
Definition complete (c : CFSFile) : bool :=
  is_some (size c) && is_some (blocks c) && is_some (mode c)
  && is_some (uid c) && is_some (gid c) && is_some (atime c)
  && is_some (mtime c) && is_some (ctime c)
  && is_some (nonzero (atimensec c)) && is_some (nonzero (mtimensec c))
  && is_some (nonzero (ctimensec c))
  && is_some (nlink c) && is_some (blksize c).

(** ** Bodies of the old formats, entry by entry *)

(** An entry of a body: a line [name: value] of a field, or an entry [name]
    or [path], whose value ends with a NUL and a line feed. *)
Inductive old_item :=
| Field_item (f : field) (value : str)
| Path_item (is_name : bool) (path : str).

Definition path_key (is_name : bool) : str :=
  if is_name then lit "name" else lit "path".

Definition old_text_item (i : old_item) : str :=
  match i with
  | Field_item f value =>
      field_name f ++ old_field_sep ++ value ++ old_new_line
  | Path_item is_name path =>
      path_key is_name ++ old_field_sep ++ path ++ old_path_end
  end.

Fixpoint old_text_items (items : list old_item) : str :=
  match items with
  | [] => []
  | i :: items' => old_text_item i ++ old_text_items items'
  end.

(** The lines of fields among the entries, in order. *)
Fixpoint field_items (items : list old_item) : list (field * str) :=
  match items with
  | [] => []
  | Field_item f value :: items' => (f, value) :: field_items items'
  | Path_item _ _ :: items' => field_items items'
  end.

Definition no_nul (s : str) : bool :=
  forallb (fun c => negb (chr_eqb "000"%char c)) s.

(** The value of a field has no line feed; a path has no NUL. *)
Definition old_item_ok (i : old_item) : bool :=
  match i with
  | Field_item _ value => no_line_feed value
  | Path_item _ path => no_nul path
  end.

(** The value the reader of the old formats takes from the text after the
    separator. *)
Definition old_read_value (f : field) (value : str) : outcome field_value :=
  match f with
  | F_sha256 => Returns (Text_value (Py.strip value))
  | _ =>
      match Py.int (Py.strip value) with
      | Some z => Returns (Int_value z)
      | None => Raises (RuntimeError (Not_an_integer (Py.strip value)))
      end
  end.

(** The assignments of the reader of the old formats for a list of
    entries, in order. *)
Fixpoint old_fill_items (c : CFSFile) (items : list old_item)
  : outcome CFSFile :=
  match items with
  | [] => Returns c
  | Field_item f value :: items' =>
      do x <- old_read_value f value;
      old_fill_items (store_value f x c) items'
  | Path_item _ _ :: items' => old_fill_items c items'
  end.

(** The header line of the old formats, for version 1 or version 2. *)
Definition old_header (second : bool) : str :=
  FORMAT_HEADER_PREFIX_OLD_FORMAT
  ++ (if second then lit "2" else lit "1") ++ old_new_line.

Definition as_items (lines : list (field * str)) : list old_item :=
  map (fun l => Field_item (fst l) (snd l)) lines.

Definition plain_value (l : field * str) : bool :=
  forallb is_plain_char (snd l).

Definition no_colon (s : str) : bool :=
  forallb (fun c => negb (chr_eqb ":"%char c)) s.

(** The text is one of the names the reader of the old formats knows. *)
Definition is_old_key (o : str) : bool :=
  is_field_name o || str_eqb o (lit "name") || str_eqb o (lit "path").

(** What the reader raises after entries: the error of the entries when
    they have one, the given error otherwise. *)
Definition then_raises (m : outcome CFSFile) (e : exn) : outcome CFSFile :=
  match m with
  | Returns _ => Raises e
  | Raises e' => Raises e'
  | OutOfFuel => OutOfFuel
  end.

(** The fields of [l] are fields of [fs], in the order of [fs] and each once
    at most when [fs] has no field twice. *)
Fixpoint is_subsequence (l fs : list field) : bool :=
  match l, fs with
  | [], _ => true
  | _ :: _, [] => false
  | x :: l', g :: fs' =>
      if field_eqb x g then is_subsequence l' fs' else is_subsequence l fs'
  end.

(** The separators U+001C..U+001F: white space for [str.strip()], but
    neither for [int()] nor for [strip(FORMAT_TRIMMING_CHARS)]. *)
Definition is_separator (c : ascii) : bool :=
  let n := Z.of_nat (nat_of_ascii c) in
  (28 <=? n) && (n <=? 31).

(** The text the writer gives for a value: the decimal text of an [int],
    the decimal text of [int(x)] for a [float], the text itself for the
    hash. *)
Definition written_value (x : field_value) : str :=
  match x with
  | Int_value z => Py.str_of_int z
  | Float_value x => Py.str_of_int (Py.int_of_float x)
  | Text_value s => s
  end.

(** The line is the one of the hash, or its value is made of digits and of
    the minus sign only. *)
Definition hash_or_decimal (l : field * str) : bool :=
  field_eqb (fst l) F_sha256 || forallb is_int_char (snd l).

Example getitem_neg : Py.getitem (lit "abc") (-1) = Some "c"%char.
Proof. reflexivity. Qed.
Example slice_neg_end : Py.slice (lit "size: 5") 0 (-1) = lit "size: ".
Proof. reflexivity. Qed.
Example find_neg_end : Py.find (lit "size: 5") (lit ": ") 0 (-1) = 4.
Proof. reflexivity. Qed.
Example find_past_end : Py.find (lit "abc") (lit "c") 5 3 = -1.
Proof. reflexivity. Qed.
Example int_underscore : Py.int (lit " +1_000 ") = Some 1000.
Proof. reflexivity. Qed.
Example int_bad_underscore : Py.int (lit "1__0") = None.
Proof. reflexivity. Qed.
Example int_leading_zero : Py.int (lit "-007") = Some (-7).
Proof. reflexivity. Qed.
Example int_empty : Py.int (lit "  ") = None.
Proof. reflexivity. Qed.
Example int_no_break_space : Py.int ("160"%char :: lit "5") = Some 5.
Proof. reflexivity. Qed.
Example int_separator : Py.int ("028"%char :: lit "5") = None.
Proof. reflexivity. Qed.
Example strip_separator : Py.strip ("028"%char :: lit "5") = lit "5".
Proof. reflexivity. Qed.
Example int_sign_alone : Py.int (lit "- 5") = None.
Proof. reflexivity. Qed.
Example str_of_int_neg : Py.str_of_int (-33188) = lit "-33188".
Proof. reflexivity. Qed.
Example str_of_int_zero : Py.str_of_int 0 = lit "0".
Proof. reflexivity. Qed.
(** [int(1700000000.5)], [int(-1.5)], [int(-0.75)] and [int(40.0)] *)
Example int_of_float_half :
  Py.int_of_float (Py.mkFloat 3400000001 (-1)) = 1700000000.
Proof. reflexivity. Qed.
Example int_of_float_negative : Py.int_of_float (Py.mkFloat (-3) (-1)) = -1.
Proof. reflexivity. Qed.
Example int_of_float_small : Py.int_of_float (Py.mkFloat (-3) (-2)) = 0.
Proof. reflexivity. Qed.
Example int_of_float_whole : Py.int_of_float (Py.mkFloat 5 3) = 40.
Proof. reflexivity. Qed.

(** * Properties *)

(** ** Lists, lengths and positions *)

Lemma len_nil : len [] = 0.
Proof. reflexivity. Qed.

Lemma len_cons c s : len (c :: s) = 1 + len s.
Proof. unfold len. cbn [length]. lia. Qed.

Lemma len_app a b : len (a ++ b) = len a + len b.
Proof. unfold len. rewrite length_app. lia. Qed.

Lemma len_nonneg s : 0 <= len s.
Proof. unfold len. lia. Qed.

Lemma to_nat_len s : Z.to_nat (len s) = length s.
Proof. unfold len. lia. Qed.

Lemma skipn_len_app (pre s : str) : skipn (length pre) (pre ++ s) = s.
Proof. induction pre; cbn; auto. Qed.

Lemma skipn_add_app (pre s : str) n :
  skipn (length pre + n) (pre ++ s) = skipn n s.
Proof. induction pre; cbn; auto. Qed.

Lemma firstn_len_app (pre s : str) : firstn (length pre) (pre ++ s) = pre.
Proof. induction pre; cbn; congruence. Qed.

Lemma chr_eqb_eq a b : chr_eqb a b = true <-> a = b.
Proof. apply Ascii.eqb_eq. Qed.

Lemma chr_eqb_refl a : chr_eqb a a = true.
Proof. apply Ascii.eqb_refl. Qed.

Lemma str_eqb_eq a b : str_eqb a b = true <-> a = b.
Proof.
  revert b; induction a as [|x a IH]; intros [|y b]; cbn; split;
    try congruence; auto.
  - intros H. apply andb_true_iff in H as [H1 H2].
    apply chr_eqb_eq in H1. apply IH in H2. congruence.
  - intros H. inversion H; subst. rewrite chr_eqb_refl.
    cbn. apply IH. reflexivity.
Qed.

Lemma str_eqb_refl a : str_eqb a a = true.
Proof. apply str_eqb_eq. reflexivity. Qed.

Lemma str_eqb_neq a b : a <> b -> str_eqb a b = false.
Proof.
  intros H. destruct (str_eqb a b) eqn:E; auto.
  apply str_eqb_eq in E. contradiction.
Qed.

(** ** Slices *)

Lemma adjust_nonneg n i : 0 <= i -> Py.adjust n i = Z.min i n.
Proof. intros H. unfold Py.adjust. destruct (Z.ltb_spec i 0); lia. Qed.

Lemma slice_nonneg s a b :
  0 <= a -> 0 <= b ->
  Py.slice s a b =
  firstn (Z.to_nat (Z.min b (len s) - Z.min a (len s)))
    (skipn (Z.to_nat (Z.min a (len s))) s).
Proof.
  intros Ha Hb. unfold Py.slice. rewrite !adjust_nonneg by assumption.
  reflexivity.
Qed.

Lemma slice_shift pre s a b :
  0 <= a -> 0 <= b ->
  Py.slice (pre ++ s) (len pre + a) (len pre + b) = Py.slice s a b.
Proof.
  intros Ha Hb. pose proof (len_nonneg pre) as Hp.
  rewrite !slice_nonneg by lia. rewrite len_app.
  replace (Z.min (len pre + b) (len pre + len s))
    with (len pre + Z.min b (len s)) by lia.
  replace (Z.min (len pre + a) (len pre + len s))
    with (len pre + Z.min a (len s)) by lia.
  replace (Z.to_nat (len pre + Z.min a (len s)))
    with (length pre + Z.to_nat (Z.min a (len s)))%nat
    by (unfold len; lia).
  rewrite skipn_add_app. f_equal. lia.
Qed.

Lemma slice_prefix x y : Py.slice (x ++ y) 0 (len x) = x.
Proof.
  pose proof (len_nonneg x). pose proof (len_nonneg y).
  rewrite slice_nonneg by lia. rewrite len_app.
  replace (Z.min 0 (len x + len y)) with 0 by lia.
  replace (Z.min (len x) (len x + len y) - 0) with (len x) by lia.
  cbn [Z.to_nat skipn]. rewrite to_nat_len. apply firstn_len_app.
Qed.

Lemma slice_middle x y z :
  Py.slice (x ++ y ++ z) (len x) (len x + len y) = y.
Proof.
  replace (len x) with (len x + 0) at 1 by lia.
  rewrite slice_shift by (pose proof (len_nonneg y); lia).
  apply slice_prefix.
Qed.

Lemma slice_len_le s a b : len (Py.slice s a b) <= len s.
Proof.
  unfold Py.slice, len. rewrite length_firstn, length_skipn. lia.
Qed.

(** ** Searching *)

Lemma first_index_bound f s k : first_index f s = Some k -> (k < length s)%nat.
Proof.
  revert k; induction s as [|c s IH]; cbn; intros k H; [discriminate|].
  destruct (f c).
  - inversion H; lia.
  - destruct (first_index f s) as [k'|]; [|discriminate].
    inversion H; subst. specialize (IH k' eq_refl). lia.
Qed.

Lemma first_index_none f s :
  first_index f s = None <-> Forall (fun c => f c = false) s.
Proof.
  induction s as [|c s IH]; cbn.
  - split; auto.
  - destruct (f c) eqn:E.
    + split; [discriminate|]. intros H. inversion H; congruence.
    + destruct (first_index f s); cbn; split; try discriminate; auto.
      * intros H. inversion H; subst. apply IH in H3. discriminate.
      * intros _. constructor; auto. apply IH. reflexivity.
Qed.

Lemma first_index_app_hit f a c b :
  Forall (fun x => f x = false) a -> f c = true ->
  first_index f (a ++ c :: b) = Some (length a).
Proof.
  intros Ha Hc. induction Ha as [|x a Hx Ha IH]; cbn.
  - rewrite Hc. reflexivity.
  - rewrite Hx, IH. reflexivity.
Qed.

Lemma first_index_app_miss f a b :
  Forall (fun x => f x = false) a ->
  first_index f (a ++ b) = option_map (fun k => (length a + k)%nat) (first_index f b).
Proof.
  intros Ha. induction Ha as [|x a Hx Ha IH]; cbn.
  - destruct (first_index f b); reflexivity.
  - rewrite Hx, IH. destruct (first_index f b); reflexivity.
Qed.

Lemma index_of_single c s :
  Py.index_of [c] s = first_index (chr_eqb c) s.
Proof.
  induction s as [|y s IH]; cbn; [reflexivity|].
  rewrite andb_true_r. destruct (chr_eqb c y); [reflexivity|].
  rewrite <- IH. reflexivity.
Qed.

Lemma getitem_app pre c s : Py.getitem (pre ++ c :: s) (len pre) = Some c.
Proof.
  unfold Py.getitem. pose proof (len_nonneg pre) as Hp.
  pose proof (len_nonneg s) as Hs.
  rewrite len_app, len_cons.
  destruct (Z.ltb_spec (len pre) (- (len pre + (1 + len s)))); [lia|].
  destruct (Z.leb_spec (len pre + (1 + len s)) (len pre)); [lia|].
  cbn [orb]. destruct (Z.ltb_spec (len pre) 0); [lia|].
  rewrite to_nat_len. rewrite nth_error_app2 by lia.
  rewrite Nat.sub_diag. reflexivity.
Qed.

Lemma at_offset_succ base k :
  at_offset (base + 1) k = at_offset base (option_map S k).
Proof. destruct k; cbn; lia. Qed.

Lemma newline_scan_app s : forall pre,
  newline_scan (pre ++ s) (length s) (len pre) =
  Returns (at_offset (len pre) (first_index is_newline_char s)).
Proof.
  induction s as [|c s IH]; intros pre; cbn [newline_scan length first_index].
  - reflexivity.
  - rewrite getitem_app. destruct (is_newline_char c).
    + cbn. f_equal. lia.
    + replace (pre ++ c :: s) with ((pre ++ [c]) ++ s)
        by (rewrite <- app_assoc; reflexivity).
      replace (len pre + 1) with (len (pre ++ [c]))
        by (rewrite len_app; reflexivity).
      rewrite IH. rewrite len_app. change (len [c]) with 1.
      rewrite at_offset_succ. reflexivity.
Qed.

Lemma find_next_newline_app pre s :
  find_next_newline_in_string (pre ++ s) (len pre) =
  Returns (at_offset (len pre) (first_index is_newline_char s)).
Proof.
  unfold find_next_newline_in_string. rewrite len_app.
  replace (Z.to_nat (len pre + len s - len pre)) with (length s)
    by (unfold len; lia).
  apply newline_scan_app.
Qed.

Lemma index_of_short sub s :
  (length s < length sub)%nat -> Py.index_of sub s = None.
Proof.
  revert sub; induction s as [|y s IH]; intros sub H.
  - destruct sub; [cbn in H; lia|reflexivity].
  - destruct sub as [|x sub]; [cbn in H; lia|].
    cbn [Py.index_of].
    assert (Py.is_prefix (x :: sub) (y :: s) = false) as ->.
    { cbn. destruct (chr_eqb x y); [|reflexivity]. cbn.
      clear IH. cbn in H. assert (length s < length sub)%nat as H' by lia.
      clear H. revert sub H'. induction s as [|z s IHs]; intros [|w sub] H';
        cbn in *; try lia; auto.
      destruct (chr_eqb w z); [|reflexivity]. cbn. apply IHs. lia. }
    rewrite IH; [reflexivity|]. cbn in *. lia.
Qed.

Lemma find_nonneg_bounds s sub a b :
  0 <= a -> 0 <= b ->
  Py.find s sub a b =
  if Z.min b (len s) - a <? len sub then -1
  else at_offset a (Py.index_of sub (Py.slice s a b)).
Proof.
  intros Ha Hb. unfold Py.find. rewrite adjust_nonneg by assumption.
  destruct (Z.ltb_spec a 0); [lia|].
  destruct (Z.ltb_spec (Z.min b (len s) - a) (len sub)); [reflexivity|].
  assert (Py.slice s a (Z.min b (len s)) = Py.slice s a b) as ->.
  { pose proof (len_nonneg s). rewrite !slice_nonneg by lia.
    replace (Z.min (Z.min b (len s)) (len s)) with (Z.min b (len s)) by lia.
    reflexivity. }
  reflexivity.
Qed.

Lemma find_shift pre s sub a b :
  0 <= a -> 0 <= b ->
  Py.find (pre ++ s) sub (len pre + a) (len pre + b) =
  shift_pos (len pre) (Py.find s sub a b).
Proof.
  intros Ha Hb. pose proof (len_nonneg pre) as Hp.
  rewrite !find_nonneg_bounds by lia.
  rewrite len_app, slice_shift by assumption.
  replace (Z.min (len pre + b) (len pre + len s) - (len pre + a))
    with (Z.min b (len s) - a) by lia.
  destruct (Z.ltb_spec (Z.min b (len s) - a) (len sub)); [reflexivity|].
  unfold shift_pos. destruct (Py.index_of sub (Py.slice s a b)); cbn.
  - destruct (Z.eqb_spec (a + Z.of_nat n) (-1)); lia.
  - reflexivity.
Qed.

Lemma find_single_prefix s c (k : nat) :
  (k <= length s)%nat ->
  Py.find s [c] 0 (Z.of_nat k) =
  at_offset 0 (first_index (chr_eqb c) (firstn k s)).
Proof.
  intros Hk. rewrite find_nonneg_bounds by lia.
  assert (Py.slice s 0 (Z.of_nat k) = firstn k s) as ->.
  { rewrite slice_nonneg by lia. unfold len.
    replace (Z.min 0 (Z.of_nat (length s))) with 0 by lia.
    cbn [Z.to_nat skipn]. f_equal. lia. }
  rewrite index_of_single. change (len [c]) with 1.
  destruct (Z.ltb_spec (Z.min (Z.of_nat k) (len s) - 0) 1); [|reflexivity].
  unfold len in *. assert (k = O) as -> by lia. reflexivity.
Qed.

(** ** One turn of the tokenizer, seen from the text at the position *)

Lemma slice_at pre s (a b : nat) :
  (b <= length s)%nat ->
  Py.slice (pre ++ s) (len pre + Z.of_nat a) (len pre + Z.of_nat b) =
  firstn (b - a) (skipn a s).
Proof.
  intros Hb. rewrite slice_shift by lia. rewrite slice_nonneg by lia.
  unfold len. destruct (Nat.le_gt_cases a (length s)) as [Ha|Ha].
  - replace (Z.to_nat (Z.min (Z.of_nat a) (Z.of_nat (length s)))) with a by lia.
    f_equal. lia.
  - replace (Z.to_nat (Z.min (Z.of_nat b) (Z.of_nat (length s)) -
                       Z.min (Z.of_nat a) (Z.of_nat (length s)))) with O by lia.
    replace (b - a)%nat with O by lia. reflexivity.
Qed.

Lemma line_length_le s : (line_length s <= length s)%nat.
Proof.
  unfold line_length. destruct (first_index is_newline_char s) eqn:E.
  - apply first_index_bound in E. lia.
  - lia.
Qed.

Lemma option_pair_step_at pre s :
  option_pair_step (pre ++ s) (len pre) = line_turn (len pre) s.
Proof.
  unfold option_pair_step, line_turn.
  rewrite find_next_newline_app. cbn [bind].
  pose proof (line_length_le s) as HK.
  pose proof (len_nonneg pre) as Hp.
  set (K := line_length s) in *.
  assert ((if at_offset (len pre) (first_index is_newline_char s) =? -1
           then len (pre ++ s)
           else at_offset (len pre) (first_index is_newline_char s))
          = len pre + Z.of_nat K) as ->.
  { unfold K, line_length.
    destruct (first_index is_newline_char s); cbn [at_offset].
    - destruct (Z.eqb_spec (len pre + Z.of_nat n) (-1)); [lia|reflexivity].
    - cbn. rewrite len_app. reflexivity. }
  assert (Py.find (pre ++ s) FORMAT_FIELD_DELIMITER (len pre)
            (len pre + Z.of_nat K)
          = shift_pos (len pre)
              (at_offset 0 (first_index is_delimiter (firstn K s)))) as ->.
  { replace (len pre) with (len pre + 0) at 1 by lia.
    rewrite find_shift by lia.
    change FORMAT_FIELD_DELIMITER with ["="%char].
    rewrite find_single_prefix by assumption. reflexivity. }
  assert (Py.slice (pre ++ s) (len pre) (len pre + Z.of_nat K) = firstn K s)
    as ->.
  { replace (len pre) with (len pre + Z.of_nat 0) at 1 by lia.
    rewrite slice_at by assumption. cbn [skipn]. f_equal. lia. }
  destruct (first_index is_delimiter (firstn K s)) as [j|] eqn:Ej;
    cbn [at_offset shift_pos].
  - pose proof (first_index_bound _ _ _ Ej) as Hj.
    rewrite length_firstn in Hj.
    unfold shift_pos.
    destruct (Z.eqb_spec (0 + Z.of_nat j) (-1)); [lia|].
    destruct (Z.eqb_spec (len pre + (0 + Z.of_nat j)) (-1)); [lia|].
    change (len FORMAT_FIELD_DELIMITER) with 1.
    change FORMAT_NEW_LINE_LENGTH with 1.
    replace (len pre + (0 + Z.of_nat j)) with (len pre + Z.of_nat j) by lia.
    replace (len pre + Z.of_nat j + 1) with (len pre + Z.of_nat (S j)) by lia.
    rewrite slice_at by assumption.
    replace (len pre) with (len pre + Z.of_nat 0) at 2 by lia.
    rewrite slice_at by lia. change (skipn 0 s) with s.
    rewrite skipn_firstn_comm, firstn_firstn.
    replace (j - 0)%nat with (Nat.min j K) by lia.
    reflexivity.
  - unfold shift_pos. cbn [Z.eqb].
    change FORMAT_NEW_LINE_LENGTH with 1. reflexivity.
Qed.

(** The same at any position of the text. *)
Lemma option_pair_step_view data p :
  0 <= p <= len data ->
  option_pair_step data p = line_turn p (skipn (Z.to_nat p) data).
Proof.
  intros Hp.
  assert (len (firstn (Z.to_nat p) data) = p) as Hlen.
  { unfold len in *. rewrite length_firstn. lia. }
  pose proof (option_pair_step_at (firstn (Z.to_nat p) data)
                (skipn (Z.to_nat p) data)) as H.
  rewrite firstn_skipn, Hlen in H. exact H.
Qed.

Lemma line_turn_continue p s p' :
  line_turn p s = Returns (Continue p') ->
  p' = p + Z.of_nat (line_length s) + 1.
Proof.
  unfold line_turn.
  destruct (first_index is_delimiter (firstn (line_length s) s)).
  - discriminate.
  - destruct (0 <? _); [discriminate|]. congruence.
Qed.

Lemma line_turn_return p s np o v :
  line_turn p s = Returns (Return (np, o, v)) ->
  np = p + Z.of_nat (line_length s) + 1.
Proof.
  unfold line_turn.
  destruct (first_index is_delimiter (firstn (line_length s) s)).
  - congruence.
  - destruct (0 <? _); discriminate.
Qed.

Lemma line_turn_terminates p s : line_turn p s <> OutOfFuel.
Proof.
  unfold line_turn.
  destruct (first_index is_delimiter (firstn (line_length s) s)).
  - discriminate.
  - destruct (0 <? _); discriminate.
Qed.

Lemma line_turn_shift k p s :
  line_turn (k + p) s =
  match line_turn p s with
  | Returns (Continue p') => Returns (Continue (k + p'))
  | Returns (Return (np, o, v)) => Returns (Return (k + np, o, v))
  | Raises e => Raises e
  | OutOfFuel => OutOfFuel
  end.
Proof.
  unfold line_turn.
  destruct (first_index is_delimiter (firstn (line_length s) s)).
  - do 3 f_equal. f_equal. lia.
  - destruct (0 <? _); [reflexivity|]. do 2 f_equal. lia.
Qed.

(** ** The loop of the tokenizer *)

Lemma option_pair_loop_enough fuel : forall data p fuel',
  0 <= p ->
  Z.max 0 (len data - p) < Z.of_nat fuel ->
  Z.max 0 (len data - p) < Z.of_nat fuel' ->
  option_pair_loop fuel data p = option_pair_loop fuel' data p.
Proof.
  induction fuel as [|fuel IH]; intros data p fuel' Hp H1 H2; [lia|].
  destruct fuel' as [|fuel']; [lia|].
  cbn [option_pair_loop].
  destruct (Z.ltb_spec p (len data)) as [Hlt|Hge]; [|reflexivity].
  rewrite option_pair_step_view by lia.
  destruct (line_turn p (skipn (Z.to_nat p) data)) as [[p'|r]|e|] eqn:E;
    cbn [bind]; try reflexivity.
  apply line_turn_continue in E. apply IH; lia.
Qed.

Lemma pair_past_end data p :
  len data <= p -> cfsfile_get_next_option_pair data p = Returns (-1, [], []).
Proof.
  intros H. unfold cfsfile_get_next_option_pair.
  destruct (Z.leb_spec (len data) p); [reflexivity|lia].
Qed.

(** The tokenizer without its fuel: one turn, and the tokenizer again from
    the next line when the turn skipped a blank line. *)
Lemma pair_unfold data p :
  0 <= p < len data ->
  cfsfile_get_next_option_pair data p =
  (do t <- line_turn p (skipn (Z.to_nat p) data);
   match t with
   | Continue p' => cfsfile_get_next_option_pair data p'
   | Return r => Returns r
   end).
Proof.
  intros Hp. unfold cfsfile_get_next_option_pair at 1.
  destruct (Z.leb_spec (len data) p); [lia|].
  cbn [option_pair_loop].
  destruct (Z.ltb_spec p (len data)); [|lia].
  rewrite option_pair_step_view by lia.
  destruct (line_turn p (skipn (Z.to_nat p) data)) as [[p'|r]|e|] eqn:E;
    cbn [bind]; try reflexivity.
  apply line_turn_continue in E.
  unfold cfsfile_get_next_option_pair.
  destruct (Z.leb_spec (len data) p').
  - destruct (Z.to_nat (len data - p)) as [|n] eqn:En; [lia|].
    cbn [option_pair_loop].
    destruct (Z.ltb_spec p' (len data)); [lia|reflexivity].
  - apply option_pair_loop_enough; lia.
Qed.

Lemma option_pair_loop_progress fuel : forall data p np o v,
  0 <= p ->
  option_pair_loop fuel data p = Returns (np, o, v) ->
  (np = -1 /\ o = [] /\ v = []) \/ p < np <= len data + 1.
Proof.
  induction fuel as [|fuel IH]; intros data p np o v Hp H; [discriminate|].
  cbn [option_pair_loop] in H.
  destruct (Z.ltb_spec p (len data)) as [Hlt|Hge].
  - rewrite option_pair_step_view in H by lia.
    pose proof (line_length_le (skipn (Z.to_nat p) data)) as HK.
    rewrite length_skipn in HK. unfold len in *.
    destruct (line_turn p (skipn (Z.to_nat p) data)) as [[p'|[[np' o'] v']]|e|]
      eqn:E; cbn [bind] in H; try discriminate.
    + apply line_turn_continue in E.
      apply IH in H; [|lia].
      destruct H as [H|H]; [left; exact H|right; lia].
    + apply line_turn_return in E. inversion H; subst. right. lia.
  - inversion H. auto.
Qed.

Lemma pair_progress data p np o v :
  0 <= p ->
  cfsfile_get_next_option_pair data p = Returns (np, o, v) ->
  (np = -1 /\ o = [] /\ v = []) \/ p < np <= len data + 1.
Proof.
  intros Hp. unfold cfsfile_get_next_option_pair.
  destruct (Z.leb_spec (len data) p).
  - intros E. inversion E. auto.
  - apply option_pair_loop_progress. assumption.
Qed.

Lemma option_pair_loop_terminates fuel : forall data p,
  0 <= p ->
  Z.max 0 (len data - p) < Z.of_nat fuel ->
  option_pair_loop fuel data p <> OutOfFuel.
Proof.
  induction fuel as [|fuel IH]; intros data p Hp H; [lia|].
  cbn [option_pair_loop].
  destruct (Z.ltb_spec p (len data)) as [Hlt|Hge]; [|discriminate].
  rewrite option_pair_step_view by lia.
  destruct (line_turn p (skipn (Z.to_nat p) data)) as [[p'|r]|e|] eqn:E;
    cbn [bind]; try discriminate.
  - apply line_turn_continue in E. apply IH; lia.
  - apply line_turn_terminates in E. contradiction.
Qed.

Lemma pair_terminates data p :
  0 <= p -> cfsfile_get_next_option_pair data p <> OutOfFuel.
Proof.
  intros Hp. unfold cfsfile_get_next_option_pair.
  destruct (Z.leb_spec (len data) p); [discriminate|].
  apply option_pair_loop_terminates; lia.
Qed.

Lemma shift_pos_nonneg k r : 0 <= r -> shift_pos k r = k + r.
Proof.
  intros H. unfold shift_pos. destruct (Z.eqb_spec r (-1)); lia.
Qed.

Lemma option_pair_loop_shift fuel : forall pre s p,
  0 <= p ->
  option_pair_loop fuel (pre ++ s) (len pre + p) =
  shift_pair (len pre) (option_pair_loop fuel s p).
Proof.
  induction fuel as [|fuel IH]; intros pre s p Hp; [reflexivity|].
  cbn [option_pair_loop]. pose proof (len_nonneg pre) as Hpre.
  rewrite len_app.
  destruct (Z.ltb_spec p (len s)) as [Hlt|Hge];
    destruct (Z.ltb_spec (len pre + p) (len pre + len s)); try lia;
    [|reflexivity].
  rewrite !option_pair_step_view by (rewrite ?len_app; lia).
  replace (Z.to_nat (len pre + p)) with (length pre + Z.to_nat p)%nat
    by (unfold len; lia).
  rewrite skipn_add_app, line_turn_shift.
  destruct (line_turn p (skipn (Z.to_nat p) s)) as [[p'|[[np o] v]]|e|] eqn:E;
    cbn [bind shift_pair]; try reflexivity.
  - apply line_turn_continue in E. apply IH. lia.
  - apply line_turn_return in E. rewrite shift_pos_nonneg by lia.
    reflexivity.
Qed.

Lemma pair_shift pre s p :
  0 <= p ->
  cfsfile_get_next_option_pair (pre ++ s) (len pre + p) =
  shift_pair (len pre) (cfsfile_get_next_option_pair s p).
Proof.
  intros Hp. unfold cfsfile_get_next_option_pair. rewrite len_app.
  destruct (Z.leb_spec (len s) p);
    destruct (Z.leb_spec (len pre + len s) (len pre + p)); try lia;
    [reflexivity|].
  replace (len pre + len s - (len pre + p)) with (len s - p) by lia.
  apply option_pair_loop_shift. assumption.
Qed.

(** ** The loop of the reader *)

Lemma cfsfile_extract_int_terminates v : cfsfile_extract_int v <> OutOfFuel.
Proof.
  unfold cfsfile_extract_int. destruct (Py.int _); discriminate.
Qed.

Lemma fill_field_terminates c o v : fill_field c o v <> OutOfFuel.
Proof.
  unfold fill_field.
  repeat match goal with
         | |- (if ?b then _ else _) <> _ => destruct b
         end;
    try discriminate;
    pose proof (cfsfile_extract_int_terminates v);
    destruct (cfsfile_extract_int v); cbn; congruence.
Qed.

Lemma fill_loop_enough fuel : forall data p c fuel',
  0 <= p ->
  Z.max 0 (len data - p) < Z.of_nat fuel ->
  Z.max 0 (len data - p) < Z.of_nat fuel' ->
  fill_loop fuel data p c = fill_loop fuel' data p c.
Proof.
  induction fuel as [|fuel IH]; intros data p c fuel' Hp H1 H2; [lia|].
  destruct fuel' as [|fuel']; [lia|].
  cbn [fill_loop].
  destruct (Z.le_gt_cases (len data) p) as [Hge|Hlt].
  - rewrite pair_past_end by assumption. reflexivity.
  - destruct (cfsfile_get_next_option_pair data p) as [[[np o] v]|e|] eqn:E;
      cbn [bind]; try reflexivity.
    apply pair_progress in E; [|assumption].
    destruct (Z.eqb_spec np (-1)); [reflexivity|].
    destruct (fill_field c o v); cbn [bind]; try reflexivity.
    apply IH; lia.
Qed.

Lemma fill_loop_terminates fuel : forall data p c,
  0 <= p ->
  Z.max 0 (len data - p) < Z.of_nat fuel ->
  fill_loop fuel data p c <> OutOfFuel.
Proof.
  induction fuel as [|fuel IH]; intros data p c Hp H; [lia|].
  cbn [fill_loop].
  destruct (Z.le_gt_cases (len data) p) as [Hge|Hlt].
  - rewrite pair_past_end by assumption. discriminate.
  - pose proof (pair_terminates data p Hp) as Ht.
    destruct (cfsfile_get_next_option_pair data p) as [[[np o] v]|e|] eqn:E;
      cbn [bind]; try congruence.
    apply pair_progress in E; [|assumption].
    destruct (Z.eqb_spec np (-1)); [discriminate|].
    pose proof (fill_field_terminates c o v) as Hf.
    destruct (fill_field c o v); cbn [bind]; try congruence.
    apply IH; lia.
Qed.

Lemma fill_loop_shift fuel : forall pre s p c,
  0 <= p ->
  fill_loop fuel (pre ++ s) (len pre + p) c = fill_loop fuel s p c.
Proof.
  induction fuel as [|fuel IH]; intros pre s p c Hp; [reflexivity|].
  cbn [fill_loop]. rewrite pair_shift by assumption.
  pose proof (len_nonneg pre) as Hpre.
  destruct (cfsfile_get_next_option_pair s p) as [[[np o] v]|e|] eqn:E;
    cbn [bind shift_pair]; try reflexivity.
  apply pair_progress in E; [|assumption].
  destruct E as [(-> & _ & _)|E]; [reflexivity|].
  rewrite shift_pos_nonneg by lia.
  destruct (Z.eqb_spec np (-1)); [lia|].
  destruct (Z.eqb_spec (len pre + np) (-1)); [lia|].
  destruct (fill_field c o v); cbn [bind]; try reflexivity.
  apply IH. lia.
Qed.

(** The reader of the current format always ends. *)
Lemma fill_cfsfile_from_string_terminates data c :
  fill_cfsfile_from_string data c <> OutOfFuel.
Proof.
  unfold fill_cfsfile_from_string.
  pose proof (pair_terminates data 0 (Z.le_refl 0)) as Ht.
  destruct (cfsfile_get_next_option_pair data 0) as [[[np o] v]|e|] eqn:E;
    cbn [bind]; try congruence.
  apply pair_progress in E; [|lia].
  destruct E as [(_ & -> & _)|E]; [discriminate|].
  destruct (negb (str_eqb o FORMAT_HEADER_NAME)); [discriminate|].
  destruct (Py.int v); [|discriminate].
  destruct (negb _); [discriminate|].
  apply fill_loop_terminates; unfold len in *; lia.
Qed.

(** ** Reading a line [name=value] *)

Lemma forallb_negb f (s : str) :
  forallb (fun c => negb (f c)) s = true -> Forall (fun c => f c = false) s.
Proof.
  induction s as [|c s IH]; cbn; intros H; constructor.
  - apply andb_true_iff in H as [H _]. destruct (f c); [discriminate|auto].
  - apply IH. apply andb_true_iff in H as [_ H]. exact H.
Qed.

Lemma line_length_of_line line rest :
  no_newline line = true -> at_line_end rest = true ->
  line_length (line ++ rest) = length line.
Proof.
  intros Hl Hr. apply forallb_negb in Hl. unfold line_length.
  destruct rest as [|c rest].
  - rewrite app_nil_r.
    apply first_index_none in Hl. rewrite Hl. reflexivity.
  - cbn in Hr. rewrite first_index_app_hit by assumption. reflexivity.
Qed.

Lemma no_newline_app a b :
  no_newline (a ++ b) = no_newline a && no_newline b.
Proof. apply forallb_app. Qed.

Lemma firstn_exact (a b : str) : firstn (length a) (a ++ b) = a.
Proof. apply firstn_len_app. Qed.

Lemma line_turn_pair p name value rest :
  no_delimiter name = true -> no_newline name = true ->
  no_newline value = true -> at_line_end rest = true ->
  line_turn p (name ++ "="%char :: value ++ rest) =
  Returns (Return (p + len name + len value + 2,
                   Py.strip_chars FORMAT_TRIMMING_CHARS name, value)).
Proof.
  intros Hd Hn Hv Hr. unfold line_turn.
  replace (name ++ "="%char :: value ++ rest)
    with ((name ++ "="%char :: value) ++ rest)
    by (rewrite <- app_assoc; reflexivity).
  rewrite line_length_of_line; [|rewrite no_newline_app, Hn; cbn; exact Hv|exact Hr].
  rewrite firstn_exact.
  rewrite first_index_app_hit; [|apply forallb_negb; exact Hd|reflexivity].
  rewrite firstn_exact.
  replace (skipn (S (length name)) (name ++ "="%char :: value)) with value.
  2:{ replace (S (length name)) with (length name + 1)%nat by lia.
      rewrite skipn_add_app. reflexivity. }
  do 3 f_equal. f_equal. unfold len. rewrite length_app. cbn [length]. lia.
Qed.

Lemma pair_at_line pre name value rest :
  no_delimiter name = true -> no_newline name = true ->
  no_newline value = true -> at_line_end rest = true ->
  cfsfile_get_next_option_pair (pre ++ name ++ "="%char :: value ++ rest)
    (len pre) =
  Returns (len pre + len name + len value + 2,
           Py.strip_chars FORMAT_TRIMMING_CHARS name, value).
Proof.
  intros Hd Hn Hv Hr. pose proof (len_nonneg pre) as Hp.
  rewrite pair_unfold.
  2:{ rewrite !len_app, len_cons.
      pose proof (len_nonneg name). pose proof (len_nonneg (value ++ rest)).
      lia. }
  rewrite to_nat_len, skipn_len_app.
  rewrite line_turn_pair by assumption. reflexivity.
Qed.

Lemma text_line_shape name value rest :
  text_line name value ++ rest =
  name ++ "="%char :: value ++ FORMAT_NEW_LINE_CHAR :: rest.
Proof.
  unfold text_line. change FORMAT_FIELD_DELIMITER with ["="%char].
  rewrite <- !app_assoc. reflexivity.
Qed.

Lemma len_text_line name value :
  len (text_line name value) = len name + len value + 2.
Proof.
  unfold text_line. rewrite !len_app.
  change (len FORMAT_FIELD_DELIMITER) with 1.
  change (len [FORMAT_NEW_LINE_CHAR]) with 1. lia.
Qed.

Lemma fill_loop_lines lines : forall pre fuel c,
  forallb plain_line lines = true ->
  (length lines < fuel)%nat ->
  fill_loop fuel (pre ++ text_lines lines) (len pre) c = fill_fields c lines.
Proof.
  induction lines as [|[name value] lines IH]; intros pre fuel c Hl Hf;
    (destruct fuel as [|fuel]; [cbn in Hf; lia|]); cbn [fill_loop].
  - rewrite pair_past_end by (rewrite app_nil_r; lia). reflexivity.
  - cbn [forallb] in Hl. apply andb_true_iff in Hl as [Hl Hls].
    unfold plain_line in Hl. cbn [fst snd] in Hl.
    apply andb_true_iff in Hl as [Hl Hv].
    apply andb_true_iff in Hl as [Hd Hn].
    cbn [text_lines fill_fields]. rewrite text_line_shape.
    rewrite pair_at_line by (assumption || reflexivity).
    cbn [bind].
    pose proof (len_nonneg pre). pose proof (len_nonneg name).
    pose proof (len_nonneg value).
    destruct (Z.eqb_spec (len pre + len name + len value + 2) (-1)); [lia|].
    destruct (fill_field c _ value) as [c'| |]; cbn [bind]; try reflexivity.
    rewrite <- text_line_shape, app_assoc.
    replace (len pre + len name + len value + 2)
      with (len (pre ++ text_line name value))
      by (rewrite len_app, len_text_line; lia).
    apply IH; [assumption|cbn in Hf; lia].
Qed.

Lemma length_text_lines lines : (length lines <= length (text_lines lines))%nat.
Proof.
  induction lines as [|[name value] lines IH]; cbn [text_lines length]; [lia|].
  rewrite length_app. unfold text_line. rewrite !length_app. cbn. lia.
Qed.

(** A text made of the header and of plain lines is read as the assignments
    of its lines, in order. *)
Lemma fill_header_lines lines c :
  forallb plain_line lines = true ->
  fill_cfsfile_from_string (FORMAT_HEADER_TO_WRITE ++ text_lines lines) c =
  fill_fields c lines.
Proof.
  intros Hl. unfold fill_cfsfile_from_string.
  pose proof (pair_at_line [] (lit "CatalogFS") (lit "3")
                (FORMAT_NEW_LINE_CHAR :: text_lines lines)
                eq_refl eq_refl eq_refl eq_refl) as H.
  change (cfsfile_get_next_option_pair
            (FORMAT_HEADER_TO_WRITE ++ text_lines lines) 0 =
          Returns (12, lit "CatalogFS", lit "3")) in H.
  rewrite H. cbn [bind].
  change (negb (str_eqb (lit "CatalogFS") FORMAT_HEADER_NAME)) with false.
  change (Py.int (lit "3")) with (Some 3).
  change (negb (3 =? CFSFILE_VERSION_3)) with false. cbv iota.
  change 12 with (len FORMAT_HEADER_TO_WRITE).
  apply fill_loop_lines; [assumption|].
  rewrite length_app. pose proof (length_text_lines lines). lia.
Qed.

(** ** Stripping *)

Lemma lstrip_by_keeps f s :
  match s with [] => true | c :: _ => negb (f c) end = true ->
  Py.lstrip_by f s = s.
Proof.
  destruct s as [|c s]; cbn; [reflexivity|].
  destruct (f c); [discriminate|reflexivity].
Qed.

Lemma strip_by_plain f s :
  forallb (fun c => negb (f c)) s = true -> Py.strip_by f s = s.
Proof.
  intros H. unfold Py.strip_by, Py.rstrip_by.
  rewrite (lstrip_by_keeps f s).
  2:{ destruct s; [reflexivity|]. cbn in H.
      apply andb_true_iff in H as [H _]. exact H. }
  rewrite lstrip_by_keeps; [apply rev_involutive|].
  assert (forallb (fun c => negb (f c)) (rev s) = true) as Hr.
  { apply forallb_forall. intros x Hx. apply in_rev in Hx.
    rewrite forallb_forall in H. apply H. exact Hx. }
  destruct (rev s); [reflexivity|]. cbn in Hr.
  apply andb_true_iff in Hr as [Hr _]. exact Hr.
Qed.

Lemma forallb_weaken (f g : ascii -> bool) (s : str) :
  (forall c, f c = true -> g c = true) ->
  forallb f s = true -> forallb g s = true.
Proof.
  intros Hfg H. rewrite forallb_forall in *. auto.
Qed.

Lemma plain_char_space c : is_plain_char c = true -> negb (Py.isspace c) = true.
Proof.
  unfold is_plain_char. intros H.
  repeat (apply andb_true_iff in H as [H ?]). exact H.
Qed.

(** The white space of [int()] is white space of [str.strip()]. *)
Lemma int_space_isspace c : Py.int_space c = true -> Py.isspace c = true.
Proof.
  destruct c as [[] [] [] [] [] [] [] []]; intros H;
    solve [reflexivity | discriminate H].
Qed.

Lemma plain_char_int_space c :
  is_plain_char c = true -> negb (Py.int_space c) = true.
Proof.
  intros H. apply plain_char_space in H.
  destruct (Py.int_space c) eqn:E; [|reflexivity].
  apply int_space_isspace in E. rewrite E in H. discriminate H.
Qed.

Lemma plain_char_trim c :
  is_plain_char c = true -> negb (char_in FORMAT_TRIMMING_CHARS c) = true.
Proof.
  unfold is_plain_char. intros H.
  repeat (apply andb_true_iff in H as [H ?]). assumption.
Qed.

Lemma plain_char_newline c :
  is_plain_char c = true -> negb (is_newline_char c) = true.
Proof.
  unfold is_plain_char. intros H.
  repeat (apply andb_true_iff in H as [H ?]). assumption.
Qed.

Lemma plain_char_delimiter c :
  is_plain_char c = true -> negb (is_delimiter c) = true.
Proof.
  unfold is_plain_char. intros H.
  repeat (apply andb_true_iff in H as [H ?]). assumption.
Qed.

Lemma int_char_plain c : is_int_char c = true -> is_plain_char c = true.
Proof.
  destruct c as [[] [] [] [] [] [] [] []]; intros H;
    solve [reflexivity | discriminate H].
Qed.

(** ** [int(str(z))] is [z] *)

Lemma uint_chars_string d :
  list_ascii_of_string (NilEmpty.string_of_uint d) = uint_chars d.
Proof. induction d; cbn; congruence. Qed.

Lemma uint_chars_int_chars d : forallb is_int_char (uint_chars d) = true.
Proof. induction d; cbn; auto. Qed.

Lemma digits_unfold c t :
  Py.digits (c :: t) =
  match Py.digit_of c with
  | None => None
  | Some d =>
      match t with
      | [] => Some (d Decimal.Nil)
      | "_"%char :: t' => option_map d (Py.digits t')
      | _ => option_map d (Py.digits t)
      end
  end.
Proof. reflexivity. Qed.

Lemma digits_uint_chars d :
  d <> Decimal.Nil -> Py.digits (uint_chars d) = Some d.
Proof.
  induction d as [|d IH|d IH|d IH|d IH|d IH|d IH|d IH|d IH|d IH|d IH];
    intros Hd; [congruence| | | | | | | | | |];
    cbn [uint_chars]; rewrite digits_unfold; cbn [Py.digit_of];
    (destruct d;
     [reflexivity
     |assert (Py.digits (uint_chars _) = Some _) as E
        by (apply IH; discriminate);
      cbn [uint_chars] in E |- *; rewrite E; reflexivity ..]).
Qed.

Lemma str_of_int_chars z : forallb is_int_char (Py.str_of_int z) = true.
Proof.
  unfold Py.str_of_int, NilZero.string_of_int, NilZero.string_of_uint.
  destruct z as [|p|p]; cbn [Z.to_int]; [reflexivity| |].
  - pose proof (DecimalPos.Unsigned.to_uint_nonnil p) as Hn.
    destruct (Pos.to_uint p) eqn:E; [congruence|..];
      rewrite uint_chars_string; apply uint_chars_int_chars.
  - pose proof (DecimalPos.Unsigned.to_uint_nonnil p) as Hn.
    destruct (Pos.to_uint p) eqn:E; [congruence|..];
      cbn [list_ascii_of_string]; rewrite uint_chars_string;
      cbn [forallb]; rewrite uint_chars_int_chars; reflexivity.
Qed.

Lemma str_of_int_plain z : forallb is_plain_char (Py.str_of_int z) = true.
Proof.
  eapply forallb_weaken; [apply int_char_plain|apply str_of_int_chars].
Qed.

Lemma int_digits d :
  d <> Decimal.Nil ->
  Py.int (uint_chars d) = Some (Z.of_int (Decimal.Pos d)) /\
  Py.int ("-"%char :: uint_chars d) = Some (Z.of_int (Decimal.Neg d)).
Proof.
  intros Hd. unfold Py.int.
  rewrite !strip_by_plain.
  - pose proof (digits_uint_chars d Hd) as E.
    split; [|rewrite E; reflexivity].
    destruct d; [congruence|..]; cbn [uint_chars] in E |- *;
      rewrite E; reflexivity.
  - cbn [forallb]. change (negb (Py.int_space "-"%char)) with true.
    cbn [andb]. eapply forallb_weaken; [|apply uint_chars_int_chars].
    intros c Hc. apply plain_char_int_space, int_char_plain, Hc.
  - eapply forallb_weaken; [|apply uint_chars_int_chars].
    intros c Hc. apply plain_char_int_space, int_char_plain, Hc.
Qed.

Lemma int_str_of_int z : Py.int (Py.str_of_int z) = Some z.
Proof.
  rewrite <- (DecimalZ.of_to z) at 2.
  unfold Py.str_of_int, NilZero.string_of_int, NilZero.string_of_uint.
  destruct z as [|p|p]; cbn [Z.to_int]; [reflexivity| |];
    pose proof (DecimalPos.Unsigned.to_uint_nonnil p) as Hn;
    destruct (int_digits (Pos.to_uint p) Hn) as [Hpos Hneg];
    destruct (Pos.to_uint p) eqn:E; try congruence;
    cbn [list_ascii_of_string]; rewrite uint_chars_string;
    assumption.
Qed.

Lemma cfsfile_extract_int_str z :
  cfsfile_extract_int (Py.str_of_int z) = Returns z.
Proof.
  unfold cfsfile_extract_int, Py.strip_chars.
  rewrite strip_by_plain.
  - rewrite int_str_of_int. reflexivity.
  - eapply forallb_weaken; [|apply str_of_int_plain].
    intros c. apply plain_char_trim.
Qed.

Lemma str_of_int_no_newline z : no_newline (Py.str_of_int z) = true.
Proof.
  eapply forallb_weaken; [|apply str_of_int_plain].
  intros c. apply plain_char_newline.
Qed.

(** ** The fields by name *)

Lemma field_eqb_eq f g : field_eqb f g = true <-> f = g.
Proof. destruct f, g; cbn; split; congruence. Qed.

Lemma field_name_strip f :
  Py.strip_chars FORMAT_TRIMMING_CHARS (field_name f) = field_name f.
Proof. destruct f; reflexivity. Qed.

Lemma field_name_plain f :
  no_delimiter (field_name f) = true /\ no_newline (field_name f) = true.
Proof. destruct f; split; reflexivity. Qed.

Lemma fill_field_by_name f c v :
  fill_field c (field_name f) v =
  (do x <- read_value f v; Returns (store_value f x c)).
Proof.
  destruct f; unfold fill_field, read_value;
    cbn -[cfsfile_extract_int Py.strip_chars];
    try destruct (cfsfile_extract_int v); reflexivity.
Qed.

Lemma get_store_value f g v x c :
  read_value g v = Returns x ->
  get_field f (store_value g x c) =
  if field_eqb f g then Some x else get_field f c.
Proof.
  intros H.
  assert (match g, x with
          | F_sha256, Text_value _ => True
          | F_sha256, _ => False
          | _, Int_value _ => True
          | _, _ => False
          end) as Hk.
  { destruct g; unfold read_value in H;
      try (destruct (cfsfile_extract_int v); cbn in H);
      inversion H; exact I. }
  destruct g, x; try contradiction; destruct f; reflexivity.
Qed.

Lemma get_field_ext r r' :
  (forall f, get_field f r = get_field f r') -> r = r'.
Proof.
  intros H. destruct r, r'.
  pose proof (H F_size) as H1. pose proof (H F_blocks) as H2.
  pose proof (H F_mode) as H3. pose proof (H F_uid) as H4.
  pose proof (H F_gid) as H5. pose proof (H F_atime) as H6.
  pose proof (H F_mtime) as H7. pose proof (H F_ctime) as H8.
  pose proof (H F_atimensec) as H9. pose proof (H F_mtimensec) as H10.
  pose proof (H F_ctimensec) as H11. pose proof (H F_nlink) as H12.
  pose proof (H F_blksize) as H13. pose proof (H F_sha256) as H14.
  clear H. cbn in *.
  repeat match goal with
         | H : option_map number_value ?a = option_map number_value ?b |- _ =>
             assert (a = b)
               by (destruct a as [[|]|], b as [[|]|]; cbn in H; congruence);
             clear H
         | H : option_map _ ?a = option_map _ ?b |- _ =>
             assert (a = b)
               by (destruct a, b; cbn in H; congruence);
             clear H
         end.
  subst. reflexivity.
Qed.

(** Lines of fields are plain lines. *)
Lemma named_plain lines :
  forallb valid_line lines = true -> forallb plain_line (named lines) = true.
Proof.
  induction lines as [|[f v] lines IH]; cbn [forallb named map]; [auto|].
  intros H. apply andb_true_iff in H as [Hv Hl].
  fold (named lines). rewrite IH by assumption. unfold valid_line in Hv. cbn [fst snd] in *.
  apply andb_true_iff in Hv as [Hv _].
  unfold plain_line. cbn [fst snd].
  destruct (field_name_plain f) as [-> ->]. rewrite Hv. reflexivity.
Qed.

(** The assignments of a list of valid lines succeed, and leave in each
    field the value of its last line. *)
Lemma fill_fields_last lines : forall c,
  forallb valid_line lines = true ->
  exists r,
    fill_fields c (named lines) = Returns r /\
    forall f,
      get_field f r =
      match last_line f lines with
      | Some v => value_of f v
      | None => get_field f c
      end.
Proof.
  induction lines as [|[g v] lines IH]; intros c H.
  - exists c. split; reflexivity.
  - cbn [forallb] in H. apply andb_true_iff in H as [Hv Hl].
    unfold valid_line in Hv. cbn [fst snd] in Hv.
    apply andb_true_iff in Hv as [_ Hv].
    cbn [named map fill_fields fst snd]. fold (named lines).
    rewrite field_name_strip, fill_field_by_name.
    unfold value_of in Hv.
    destruct (read_value g v) as [x| |] eqn:Ex; try discriminate.
    cbn [bind].
    destruct (IH (store_value g x c) Hl) as (r & Hr & Hget).
    exists r. split; [exact Hr|].
    intros f. rewrite Hget. cbn [last_line].
    destruct (last_line f lines); [reflexivity|].
    rewrite (get_store_value f g v x c Ex).
    destruct (field_eqb f g) eqn:E; [|reflexivity].
    apply field_eqb_eq in E. subst g. unfold value_of. rewrite Ex.
    reflexivity.
Qed.

Lemma header_not_old_format rest :
  is_old_format_cfsfile (FORMAT_HEADER_TO_WRITE ++ rest) = false.
Proof. reflexivity. Qed.

(** Reading the header followed by valid lines of fields. *)
Lemma read_header_lines fuel lines c :
  forallb valid_line lines = true ->
  exists r,
    read_cfsfile fuel (FORMAT_HEADER_TO_WRITE ++ text_lines (named lines)) c
    = Returns r /\
    forall f,
      get_field f r =
      match last_line f lines with
      | Some v => value_of f v
      | None => get_field f c
      end.
Proof.
  intros H. unfold read_cfsfile. rewrite header_not_old_format.
  rewrite fill_header_lines by (apply named_plain; exact H).
  apply fill_fields_last. exact H.
Qed.

(** C9. When a text of the current format has several lines for the same
    field, each with a value the reader accepts, reading succeeds and each
    field of the record holds the value of its last line: later lines
    overwrite earlier ones. *)
Theorem duplicate_fields_last_wins :
  forall (fuel : nat) (lines : list (field * str)) (c : CFSFile),
    forallb valid_line lines = true ->
    exists r,
      read_cfsfile fuel (FORMAT_HEADER_TO_WRITE ++ text_lines (named lines)) c
      = Returns r /\
      forall f,
        get_field f r =
        match last_line f lines with
        | Some v => value_of f v
        | None => get_field f c
        end.
Proof. intros fuel lines c H. apply read_header_lines. exact H. Qed.

Lemma duplicate_fields_last_wins_witness :
  let lines := [(F_size, lit "1"); (F_mode, lit "33188"); (F_size, lit " 2 ")] in
  forallb valid_line lines = true /\
  exists r,
    read_cfsfile 0 (FORMAT_HEADER_TO_WRITE ++ text_lines (named lines))
      CFSFile_new = Returns r /\
    forall f,
      get_field f r =
      match last_line f lines with
      | Some v => value_of f v
      | None => get_field f CFSFile_new
      end.
Proof.
  split; [reflexivity|].
  apply (duplicate_fields_last_wins 0
           [(F_size, lit "1"); (F_mode, lit "33188"); (F_size, lit " 2 ")]
           CFSFile_new).
  reflexivity.
Defined.

(** A value with one of the separators U+001C..U+001F is refused: trimming
    leaves the separator, and [int()] does not pass over it. *)
Example separator_in_value :
  read_cfsfile 0 (lit "CatalogFS=3
size=" ++ "028"%char :: lit "5
") CFSFile_new
  = Raises (RuntimeError (Not_an_integer ("028"%char :: lit "5"))).
Proof. reflexivity. Qed.

Example separator_in_version :
  read_cfsfile 0 (lit "CatalogFS=" ++ "028"%char :: lit "3
size=5
") CFSFile_new
  = Raises (RuntimeError (Invalid_version_string ("028"%char :: lit "3"))).
Proof. reflexivity. Qed.

Example separator_not_valid :
  valid_line (F_size, "028"%char :: lit "5") = false.
Proof. reflexivity. Qed.

Example duplicate_size_lines :
  read_cfsfile 0 (lit "CatalogFS=3
size=1
mode=33188
size= 2 
") CFSFile_new
  = Returns (set_mode (Some 33188) (set_size (Some 2) CFSFile_new)).
Proof. reflexivity. Qed.

(** ** The text of the writer, as lines of fields *)

Lemma text_lines_app a b : text_lines (a ++ b) = text_lines a ++ text_lines b.
Proof.
  induction a as [|[n v] a IH]; cbn [text_lines app]; [reflexivity|].
  rewrite IH, app_assoc. reflexivity.
Qed.

Lemma named_app a b : named (a ++ b) = named a ++ named b.
Proof. apply map_app. Qed.

Lemma field_line_lines f v :
  field_line (field_name f) v = text_lines (named (opt_line f v)).
Proof.
  destruct v; cbn; [|reflexivity]. rewrite app_nil_r. reflexivity.
Qed.

Lemma write_as_lines c d t :
  write_cfsfile c d t =
  FORMAT_HEADER_TO_WRITE ++ text_lines (named (written_lines c d t)).
Proof.
  unfold write_cfsfile, written_lines.
  destruct d; [|destruct t];
    rewrite ?named_app, ?text_lines_app, <- ?field_line_lines; reflexivity.
Qed.

Lemma value_of_int f z :
  f <> F_sha256 -> value_of f (Py.str_of_int z) = Some (Int_value z).
Proof.
  intros Hf. destruct f; try congruence;
    unfold value_of, read_value; rewrite cfsfile_extract_int_str;
    reflexivity.
Qed.

Lemma valid_if_not_none f v :
  f <> F_sha256 -> forallb valid_line (opt_line f (if_not_none v)) = true.
Proof.
  intros Hf. destruct v as [z|]; cbn; [|reflexivity].
  unfold valid_line. cbn [fst snd].
  rewrite str_of_int_no_newline, value_of_int by assumption. reflexivity.
Qed.

Lemma valid_if_not_none_int f v :
  f <> F_sha256 -> forallb valid_line (opt_line f (if_not_none_int v)) = true.
Proof.
  intros Hf. destruct v as [x|]; cbn; [|reflexivity].
  unfold valid_line. cbn [fst snd].
  rewrite str_of_int_no_newline, value_of_int by assumption. reflexivity.
Qed.

Lemma valid_if_not_none_nor_zero f v :
  f <> F_sha256 ->
  forallb valid_line (opt_line f (if_not_none_nor_zero v)) = true.
Proof.
  intros Hf. destruct v as [z|]; cbn; [|reflexivity].
  destruct (z =? 0); cbn; [reflexivity|].
  unfold valid_line. cbn [fst snd].
  rewrite str_of_int_no_newline, value_of_int by assumption. reflexivity.
Qed.

Lemma valid_hash h :
  hash_wellformed h = true -> forallb valid_line (opt_line F_sha256 h) = true.
Proof.
  destruct h as [s|]; cbn; [|reflexivity]. intros H.
  apply andb_true_iff in H as [_ H]. unfold valid_line. cbn [fst snd].
  rewrite H. reflexivity.
Qed.

Lemma written_lines_valid c d t :
  hash_wellformed (sha256 c) = true ->
  forallb valid_line (written_lines c d t) = true.
Proof.
  intros H. unfold written_lines.
  destruct d; [|destruct t]; rewrite ?forallb_app;
    rewrite ?valid_if_not_none, ?valid_if_not_none_int,
      ?valid_if_not_none_nor_zero by discriminate;
    rewrite valid_hash by assumption; reflexivity.
Qed.

Lemma last_line_app f a b :
  last_line f (a ++ b) =
  match last_line f b with
  | Some v => Some v
  | None => last_line f a
  end.
Proof.
  induction a as [|[g v] a IH]; cbn [app last_line].
  - destruct (last_line f b); reflexivity.
  - rewrite IH. destruct (last_line f b); reflexivity.
Qed.

Lemma last_line_opt f g v :
  last_line f (opt_line g v) = if field_eqb f g then v else None.
Proof.
  destruct v; cbn; destruct (field_eqb f g); reflexivity.
Qed.

Lemma value_of_hash s :
  hash_wellformed (Some s) = true -> value_of F_sha256 s = Some (Text_value s).
Proof.
  cbn. intros H. apply andb_true_iff in H as [H _].
  apply str_eqb_eq in H. unfold value_of, read_value. rewrite H.
  reflexivity.
Qed.

Ltac kept_field :=
  match goal with
  | |- context [if_not_none ?v] => destruct v; cbn
  | |- context [if_not_none_int ?v] => destruct v; cbn
  | |- context [if_not_none_nor_zero ?v] =>
      let z := fresh "z" in
      destruct v as [z|]; unfold if_not_none_nor_zero, nonzero;
      [destruct (z =? 0)|]; cbn
  | |- _ => idtac
  end;
  rewrite ?value_of_int by discriminate; try reflexivity.

(** Reading what the writer wrote gives back what the profile keeps. *)
Lemma read_written fuel c d t :
  hash_wellformed (sha256 c) = true ->
  read_cfsfile fuel (write_cfsfile c d t) CFSFile_new =
  Returns (preserved c d t).
Proof.
  intros Hh. rewrite write_as_lines.
  destruct (read_header_lines fuel (written_lines c d t) CFSFile_new
              (written_lines_valid c d t Hh)) as (r & Hr & Hget).
  rewrite Hr. f_equal. apply get_field_ext. intros f. rewrite Hget.
  clear Hr Hget. unfold written_lines, preserved.
  destruct c as [a1 a2 a3 a4 a5 a6 a7 a8 a9 a10 a11 a12 a13 h].
  cbn [size blocks mode uid gid atime mtime ctime atimensec mtimensec
       ctimensec nlink blksize sha256] in *.
  destruct d; [|destruct t]; destruct f;
    rewrite ?last_line_app, ?last_line_opt;
    cbn -[if_not_none if_not_none_int if_not_none_nor_zero value_of];
    try (destruct h as [s|]; cbn -[value_of];
         [rewrite (value_of_hash s Hh)|]; reflexivity);
    kept_field.
Qed.

Lemma only_emitted_preserved c d t :
  only_emitted c d t = true -> preserved c d t = c.
Proof.
  destruct c as [a1 a2 a3 a4 a5 a6 a7 a8 a9 a10 a11 a12 a13 h].
  unfold only_emitted, preserved.
  cbn [size blocks mode uid gid atime mtime ctime atimensec mtimensec
       ctimensec nlink blksize sha256].
  destruct d; [|destruct t]; intros H;
    repeat match type of H with
           | _ && _ = true =>
               let H' := fresh "H" in apply andb_true_iff in H as [H H']
           end;
    repeat match goal with
           | H : is_none ?a = true |- _ =>
               destruct a; [discriminate H|clear H]
           | H : is_int ?a = true |- _ =>
               destruct a as [[|]|]; cbn in H; [|discriminate H|]; clear H
           | H : not_zero ?a = true |- _ =>
               let z := fresh "z" in
               destruct a as [z|]; cbn in H;
               [unfold nonzero; destruct (z =? 0); [discriminate H|]|];
               clear H
           end;
    reflexivity.
Qed.

Lemma hex_char_plain c : is_hex_char c = true -> is_plain_char c = true.
Proof.
  destruct c as [[] [] [] [] [] [] [] []]; intros H;
    solve [reflexivity | discriminate H].
Qed.

Lemma hex_digest_wellformed s :
  is_hex_digest s = true -> hash_wellformed (Some s) = true.
Proof.
  unfold is_hex_digest. intros H. apply andb_true_iff in H as [H _].
  assert (forallb is_plain_char s = true) as Hp
    by (eapply forallb_weaken; [apply hex_char_plain|exact H]).
  cbn [hash_wellformed]. unfold Py.strip_chars.
  rewrite strip_by_plain
    by (eapply forallb_weaken; [apply plain_char_trim|exact Hp]).
  rewrite str_eqb_refl. cbn [andb].
  eapply forallb_weaken; [apply plain_char_newline|exact Hp].
Qed.

(** C1. Round trip of the current format.  For a record whose hash, when
    set, is a text that trimming leaves unchanged and that has no new-line
    character (a hexadecimal digest is one), reading on a fresh record what
    the writer wrote under a profile gives the record restricted to what the
    profile keeps, a time being kept in whole seconds; when every attribute
    that is set is one the profile writes as the record has it -- a record
    of the format, whose times are integers -- it gives the record
    itself. *)
Theorem roundtrip_current_format :
  forall (fuel : nat) (c : CFSFile) (flag_data_only flag_data_and_time_only : bool),
    hash_wellformed (sha256 c) = true ->
    read_cfsfile fuel
      (write_cfsfile c flag_data_only flag_data_and_time_only) CFSFile_new
    = Returns (preserved c flag_data_only flag_data_and_time_only)
    /\ (only_emitted c flag_data_only flag_data_and_time_only = true ->
        read_cfsfile fuel
          (write_cfsfile c flag_data_only flag_data_and_time_only) CFSFile_new
        = Returns c).
Proof.
  intros fuel c d t Hh. split.
  - apply read_written. exact Hh.
  - intros He. rewrite read_written by exact Hh.
    rewrite only_emitted_preserved by exact He. reflexivity.
Qed.

Lemma roundtrip_current_format_witness :
  let c := mkCFSFile (Some 4096) None None None None None
             (Some (Py.Int 1700000000))
             None None (Some 5) None None None (Some (lit "ab12")) in
  hash_wellformed (sha256 c) = true /\
  (read_cfsfile 0 (write_cfsfile c false true) CFSFile_new
   = Returns (preserved c false true)
   /\ (only_emitted c false true = true ->
       read_cfsfile 0 (write_cfsfile c false true) CFSFile_new = Returns c)).
Proof.
  split; [reflexivity|].
  apply (roundtrip_current_format 0
           (mkCFSFile (Some 4096) None None None None None
              (Some (Py.Int 1700000000))
              None None (Some 5) None None None (Some (lit "ab12")))
           false true).
  reflexivity.
Defined.

(** A time that is a float, here 1700000000.5 and -1.5, is read back as the
    integer [int] makes of it. *)
Example float_times_read_back :
  read_cfsfile 0
    (write_cfsfile
       (mkCFSFile (Some 4096) None None None None
          (Some (Py.Float (Py.mkFloat (-3) (-1))))
          (Some (Py.Float (Py.mkFloat 3400000001 (-1)))) None
          None None None None None None) false false) CFSFile_new
  = Returns (mkCFSFile (Some 4096) None None None None
               (Some (Py.Int (-1))) (Some (Py.Int 1700000000)) None
               None None None None None None).
Proof. reflexivity. Qed.

(** C7. The record with size 4096, mode 0o100644, mtime 1700000000,
    mtimensec 0 and a digest of 64 hexadecimal characters is written, under
    the full profile, as the header and the lines of size, mode, mtime and
    sha256, in this order, each ended by a new-line character, with no line
    for mtimensec and no other line; reading this text gives the same
    fields back, mtimensec being unset. *)
Theorem encode_concrete_record :
  forall (fuel : nat) (digest : str),
    is_hex_digest digest = true ->
    let r := mkCFSFile (Some 4096) None (Some 33188) None None None
               (Some (Py.Int 1700000000)) None None (Some 0) None None None
               (Some digest) in
    write_cfsfile r false false =
      lit "CatalogFS=3
size=4096
mode=33188
mtime=1700000000
sha256=" ++ digest ++ [FORMAT_NEW_LINE_CHAR]
    /\ read_cfsfile fuel (write_cfsfile r false false) CFSFile_new
       = Returns (mkCFSFile (Some 4096) None (Some 33188) None None None
                    (Some (Py.Int 1700000000)) None None None None None None
                    (Some digest)).
Proof.
  intros fuel digest Hd r. split; [reflexivity|].
  rewrite read_written by (apply hex_digest_wellformed; exact Hd).
  reflexivity.
Qed.

Lemma encode_concrete_record_witness :
  let digest :=
    lit "abcdef0123456789abcdef0123456789abcdef0123456789abcdef0123456789" in
  let r := mkCFSFile (Some 4096) None (Some 33188) None None None
             (Some (Py.Int 1700000000)) None None (Some 0) None None None
             (Some digest) in
  is_hex_digest digest = true /\
  (write_cfsfile r false false =
     lit "CatalogFS=3
size=4096
mode=33188
mtime=1700000000
sha256=" ++ digest ++ [FORMAT_NEW_LINE_CHAR]
   /\ read_cfsfile 0 (write_cfsfile r false false) CFSFile_new
      = Returns (mkCFSFile (Some 4096) None (Some 33188) None None None
                   (Some (Py.Int 1700000000)) None None None None None None
                   (Some digest))).
Proof.
  split; [reflexivity|].
  apply (encode_concrete_record 0
           (lit "abcdef0123456789abcdef0123456789abcdef0123456789abcdef0123456789")).
  reflexivity.
Defined.

(** ** The header of the old formats *)

Lemma find_from_single pre s c :
  Py.find_from (pre ++ s) [c] (len pre) =
  shift_pos (len pre) (at_offset 0 (first_index (chr_eqb c) s)).
Proof.
  unfold Py.find_from. rewrite len_app.
  replace (len pre) with (len pre + 0) at 1 by lia.
  rewrite find_shift by (pose proof (len_nonneg s); lia).
  f_equal.
  pose proof (find_single_prefix s c (length s) (le_n _)) as H.
  rewrite firstn_all in H. exact H.
Qed.

Lemma slice_from_suffix x y : Py.slice_from (x ++ y) (len x) = y.
Proof.
  unfold Py.slice_from. rewrite len_app.
  replace (len x) with (len x + 0) at 1 by lia.
  rewrite slice_shift by (pose proof (len_nonneg y); lia).
  rewrite <- (app_nil_r y) at 1. apply slice_prefix.
Qed.

Lemma is_prefix_app p s : Py.is_prefix p (p ++ s) = true.
Proof.
  induction p as [|x p IH]; cbn; [reflexivity|].
  rewrite chr_eqb_refl. exact IH.
Qed.

Lemma no_line_feed_Forall s :
  no_line_feed s = true ->
  Forall (fun c => chr_eqb "010"%char c = false) s.
Proof. apply forallb_negb. Qed.

(** The reader of the old formats on a text whose first line is the prefix
    followed by [version_str]. *)
Lemma old_format_header fuel version_str body c :
  no_line_feed version_str = true ->
  old_format_fill_cfsfile_from_string fuel
    (FORMAT_HEADER_PREFIX_OLD_FORMAT ++ version_str ++ "010"%char :: body) c
  = match Py.int version_str with
    | None => Raises (RuntimeError (Invalid_version_string version_str))
    | Some v =>
        if negb (v =? 1) && negb (v =? 2)
        then Raises (RuntimeError (Invalid_old_format_version v))
        else old_body_loop fuel body 0 c
    end.
Proof.
  intros Hv. unfold old_format_fill_cfsfile_from_string.
  set (x := FORMAT_HEADER_PREFIX_OLD_FORMAT ++ version_str).
  replace (FORMAT_HEADER_PREFIX_OLD_FORMAT ++ version_str ++ "010"%char :: body)
    with (x ++ "010"%char :: body)
    by (unfold x; rewrite <- app_assoc; reflexivity).
  pose proof (find_from_single [] (x ++ "010"%char :: body) "010"%char) as Hf.
  cbn [app] in Hf. change (len []) with 0 in Hf.
  change old_new_line with ["010"%char]. rewrite Hf. clear Hf.
  rewrite first_index_app_hit; [|unfold x|reflexivity].
  2:{ apply Forall_app. split; [|apply no_line_feed_Forall; exact Hv].
      apply forallb_negb. reflexivity. }
  cbn [at_offset]. rewrite shift_pos_nonneg by lia.
  replace (0 + (0 + Z.of_nat (length x))) with (len x) by (unfold len; lia).
  pose proof (len_nonneg x) as Hx.
  destruct (Z.eqb_spec (len x) (-1)); [lia|].
  rewrite slice_prefix.
  assert (Py.startswith x FORMAT_HEADER_PREFIX_OLD_FORMAT = true) as ->
    by (unfold x, Py.startswith; apply is_prefix_app).
  assert (Py.slice_from x (len FORMAT_HEADER_PREFIX_OLD_FORMAT) = version_str)
    as -> by (unfold x; apply slice_from_suffix).
  cbn [negb].
  destruct (Py.int version_str) as [v|]; [|reflexivity].
  unfold old_format_fill_cfsfile_body_from_string.
  change CFSFILE_VERSION_1 with 1. change CFSFILE_VERSION_2 with 2.
  destruct (negb (v =? 1) && negb (v =? 2)); [reflexivity|].
  replace (x ++ "010"%char :: body) with ((x ++ ["010"%char]) ++ body)
    by (rewrite <- app_assoc; reflexivity).
  replace (len x + len ["010"%char]) with (len (x ++ ["010"%char]))
    by (rewrite len_app; reflexivity).
  rewrite slice_from_suffix. reflexivity.
Qed.

(** A text that starts with the prefix and has no line feed at all. *)
Lemma old_format_no_line_feed fuel rest c :
  no_line_feed rest = true ->
  old_format_fill_cfsfile_from_string fuel
    (FORMAT_HEADER_PREFIX_OLD_FORMAT ++ rest) c
  = Raises (RuntimeError No_valid_header).
Proof.
  intros Hr. unfold old_format_fill_cfsfile_from_string.
  pose proof (find_from_single [] (FORMAT_HEADER_PREFIX_OLD_FORMAT ++ rest)
                "010"%char) as Hf.
  cbn [app] in Hf. change (len []) with 0 in Hf.
  change old_new_line with ["010"%char]. rewrite Hf.
  assert (first_index (chr_eqb "010"%char)
            (FORMAT_HEADER_PREFIX_OLD_FORMAT ++ rest) = None) as ->.
  { apply first_index_none. apply Forall_app.
    split; [apply forallb_negb; reflexivity|].
    apply no_line_feed_Forall. exact Hr. }
  reflexivity.
Qed.

Lemma old_prefix_is_old_format rest :
  is_old_format_cfsfile (FORMAT_HEADER_PREFIX_OLD_FORMAT ++ rest) = true.
Proof. apply is_prefix_app. Qed.

(** ** C2: a loop that does not end *)

Lemma old_body_loop_unfold fuel data p c :
  old_body_loop (S fuel) data p c =
  if p <? len data then
    do (new_pos, c') <- old_body_step data p c;
    old_body_loop fuel data new_pos c'
  else Returns c.
Proof. reflexivity. Qed.

Lemma blank_tail_first_turn c :
  old_body_step (lit "size: 5
 ") 0 c = Returns (8, set_size (Some 5) c).
Proof. reflexivity. Qed.

Lemma blank_tail_second_turn c :
  old_body_step (lit "size: 5
 ") 8 c = Returns (0, c).
Proof. reflexivity. Qed.

Lemma blank_tail_loops fuel : forall c,
  old_body_loop fuel (lit "size: 5
 ") 0 c = OutOfFuel /\
  old_body_loop fuel (lit "size: 5
 ") 8 c = OutOfFuel.
Proof.
  induction fuel as [|fuel IH]; intros c; [split; reflexivity|].
  rewrite !old_body_loop_unfold.
  rewrite blank_tail_first_turn, blank_tail_second_turn.
  change (0 <? len (lit "size: 5
 ")) with true.
  change (8 <? len (lit "size: 5
 ")) with true.
  cbn [bind]. split; apply IH.
Qed.

(** C2. The reader of the old formats does not end on a record of version 1
    whose last line is blank and has no line feed after it: the position
    falls back to the start of the body, so that no number of turns of the
    loop is enough.  (The reader of the current format always ends, see
    [fill_cfsfile_from_string_terminates].) *)
Theorem old_format_reader_hangs :
  forall fuel : nat,
    read_cfsfile fuel unterminated_blank_line CFSFile_new = OutOfFuel.
Proof.
  intros fuel. unfold read_cfsfile.
  change unterminated_blank_line
    with (FORMAT_HEADER_PREFIX_OLD_FORMAT ++ lit "1" ++ "010"%char :: lit "size: 5
 ").
  rewrite old_prefix_is_old_format.
  rewrite old_format_header by reflexivity.
  change (Py.int (lit "1")) with (Some 1). cbv iota.
  change (negb (1 =? 1) && negb (1 =? 2)) with false. cbv iota.
  apply blank_tail_loops.
Qed.

(** ** Versions *)

(** C5. A text whose header line is [CatalogFS=4] is refused with the error
    of an unsupported version, and a text whose first line is
    [CatalogFS.File.3] is refused as well: with the error of an invalid
    version of the old formats when a line feed ends the line, with the
    error of a missing header when the text stops there. *)
Theorem version_rejection :
  (forall fuel rest c,
      at_line_end rest = true ->
      read_cfsfile fuel (lit "CatalogFS=4" ++ rest) c
      = Raises (RuntimeError (Unsupported_version 4)))
  /\ (forall fuel body c,
         read_cfsfile fuel (lit "CatalogFS.File.3" ++ "010"%char :: body) c
         = Raises (RuntimeError (Invalid_old_format_version 3)))
  /\ (forall fuel c,
         read_cfsfile fuel (lit "CatalogFS.File.3") c
         = Raises (RuntimeError No_valid_header)).
Proof.
  split; [|split].
  - intros fuel rest c Hr. unfold read_cfsfile.
    change (is_old_format_cfsfile (lit "CatalogFS=4" ++ rest)) with false.
    cbv iota. unfold fill_cfsfile_from_string.
    pose proof (pair_at_line [] (lit "CatalogFS") (lit "4") rest
                  eq_refl eq_refl eq_refl Hr) as H.
    change (cfsfile_get_next_option_pair (lit "CatalogFS=4" ++ rest) 0 =
            Returns (12, lit "CatalogFS", lit "4")) in H.
    rewrite H. reflexivity.
  - intros fuel body c. unfold read_cfsfile.
    change (lit "CatalogFS.File.3" ++ "010"%char :: body)
      with (FORMAT_HEADER_PREFIX_OLD_FORMAT ++ lit "3" ++ "010"%char :: body).
    rewrite old_prefix_is_old_format.
    rewrite old_format_header by reflexivity. reflexivity.
  - intros fuel c. reflexivity.
Qed.

Lemma version_rejection_witness :
  at_line_end (lit "
size=1
") = true /\
  read_cfsfile 0 (lit "CatalogFS=4" ++ lit "
size=1
") CFSFile_new
  = Raises (RuntimeError (Unsupported_version 4)).
Proof.
  split; [reflexivity|].
  apply (proj1 version_rejection O (lit "
size=1
") CFSFile_new).
  reflexivity.
Defined.

(** C6. The two versions of the old formats are read alike: for every body,
    every record to fill and every number of turns allowed to the loop, the
    text with the header of version 1 and the text with the header of
    version 2 have the same outcome, so that whenever one is read with
    success the other is, into the same record. *)
Theorem legacy_versions_equivalent :
  forall (fuel : nat) (body : str) (c : CFSFile),
    read_cfsfile fuel (lit "CatalogFS.File.1" ++ "010"%char :: body) c
    = read_cfsfile fuel (lit "CatalogFS.File.2" ++ "010"%char :: body) c.
Proof.
  intros fuel body c. unfold read_cfsfile.
  change (lit "CatalogFS.File.1" ++ "010"%char :: body)
    with (FORMAT_HEADER_PREFIX_OLD_FORMAT ++ lit "1" ++ "010"%char :: body).
  change (lit "CatalogFS.File.2" ++ "010"%char :: body)
    with (FORMAT_HEADER_PREFIX_OLD_FORMAT ++ lit "2" ++ "010"%char :: body).
  rewrite !old_prefix_is_old_format.
  rewrite !old_format_header by reflexivity. reflexivity.
Qed.

Example legacy_version_1_read :
  read_cfsfile 8 (lit "CatalogFS.File.1
name: a.txt" ++ "000"%char :: lit "
size: 5
mode: 33188
mtime: 1700000000
") CFSFile_new
  = Returns (set_mtime (Some (Py.Int 1700000000))
               (set_mode (Some 33188) (set_size (Some 5) CFSFile_new))).
Proof. reflexivity. Qed.

Example legacy_version_2_read :
  read_cfsfile 8 (lit "CatalogFS.File.2
name: a.txt" ++ "000"%char :: lit "
size: 5
mode: 33188
mtime: 1700000000
") CFSFile_new
  = Returns (set_mtime (Some (Py.Int 1700000000))
               (set_mode (Some 33188) (set_size (Some 5) CFSFile_new))).
Proof. reflexivity. Qed.

(** C3, as the specification words it, fails: the text below starts with
    the prefix of the old formats, no digit follows the prefix, and yet the
    reader of the old formats is the one that handles it; its error is not
    the one the reader of the current format would raise. *)
Lemma version_sniffing_counterexample :
  let data := lit "CatalogFS.File.x=3
" in
  legacy_header_pattern data = false
  /\ is_old_format_cfsfile data = true
  /\ read_cfsfile 0 data CFSFile_new
     = Raises (RuntimeError (Invalid_version_string (lit "x=3")))
  /\ fill_cfsfile_from_string data CFSFile_new
     = Raises (RuntimeError No_valid_header)
  /\ read_cfsfile 0 data CFSFile_new
     <> fill_cfsfile_from_string data CFSFile_new.
Proof. repeat split; try reflexivity. discriminate. Qed.

(** C3, amended.  The reader of the old formats is chosen exactly when the
    text starts with the prefix [CatalogFS.File.], whatever follows it.  A
    text that starts with the prefix without an integer after it on its
    first line is refused by that reader: invalid version string when a
    line feed ends the line, missing header when the text has no line feed.
    Every other text goes to the reader of the current format. *)
Theorem version_sniffing_by_prefix :
  (forall fuel rest c,
      read_cfsfile fuel (FORMAT_HEADER_PREFIX_OLD_FORMAT ++ rest) c
      = old_format_fill_cfsfile_from_string fuel
          (FORMAT_HEADER_PREFIX_OLD_FORMAT ++ rest) c)
  /\ (forall fuel data c,
         Py.startswith data FORMAT_HEADER_PREFIX_OLD_FORMAT = false ->
         read_cfsfile fuel data c = fill_cfsfile_from_string data c)
  /\ (forall fuel version_str body c,
         no_line_feed version_str = true ->
         Py.int version_str = None ->
         read_cfsfile fuel
           (FORMAT_HEADER_PREFIX_OLD_FORMAT ++ version_str
              ++ "010"%char :: body) c
         = Raises (RuntimeError (Invalid_version_string version_str)))
  /\ (forall fuel rest c,
         no_line_feed rest = true ->
         read_cfsfile fuel (FORMAT_HEADER_PREFIX_OLD_FORMAT ++ rest) c
         = Raises (RuntimeError No_valid_header)).
Proof.
  split; [|split; [|split]].
  - intros fuel rest c. unfold read_cfsfile.
    rewrite old_prefix_is_old_format. reflexivity.
  - intros fuel data c H. unfold read_cfsfile, is_old_format_cfsfile.
    rewrite H. reflexivity.
  - intros fuel version_str body c Hv Hi. unfold read_cfsfile.
    rewrite old_prefix_is_old_format.
    rewrite old_format_header by exact Hv. rewrite Hi. reflexivity.
  - intros fuel rest c Hr. unfold read_cfsfile.
    rewrite old_prefix_is_old_format.
    apply old_format_no_line_feed. exact Hr.
Qed.

Lemma version_sniffing_by_prefix_witness :
  (Py.startswith (lit "CatalogFS=3
size=1
") FORMAT_HEADER_PREFIX_OLD_FORMAT = false /\
   read_cfsfile 0 (lit "CatalogFS=3
size=1
") CFSFile_new
   = fill_cfsfile_from_string (lit "CatalogFS=3
size=1
") CFSFile_new)
  /\ (no_line_feed (lit "x=3") = true /\ Py.int (lit "x=3") = None /\
      read_cfsfile 0
        (FORMAT_HEADER_PREFIX_OLD_FORMAT ++ lit "x=3"
           ++ "010"%char :: lit "size: 5") CFSFile_new
      = Raises (RuntimeError (Invalid_version_string (lit "x=3"))))
  /\ (no_line_feed (lit "1") = true /\
      read_cfsfile 0 (FORMAT_HEADER_PREFIX_OLD_FORMAT ++ lit "1") CFSFile_new
      = Raises (RuntimeError No_valid_header)).
Proof.
  destruct version_sniffing_by_prefix as (_ & Hcur & Hver & Hnone).
  split; [|split].
  - split; [reflexivity|]. apply (Hcur O). reflexivity.
  - split; [reflexivity|]. split; [reflexivity|].
    apply (Hver O); reflexivity.
  - split; [reflexivity|]. apply (Hnone O). reflexivity.
Defined.

(** ** The size guard of [process_one_file] *)

(** C8. For a regular source file taken as a CatalogFS file, with nothing at
    the output path: a size above 1,048,576 bytes is refused with the error
    of a file too big, whatever the content of the file is, and so without
    reading it; a size of at most 1,048,576 bytes is never refused with
    that error, the result being the one of reading the content and writing
    the record. *)
Theorem size_guard :
  forall (fuel : nat) (st : stat_result) (content : str)
         (sha256_str : option str)
         (skip_existing flag_data_only flag_data_and_time_only : bool),
    S_ISREG (st_mode st) = true ->
    FORMAT_MAX_FILE_SIZE = 1048576
    /\ (1048576 < st_size st ->
        process_one_file fuel Nothing_there st content sha256_str
          skip_existing true flag_data_only flag_data_and_time_only
        = Returns (Failed (Too_big (st_size st))))
    /\ (st_size st <= 1048576 ->
        process_one_file fuel Nothing_there st content sha256_str
          skip_existing true flag_data_only flag_data_and_time_only
        = match read_cfsfile fuel content
                  (create_cfsfile_from_regularfile st) with
          | Returns cfs_file =>
              Returns (Listed (write_cfsfile cfs_file flag_data_only
                                 flag_data_and_time_only))
          | Raises e => Returns (Failed (Read_failed e))
          | OutOfFuel => OutOfFuel
          end
        /\ forall n,
            process_one_file fuel Nothing_there st content sha256_str
              skip_existing true flag_data_only flag_data_and_time_only
            <> Returns (Failed (Too_big n))).
Proof.
  intros fuel st content sha skip d t Hreg.
  split; [reflexivity|]. unfold process_one_file. rewrite Hreg.
  cbn [negb andb]. change FORMAT_MAX_FILE_SIZE with 1048576.
  split.
  - intros H. destruct (Z.ltb_spec 1048576 (st_size st)); [reflexivity|lia].
  - intros H. destruct (Z.ltb_spec 1048576 (st_size st)); [lia|].
    split; [reflexivity|].
    intros n. destruct (read_cfsfile fuel content _); discriminate.
Qed.

Lemma size_guard_witness :
  let st := mkStat 33188 1048577 2056 1000 1000
              (Py.mkFloat 1700000000 0) (Py.mkFloat 1700000000 0)
              (Py.mkFloat 1700000000 0) 0 0 0 1 4096 in
  let content := lit "CatalogFS=3
size=4096
" in
  S_ISREG (st_mode st) = true /\ 1048576 < st_size st /\
  read_cfsfile 0 content (create_cfsfile_from_regularfile st)
  = Returns (set_size (Some 4096) (create_cfsfile_from_regularfile st)) /\
  process_one_file 0 Nothing_there st content None false true false false
  = Returns (Failed (Too_big 1048577)).
Proof.
  split; [reflexivity|]. split; [reflexivity|]. split; [reflexivity|].
  apply (size_guard 0
           (mkStat 33188 1048577 2056 1000 1000
              (Py.mkFloat 1700000000 0) (Py.mkFloat 1700000000 0)
              (Py.mkFloat 1700000000 0) 0 0 0 1 4096)
           (lit "CatalogFS=3
size=4096
") None false false false eq_refl).
  reflexivity.
Defined.

(** ** Blank lines before the header *)

Lemma first_index_split f s k :
  first_index f s = Some k ->
  exists a c b,
    s = a ++ c :: b /\ length a = k /\
    Forall (fun x => f x = false) a /\ f c = true.
Proof.
  revert k; induction s as [|x s IH]; cbn; intros k H; [discriminate|].
  destruct (f x) eqn:E.
  - inversion H; subst. exists [], x, s. repeat split; auto.
  - destruct (first_index f s) as [k'|]; [|discriminate].
    inversion H; subst.
    destruct (IH k' eq_refl) as (a & c & b & -> & Hlen & Ha & Hc).
    exists (x :: a), c, b. repeat split; cbn; auto.
Qed.

Lemma lstrip_by_all f s : forallb f s = true -> Py.lstrip_by f s = [].
Proof.
  induction s as [|c s IH]; cbn; [reflexivity|].
  intros H. apply andb_true_iff in H as [-> H]. auto.
Qed.

Lemma strip_by_all f s : forallb f s = true -> Py.strip_by f s = [].
Proof.
  intros H. unfold Py.strip_by. rewrite lstrip_by_all by assumption.
  reflexivity.
Qed.

Lemma trimming_not_delimiter c :
  char_in FORMAT_TRIMMING_CHARS c = true -> is_delimiter c = false.
Proof.
  destruct c as [[] [] [] [] [] [] [] []]; intros H;
    solve [reflexivity | discriminate H].
Qed.

Lemma blank_lines_last_newline ws c :
  blank_lines (ws ++ [c]) = true -> is_newline_char c = true.
Proof.
  unfold blank_lines. rewrite rev_app_distr. cbn.
  intros H. apply andb_true_iff in H as [_ H]. exact H.
Qed.

(** A text of blank lines is empty, or a first blank line and a text of
    blank lines. *)
Lemma blank_lines_split ws :
  blank_lines ws = true -> ws <> [] ->
  exists l c ws',
    ws = l ++ c :: ws' /\ no_newline l = true /\ is_newline_char c = true /\
    forallb (char_in FORMAT_TRIMMING_CHARS) l = true /\
    blank_lines ws' = true.
Proof.
  intros H Hne. unfold blank_lines in H.
  apply andb_true_iff in H as [Hall Hlast].
  destruct (first_index is_newline_char ws) as [k|] eqn:E.
  - destruct (first_index_split _ _ _ E) as (l & c & ws' & -> & _ & Hl & Hc).
    exists l, c, ws'. rewrite forallb_app in Hall.
    apply andb_true_iff in Hall as [Hall1 Hall2]. cbn in Hall2.
    apply andb_true_iff in Hall2 as [_ Hall2].
    repeat split; auto.
    + apply forallb_forall. intros x Hx. rewrite Forall_forall in Hl.
      rewrite (Hl x Hx). reflexivity.
    + unfold blank_lines. rewrite Hall2. cbn [andb].
      rewrite rev_app_distr in Hlast. cbn [rev] in Hlast.
      destruct (rev ws') as [|y r] eqn:Er; [reflexivity|].
      rewrite <- app_assoc in Hlast. cbn in Hlast. exact Hlast.
  - exfalso. apply first_index_none in E.
    destruct (rev ws) as [|y r] eqn:Er.
    + apply (f_equal (@rev ascii)) in Er. rewrite rev_involutive in Er.
      cbn in Er. contradiction.
    + rewrite Forall_forall in E.
      assert (In y ws) as Hy
        by (apply in_rev; rewrite Er; left; reflexivity).
      rewrite (E y Hy) in Hlast. discriminate.
Qed.

Lemma line_turn_blank p l c rest :
  no_newline l = true -> is_newline_char c = true ->
  forallb (char_in FORMAT_TRIMMING_CHARS) l = true ->
  line_turn p (l ++ c :: rest) = Returns (Continue (p + len l + 1)).
Proof.
  intros Hl Hc Hall. unfold line_turn.
  rewrite line_length_of_line by (cbn; assumption).
  rewrite firstn_exact.
  assert (first_index is_delimiter l = None) as ->.
  { apply first_index_none. rewrite forallb_forall in Hall.
    apply Forall_forall. intros x Hx.
    apply trimming_not_delimiter. auto. }
  unfold Py.strip_chars. rewrite strip_by_all by assumption.
  reflexivity.
Qed.

Lemma pair_skips_blank_lines n : forall ws pre s,
  (length ws <= n)%nat ->
  blank_lines ws = true ->
  cfsfile_get_next_option_pair (pre ++ ws ++ s) (len pre) =
  cfsfile_get_next_option_pair (pre ++ ws ++ s) (len pre + len ws).
Proof.
  induction n as [|n IH]; intros ws pre s Hn Hb.
  - destruct ws; [|cbn in Hn; lia]. cbn. f_equal. lia.
  - destruct ws as [|w ws0] eqn:Ews.
    { cbn. f_equal. lia. }
    rewrite <- Ews in *.
    destruct (blank_lines_split ws Hb) as (l & c & ws' & E & Hl & Hc & Hall & Hb');
      [rewrite Ews; discriminate|].
    pose proof (len_nonneg pre) as Hp. pose proof (len_nonneg l) as Hll.
    rewrite pair_unfold.
    2:{ rewrite !len_app. rewrite Ews, len_cons.
        pose proof (len_nonneg ws0). pose proof (len_nonneg s). lia. }
    rewrite to_nat_len, skipn_len_app.
    rewrite E at 1. rewrite <- app_assoc. cbn [app].
    rewrite line_turn_blank by assumption. cbn [bind].
    assert (pre ++ ws ++ s = (pre ++ l ++ [c]) ++ ws' ++ s) as Ed.
    { rewrite E. rewrite <- !app_assoc. reflexivity. }
    rewrite Ed.
    replace (len pre + len l + 1) with (len (pre ++ l ++ [c]))
      by (rewrite !len_app; change (len [c]) with 1; lia).
    replace (len pre + len ws) with (len (pre ++ l ++ [c]) + len ws')
      by (rewrite E, !len_app, !len_cons; change (len []) with 0; lia).
    apply IH; [|exact Hb'].
    rewrite E, length_app in Hn. cbn in Hn. lia.
Qed.

Lemma blank_lines_not_old_format ws data :
  blank_lines ws = true -> ws <> [] ->
  is_old_format_cfsfile (ws ++ data) = false.
Proof.
  intros H Hne. destruct ws as [|w ws]; [contradiction|].
  unfold blank_lines in H. cbn [forallb] in H.
  apply andb_true_iff in H as [H _]. apply andb_true_iff in H as [H _].
  unfold is_old_format_cfsfile, Py.startswith.
  change (Py.is_prefix FORMAT_HEADER_PREFIX_OLD_FORMAT ((w :: ws) ++ data))
    with (chr_eqb "C"%char w
          && Py.is_prefix (lit "atalogFS.File.") (ws ++ data)).
  destruct (chr_eqb "C"%char w) eqn:E; [|reflexivity].
  apply chr_eqb_eq in E. subst w. discriminate H.
Qed.

Lemma fill_after_blank_lines ws data c :
  blank_lines ws = true ->
  fill_cfsfile_from_string (ws ++ data) c = fill_cfsfile_from_string data c.
Proof.
  intros Hb. unfold fill_cfsfile_from_string.
  pose proof (pair_skips_blank_lines (length ws) ws [] data (le_n _) Hb) as H.
  cbn [app] in H. change (len []) with 0 in H. rewrite H. clear H.
  replace (0 + len ws) with (len ws + 0) by lia.
  rewrite pair_shift by lia.
  destruct (cfsfile_get_next_option_pair data 0) as [[[np o] v]|e|] eqn:E;
    cbn [shift_pair bind]; try reflexivity.
  destruct (negb (str_eqb o FORMAT_HEADER_NAME)) eqn:Eo; [reflexivity|].
  destruct (Py.int v) as [version_int|]; [|reflexivity].
  destruct (negb (version_int =? CFSFILE_VERSION_3)); [reflexivity|].
  apply pair_progress in E; [|lia].
  destruct E as [(_ & -> & _)|E]; [discriminate Eo|].
  rewrite shift_pos_nonneg by lia.
  rewrite fill_loop_shift by lia.
  apply fill_loop_enough; unfold len in *; rewrite ?length_app; lia.
Qed.

(** C10. Lines of white space before the header are passed over: for a text
    that is not one of the old formats, putting before it any number of
    lines made of spaces, tabs and carriage returns, each ended by a
    new-line character, does not change the outcome of reading; a text read
    with success is read with success into the same record. *)
Theorem leading_blank_lines :
  forall (fuel : nat) (ws data : str) (c : CFSFile),
    blank_lines ws = true ->
    is_old_format_cfsfile data = false ->
    read_cfsfile fuel (ws ++ data) c = read_cfsfile fuel data c
    /\ forall r,
        read_cfsfile fuel data c = Returns r ->
        read_cfsfile fuel (ws ++ data) c = Returns r.
Proof.
  intros fuel ws data c Hb Hd.
  assert (read_cfsfile fuel (ws ++ data) c = read_cfsfile fuel data c) as E.
  { destruct ws as [|w ws0] eqn:Ews; [reflexivity|]. rewrite <- Ews in *.
    unfold read_cfsfile. rewrite Hd.
    rewrite blank_lines_not_old_format
      by (try assumption; rewrite Ews; discriminate).
    apply fill_after_blank_lines. exact Hb. }
  split; [exact E|]. intros r Hr. rewrite E. exact Hr.
Qed.

Lemma leading_blank_lines_witness :
  let ws := lit "
  " ++ "013"%char :: lit "
" ++ ["009"%char; "010"%char] in
  let data := lit "CatalogFS=3
size=4096
" in
  blank_lines ws = true /\ is_old_format_cfsfile data = false /\
  read_cfsfile 0 data CFSFile_new = Returns (set_size (Some 4096) CFSFile_new)
  /\ read_cfsfile 0 (ws ++ data) CFSFile_new
     = Returns (set_size (Some 4096) CFSFile_new).
Proof.
  split; [reflexivity|]. split; [reflexivity|]. split; [reflexivity|].
  apply (leading_blank_lines 0
           (lit "
  " ++ "013"%char :: lit "
" ++ ["009"%char; "010"%char])
           (lit "CatalogFS=3
size=4096
") CFSFile_new eq_refl eq_refl).
  reflexivity.
Defined.

(** ** A field that the text does not name is left as it was *)

Lemma occurs_in_refl s : occurs_in s s.
Proof. exists [], []. rewrite app_nil_r. reflexivity. Qed.

Lemma occurs_in_nil s : occurs_in [] s.
Proof. exists [], s. reflexivity. Qed.

Lemma occurs_in_trans x y z : occurs_in x y -> occurs_in y z -> occurs_in x z.
Proof.
  intros (a & b & ->) (a' & b' & ->).
  exists (a' ++ a), (b ++ b'). rewrite <- !app_assoc. reflexivity.
Qed.

Lemma occurs_in_slice s a b : occurs_in (Py.slice s a b) s.
Proof.
  unfold Py.slice.
  set (m := Z.to_nat (Py.adjust (len s) a)).
  set (n := Z.to_nat (Py.adjust (len s) b - Py.adjust (len s) a)).
  exists (firstn m s), (skipn n (skipn m s)).
  rewrite firstn_skipn, firstn_skipn. reflexivity.
Qed.

Lemma lstrip_by_suffix f s : exists a, s = a ++ Py.lstrip_by f s.
Proof.
  induction s as [|c s [a IH]]; cbn.
  - exists []. reflexivity.
  - destruct (f c).
    + exists (c :: a). cbn. congruence.
    + exists []. reflexivity.
Qed.

Lemma occurs_in_strip f s : occurs_in (Py.strip_by f s) s.
Proof.
  unfold Py.strip_by, Py.rstrip_by.
  destruct (lstrip_by_suffix f s) as [a Ha].
  destruct (lstrip_by_suffix f (rev (Py.lstrip_by f s))) as [b Hb].
  exists a, (rev b).
  apply (f_equal (@rev ascii)) in Hb.
  rewrite rev_involutive, rev_app_distr in Hb.
  rewrite <- Hb. exact Ha.
Qed.

Lemma index_of_prefix x s :
  Py.is_prefix x s = true -> Py.index_of x s = Some O.
Proof. intros H. destruct s; cbn [Py.index_of]; rewrite H; reflexivity. Qed.

Lemma occurs_contains x s : occurs_in x s -> contains s x = true.
Proof.
  intros (a & b & ->). unfold contains.
  induction a as [|c a IH]; cbn [app].
  - rewrite index_of_prefix by apply is_prefix_app. reflexivity.
  - cbn [Py.index_of].
    destruct (Py.is_prefix x (c :: a ++ x ++ b)); [reflexivity|].
    destruct (Py.index_of x (a ++ x ++ b)); [reflexivity|discriminate].
Qed.

Lemma option_pair_loop_occurs fuel : forall data p np o v,
  option_pair_loop fuel data p = Returns (np, o, v) -> occurs_in o data.
Proof.
  induction fuel as [|fuel IH]; intros data p np o v H; [discriminate|].
  cbn [option_pair_loop] in H.
  destruct (p <? len data); [|inversion H; apply occurs_in_nil].
  unfold option_pair_step in H.
  destruct (find_next_newline_in_string data p) as [found| |];
    cbn [bind] in H; try discriminate.
  destruct (Py.find data FORMAT_FIELD_DELIMITER p _ =? -1).
  - destruct (0 <? _); cbn [bind] in H; [discriminate|].
    eapply IH. exact H.
  - cbn [bind] in H. inversion H; subst.
    eapply occurs_in_trans; [apply occurs_in_strip|apply occurs_in_slice].
Qed.

Lemma pair_occurs data p np o v :
  cfsfile_get_next_option_pair data p = Returns (np, o, v) ->
  occurs_in o data.
Proof.
  unfold cfsfile_get_next_option_pair.
  destruct (len data <=? p).
  - intros H. inversion H. apply occurs_in_nil.
  - apply option_pair_loop_occurs.
Qed.

Ltac other_field H f Hne :=
  cbn [bind] in H; inversion H; subst;
  destruct f; try reflexivity; exfalso; apply Hne; reflexivity.

Lemma fill_field_other f c o v c' :
  fill_field c o v = Returns c' ->
  o <> field_name f ->
  get_field f c' = get_field f c.
Proof.
  unfold fill_field. intros H Hne.
  repeat match type of H with
         | (if str_eqb o ?n then _ else _) = _ =>
             let E := fresh "E" in
             destruct (str_eqb o n) eqn:E;
             [apply str_eqb_eq in E; subst o;
              try destruct (cfsfile_extract_int v);
              other_field H f Hne
             |clear E]
         end.
  discriminate H.
Qed.

Lemma fill_loop_absent fuel : forall data p c r f,
  contains data (field_name f) = false ->
  fill_loop fuel data p c = Returns r ->
  get_field f r = get_field f c.
Proof.
  induction fuel as [|fuel IH]; intros data p c r f Hc H; [discriminate|].
  cbn [fill_loop] in H.
  destruct (cfsfile_get_next_option_pair data p) as [[[np o] v]|e|] eqn:E;
    cbn [bind] in H; try discriminate.
  destruct (np =? -1); [inversion H; reflexivity|].
  destruct (fill_field c o v) as [c'| |] eqn:Ef; cbn [bind] in H;
    try discriminate.
  rewrite (IH _ _ _ _ _ Hc H).
  apply (fill_field_other f c o v c' Ef).
  intros ->. apply pair_occurs, occurs_contains in E. congruence.
Qed.

Lemma fill_absent data c r f :
  contains data (field_name f) = false ->
  fill_cfsfile_from_string data c = Returns r ->
  get_field f r = get_field f c.
Proof.
  intros Hc. unfold fill_cfsfile_from_string.
  destruct (cfsfile_get_next_option_pair data 0) as [[[np o] v]|e|];
    cbn [bind]; try discriminate.
  destruct (negb _); [discriminate|].
  destruct (Py.int v); [|discriminate].
  destruct (negb _); [discriminate|].
  apply fill_loop_absent. exact Hc.
Qed.

Lemma old_fill_field_other f data c param value_start np c' :
  old_fill_field data c param value_start = Returns (np, c') ->
  param <> field_name f ->
  get_field f c' = get_field f c.
Proof.
  unfold old_fill_field. intros H Hne.
  repeat match type of H with
         | (if str_eqb param ?n then _ else _) = _ =>
             let E := fresh "E" in
             destruct (str_eqb param n) eqn:E;
             [apply str_eqb_eq in E; subst param;
              try (destruct (old_format_extract_next_int data value_start)
                     as [[? ?]| |]);
              try (destruct (old_format_extract_next_string data value_start));
              other_field H f Hne
             |clear E]
         end.
  discriminate H.
Qed.

Lemma old_body_loop_absent fuel : forall data p c r f,
  contains data (field_name f) = false ->
  old_body_loop fuel data p c = Returns r ->
  get_field f r = get_field f c.
Proof.
  induction fuel as [|fuel IH]; intros data p c r f Hc H; [discriminate|].
  rewrite old_body_loop_unfold in H.
  destruct (p <? len data); [|inversion H; reflexivity].
  unfold old_body_step in H.
  destruct (Py.find data old_field_sep p _ =? -1).
  - destruct (0 <? _); cbn [bind] in H; [discriminate|].
    apply (IH _ _ _ _ _ Hc H).
  - destruct (old_fill_field data c _ _) as [[np c']| |] eqn:Ef;
      cbn [bind] in H; try discriminate.
    rewrite (IH _ _ _ _ _ Hc H).
    apply (old_fill_field_other f _ _ _ _ _ _ Ef).
    intros E.
    pose proof (occurs_in_slice data p
                  (Py.find data old_field_sep p
                     (Py.find_from data old_new_line p))) as Ho.
    rewrite E in Ho. apply occurs_contains in Ho. congruence.
Qed.

Lemma contains_false_occurs x s s' :
  contains s x = false -> occurs_in s' s -> contains s' x = false.
Proof.
  intros Hc Ho. destruct (contains s' x) eqn:E; [|reflexivity].
  unfold contains in E.
  destruct (Py.index_of x s') as [k|] eqn:Ek; [|discriminate].
  assert (occurs_in x s') as Hx.
  { clear E Ho Hc. revert k Ek.
    induction s' as [|c s' IH]; intros k Ek; cbn [Py.index_of] in Ek.
    - destruct x; [apply occurs_in_nil|discriminate].
    - destruct (Py.is_prefix x (c :: s')) eqn:Ep.
      + clear IH Ek. exists []. cbn [app].
        revert Ep. generalize (c :: s'). clear.
        induction x as [|a x IH]; intros l Ep.
        * exists l. reflexivity.
        * destruct l as [|b l]; [discriminate|]. cbn in Ep.
          apply andb_true_iff in Ep as [E1 E2]. apply chr_eqb_eq in E1.
          subst b. destruct (IH l E2) as [t Ht]. exists t. cbn. congruence.
      + destruct (Py.index_of x s') as [k'|]; [|discriminate].
        destruct (IH k' eq_refl) as (a & b & ->).
        exists (c :: a), b. reflexivity. }
  pose proof (occurs_contains x s (occurs_in_trans _ _ _ Hx Ho)).
  congruence.
Qed.

Lemma old_format_absent fuel data c r f :
  contains data (field_name f) = false ->
  old_format_fill_cfsfile_from_string fuel data c = Returns r ->
  get_field f r = get_field f c.
Proof.
  intros Hc. unfold old_format_fill_cfsfile_from_string.
  destruct (_ =? -1); [discriminate|].
  destruct (negb _); [discriminate|].
  destruct (Py.int _) as [version|]; [|discriminate].
  destruct (negb _ && negb _); [discriminate|].
  unfold old_format_fill_cfsfile_body_from_string.
  destruct (negb _ && negb _); [discriminate|].
  apply old_body_loop_absent.
  eapply contains_false_occurs; [exact Hc|apply occurs_in_slice].
Qed.

Lemma read_absent fuel data c r f :
  contains data (field_name f) = false ->
  read_cfsfile fuel data c = Returns r ->
  get_field f r = get_field f c.
Proof.
  intros Hc. unfold read_cfsfile. destruct (is_old_format_cfsfile data).
  - apply old_format_absent. exact Hc.
  - apply fill_absent. exact Hc.
Qed.

(** ** Nanoseconds that are zero *)

Ltac zero_nsec f c H :=
  destruct f; try discriminate;
  destruct c as [a1 a2 a3 a4 a5 a6 a7 a8 a9 a10 a11 a12 a13 h];
  cbn [get_field atimensec mtimensec ctimensec] in H;
  match type of H with
  | option_map _ ?a = _ => destruct a as [z|]; [|discriminate H]
  end;
  cbn [option_map] in H; inversion H; subst; clear H.

Lemma zero_nsec_not_written f c d t :
  is_nsec_field f = true ->
  get_field f c = Some (Int_value 0) ->
  write_cfsfile c d t = write_cfsfile (clear_field f c) d t
  /\ last_line f (written_lines c d t) = None.
Proof.
  intros Hf H. zero_nsec f c H;
    (split; [destruct d, t; reflexivity|]);
    unfold written_lines;
    cbn [size blocks mode uid gid atime mtime ctime atimensec mtimensec
         ctimensec nlink blksize sha256];
    destruct d; [|destruct t| |destruct t| |destruct t];
    rewrite ?last_line_app, ?last_line_opt; reflexivity.
Qed.

Lemma zero_nsec_not_kept f c d t :
  is_nsec_field f = true ->
  get_field f c = Some (Int_value 0) ->
  get_field f (preserved c d t) = None.
Proof.
  intros Hf H. zero_nsec f c H; destruct d, t; reflexivity.
Qed.

(** C4. A nanosecond field that is zero is not written, under any profile:
    the text is the one of the record without the field, and none of its
    lines is a line of the field.  Read on a fresh record, this text leaves
    the field unset, not zero.  More generally a field whose name does not
    occur in a text is left by the reader as it was in the record to fill,
    so unset in a fresh record: no value is made up for it. *)
Theorem zero_nanoseconds_suppressed :
  (forall (fuel : nat) (f : field) (c : CFSFile)
          (flag_data_only flag_data_and_time_only : bool),
      is_nsec_field f = true ->
      get_field f c = Some (Int_value 0) ->
      write_cfsfile c flag_data_only flag_data_and_time_only
      = write_cfsfile (clear_field f c) flag_data_only flag_data_and_time_only
      /\ (exists lines,
             write_cfsfile c flag_data_only flag_data_and_time_only
             = FORMAT_HEADER_TO_WRITE ++ text_lines (named lines)
             /\ last_line f lines = None)
      /\ (hash_wellformed (sha256 c) = true ->
          exists r,
            read_cfsfile fuel
              (write_cfsfile c flag_data_only flag_data_and_time_only)
              CFSFile_new = Returns r
            /\ get_field f r = None))
  /\ (forall (fuel : nat) (f : field) (data : str) (c r : CFSFile),
         contains data (field_name f) = false ->
         read_cfsfile fuel data c = Returns r ->
         get_field f r = get_field f c
         /\ (c = CFSFile_new -> get_field f r = None)).
Proof.
  split.
  - intros fuel f c d t Hf H.
    destruct (zero_nsec_not_written f c d t Hf H) as [Hw Hl].
    split; [exact Hw|]. split.
    + exists (written_lines c d t). split; [apply write_as_lines|exact Hl].
    + intros Hh. exists (preserved c d t).
      split; [apply read_written; exact Hh|].
      apply zero_nsec_not_kept; assumption.
  - intros fuel f data c r Hc Hr.
    pose proof (read_absent fuel data c r f Hc Hr) as E.
    split; [exact E|]. intros ->. rewrite E. destruct f; reflexivity.
Qed.

Lemma zero_nanoseconds_suppressed_witness :
  let c := mkCFSFile (Some 4096) None (Some 33188) None None
             (Some (Py.Int 1700000000)) (Some (Py.Int 1700000001)) None
             (Some 0) (Some 7) None None None (Some (lit "ab12")) in
  let data := lit "CatalogFS=3
size=4096
mtimensec=7
" in
  (is_nsec_field F_atimensec = true /\
   get_field F_atimensec c = Some (Int_value 0) /\
   hash_wellformed (sha256 c) = true /\
   write_cfsfile c false false
   = write_cfsfile (clear_field F_atimensec c) false false /\
   exists r,
     read_cfsfile 0 (write_cfsfile c false false) CFSFile_new = Returns r
     /\ get_field F_atimensec r = None)
  /\ (contains data (field_name F_atimensec) = false /\
      read_cfsfile 0 data CFSFile_new
      = Returns (set_mtimensec (Some 7) (set_size (Some 4096) CFSFile_new)) /\
      get_field F_atimensec
        (set_mtimensec (Some 7) (set_size (Some 4096) CFSFile_new)) = None).
Proof.
  destruct zero_nanoseconds_suppressed as [Hzero Habsent].
  split.
  - destruct (Hzero O F_atimensec
                (mkCFSFile (Some 4096) None (Some 33188) None None
                   (Some (Py.Int 1700000000)) (Some (Py.Int 1700000001)) None
                   (Some 0) (Some 7) None None None (Some (lit "ab12")))
                false false eq_refl eq_refl) as (Hw & _ & Hr).
    split; [reflexivity|]. split; [reflexivity|]. split; [reflexivity|].
    split; [exact Hw|]. apply Hr. reflexivity.
  - split; [reflexivity|]. split; [reflexivity|].
    apply (Habsent O F_atimensec
             (lit "CatalogFS=3
size=4096
mtimensec=7
") CFSFile_new
             (set_mtimensec (Some 7) (set_size (Some 4096) CFSFile_new))
             eq_refl eq_refl).
    reflexivity.
Defined.

(** * Further properties of the reader of the current format *)

(** ** How the reader ends *)

Lemma line_turn_raises p s e :
  line_turn p s = Raises e -> e = RuntimeError Invalid_string.
Proof.
  unfold line_turn.
  destruct (first_index is_delimiter (firstn (line_length s) s)).
  - discriminate.
  - destruct (0 <? _); [congruence|discriminate].
Qed.

Lemma option_pair_loop_raises fuel : forall data p e,
  0 <= p ->
  option_pair_loop fuel data p = Raises e -> e = RuntimeError Invalid_string.
Proof.
  induction fuel as [|fuel IH]; intros data p e Hp H; [discriminate|].
  cbn [option_pair_loop] in H.
  destruct (Z.ltb_spec p (len data)) as [Hlt|Hge]; [|discriminate].
  rewrite option_pair_step_view in H by lia.
  destruct (line_turn p (skipn (Z.to_nat p) data)) as [[p'|r]|e'|] eqn:E;
    cbn [bind] in H; try discriminate.
  - apply line_turn_continue in E. apply (IH data p' e); [lia|exact H].
  - apply line_turn_raises in E. congruence.
Qed.

Lemma pair_raises data p e :
  0 <= p ->
  cfsfile_get_next_option_pair data p = Raises e ->
  e = RuntimeError Invalid_string.
Proof.
  intros Hp. unfold cfsfile_get_next_option_pair.
  destruct (len data <=? p); [discriminate|].
  apply option_pair_loop_raises. exact Hp.
Qed.

Lemma fill_field_raises c o v e :
  fill_field c o v = Raises e ->
  e = RuntimeError Unknown_param_name \/
  e = RuntimeError (Not_an_integer v).
Proof.
  unfold fill_field, cfsfile_extract_int. intros H.
  repeat match type of H with
         | (if ?b then _ else _) = _ =>
             destruct b;
             [try (destruct (Py.int _); cbn [bind] in H;
                   [discriminate H|right; congruence]);
              try discriminate H|]
         end.
  left. congruence.
Qed.

Lemma fill_loop_raises fuel : forall data p c e,
  0 <= p ->
  fill_loop fuel data p c = Raises e -> exists m, e = RuntimeError m.
Proof.
  induction fuel as [|fuel IH]; intros data p c e Hp H; [discriminate|].
  cbn [fill_loop] in H.
  destruct (cfsfile_get_next_option_pair data p) as [[[np o] v]|e'|] eqn:E;
    cbn [bind] in H; try discriminate.
  - destruct (Z.eqb_spec np (-1)) as [|Hnp]; [discriminate|].
    apply pair_progress in E; [|exact Hp].
    destruct (fill_field c o v) as [c'|e'|] eqn:Ef; cbn [bind] in H;
      try discriminate.
    + apply (IH data np c' e); [|exact H].
      destruct E as [(E & _)|E]; lia.
    + apply fill_field_raises in Ef. inversion H; subst.
      destruct Ef as [->| ->]; eexists; reflexivity.
  - apply pair_raises in E; [|exact Hp]. inversion H; subst.
    eexists; reflexivity.
Qed.

(** X1. The reader of the current format ends on every text and for every
    record to fill: it returns the record or raises a [RuntimeError]; the
    turns allowed to its loops are never used up and no index is ever out
    of range. *)
Theorem current_reader_always_ends :
  forall (data : str) (c : CFSFile),
    returns_or_runtime_error (fill_cfsfile_from_string data c).
Proof.
  intros data c.
  pose proof (fill_cfsfile_from_string_terminates data c) as Ht.
  destruct (fill_cfsfile_from_string data c) as [r|e|] eqn:E; cbn;
    [exact I| |congruence].
  clear Ht. unfold fill_cfsfile_from_string in E.
  destruct (cfsfile_get_next_option_pair data 0) as [[[np o] v]|e'|] eqn:Ep;
    cbn [bind] in E; try discriminate.
  - destruct (negb (str_eqb o FORMAT_HEADER_NAME)) eqn:Eh.
    { inversion E; subst. exact I. }
    destruct (Py.int v) as [z|].
    2:{ inversion E; subst. exact I. }
    destruct (negb (z =? CFSFILE_VERSION_3)).
    { inversion E; subst. exact I. }
    apply pair_progress in Ep; [|lia].
    destruct Ep as [(_ & -> & _)|Ep]; [discriminate Eh|].
    apply fill_loop_raises in E; [destruct E as [m ->]; exact I|lia].
  - apply pair_raises in Ep; [|lia]. inversion E; subst. exact I.
Qed.

(** ** What the tokenizer returns *)

Lemma first_index_firstn f s :
  forallb (fun c => negb (f c))
    (firstn (match first_index f s with
             | Some k => k
             | None => length s
             end) s) = true.
Proof.
  induction s as [|c s IH]; cbn [first_index]; [reflexivity|].
  destruct (f c) eqn:E; [reflexivity|].
  destruct (first_index f s); cbn [option_map length firstn forallb];
    rewrite E; exact IH.
Qed.

Lemma forallb_occurs (g : ascii -> bool) x s :
  occurs_in x s -> forallb g s = true -> forallb g x = true.
Proof.
  intros (a & b & ->). rewrite !forallb_app.
  intros H. apply andb_true_iff in H as [_ H].
  apply andb_true_iff in H as [H _]. exact H.
Qed.

Lemma occurs_in_firstn n (s : str) : occurs_in (firstn n s) s.
Proof. exists [], (skipn n s). cbn. symmetry. apply firstn_skipn. Qed.

Lemma occurs_in_skipn n (s : str) : occurs_in (skipn n s) s.
Proof.
  exists (firstn n s), []. rewrite app_nil_r. symmetry. apply firstn_skipn.
Qed.

Lemma line_turn_return_shape p s np o v :
  line_turn p s = Returns (Return (np, o, v)) ->
  no_newline o = true /\ no_delimiter o = true /\ no_newline v = true.
Proof.
  unfold line_turn.
  pose proof (first_index_firstn is_newline_char s) as Hline.
  fold (line_length s) in Hline.
  set (line := firstn (line_length s) s) in *.
  pose proof (first_index_firstn is_delimiter line) as Hname.
  destruct (first_index is_delimiter line) as [j|];
    [|destruct (0 <? _); discriminate].
  intros H. injection H as _ Ho Hv. subst o v. unfold Py.strip_chars.
  split; [|split].
  - eapply forallb_occurs; [|exact Hline].
    eapply occurs_in_trans; [apply occurs_in_strip|apply occurs_in_firstn].
  - eapply forallb_occurs; [apply occurs_in_strip|exact Hname].
  - exact (forallb_occurs _ _ _ (occurs_in_skipn (S j) line) Hline).
Qed.

Lemma option_pair_loop_shape fuel : forall data p np o v,
  0 <= p ->
  option_pair_loop fuel data p = Returns (np, o, v) ->
  no_newline o = true /\ no_delimiter o = true /\ no_newline v = true.
Proof.
  induction fuel as [|fuel IH]; intros data p np o v Hp H; [discriminate|].
  cbn [option_pair_loop] in H.
  destruct (Z.ltb_spec p (len data)) as [Hlt|Hge].
  - rewrite option_pair_step_view in H by lia.
    destruct (line_turn p (skipn (Z.to_nat p) data)) as [[p'|[[np' o'] v']]|e|]
      eqn:E; cbn [bind] in H; try discriminate.
    + apply line_turn_continue in E. apply (IH data p' np o v); [lia|exact H].
    + inversion H; subst. eapply line_turn_return_shape. exact E.
  - inversion H. repeat split.
Qed.

(** X2. What the tokenizer returns, when asked from a position that is not
    negative.  Either the new position is [-1], with an empty name and an
    empty value; or the new position is after the start, at most one
    character past the end of the text, the name has no new-line character
    and no delimiter, and the value has no new-line character. *)
Theorem tokenizer_result :
  forall (data : str) (p np : Z) (o v : str),
    0 <= p ->
    cfsfile_get_next_option_pair data p = Returns (np, o, v) ->
    (np = -1 /\ o = [] /\ v = [])
    \/ (p < np <= len data + 1
        /\ no_newline o = true /\ no_delimiter o = true
        /\ no_newline v = true /\ occurs_in o data).
Proof.
  intros data p np o v Hp H.
  destruct (pair_progress data p np o v Hp H) as [Hend|Hnext];
    [left; exact Hend|right].
  split; [exact Hnext|].
  pose proof (pair_occurs data p np o v H) as Ho.
  unfold cfsfile_get_next_option_pair in H.
  destruct (len data <=? p); [inversion H; subst; lia|].
  destruct (option_pair_loop_shape _ _ _ _ _ _ Hp H) as (H1 & H2 & H3).
  repeat split; assumption.
Qed.

Lemma tokenizer_result_witness :
  let data := lit "
 size = 40 96
mode=7" in
  0 <= 0 /\
  cfsfile_get_next_option_pair data 0 = Returns (15, lit "size", lit " 40 96")
  /\ ((15 = -1 /\ lit "size" = [] /\ lit " 40 96" = [])
      \/ (0 < 15 <= len data + 1
          /\ no_newline (lit "size") = true
          /\ no_delimiter (lit "size") = true
          /\ no_newline (lit " 40 96") = true
          /\ occurs_in (lit "size") data)).
Proof.
  split; [lia|]. split; [reflexivity|].
  apply (tokenizer_result (lit "
 size = 40 96
mode=7") 0 15 (lit "size") (lit " 40 96")); [lia|reflexivity].
Defined.

(** X3. The tokenizer reads a text in the same way wherever the text sits:
    when any text is put before it, the name and the value found from a
    position are the same, and the new position is moved by the length of
    what was put before ([-1] staying [-1]). *)
Theorem tokenizer_prefix_independent :
  forall (pre s : str) (p : Z),
    0 <= p ->
    cfsfile_get_next_option_pair (pre ++ s) (len pre + p)
    = shift_pair (len pre) (cfsfile_get_next_option_pair s p).
Proof. intros pre s p Hp. apply pair_shift. exact Hp. Qed.

Lemma tokenizer_prefix_independent_witness :
  0 <= 5 /\
  cfsfile_get_next_option_pair (lit "uid=1000
" ++ lit "size=1
mode=7
") (len (lit "uid=1000
") + 5)
  = shift_pair (len (lit "uid=1000
"))
      (cfsfile_get_next_option_pair (lit "size=1
mode=7
") 5).
Proof.
  split; [lia|].
  apply (tokenizer_prefix_independent (lit "uid=1000
") (lit "size=1
mode=7
") 5).
  lia.
Defined.

(** ** Texts without a header *)

Lemma line_turn_blank_line p l rest :
  no_newline l = true -> at_line_end rest = true ->
  forallb (char_in FORMAT_TRIMMING_CHARS) l = true ->
  line_turn p (l ++ rest) = Returns (Continue (p + len l + 1)).
Proof.
  intros Hl Hr Hall. unfold line_turn.
  rewrite line_length_of_line by assumption.
  rewrite firstn_exact.
  assert (first_index is_delimiter l = None) as ->.
  { apply first_index_none. rewrite forallb_forall in Hall.
    apply Forall_forall. intros x Hx.
    apply trimming_not_delimiter. auto. }
  unfold Py.strip_chars. rewrite strip_by_all by assumption.
  reflexivity.
Qed.

Lemma pair_blank_text n : forall ws pre,
  (length ws <= n)%nat ->
  forallb (char_in FORMAT_TRIMMING_CHARS) ws = true ->
  cfsfile_get_next_option_pair (pre ++ ws) (len pre) = Returns (-1, [], []).
Proof.
  induction n as [|n IH]; intros ws pre Hn Hall.
  - destruct ws; [|cbn in Hn; lia].
    apply pair_past_end. rewrite app_nil_r. lia.
  - destruct ws as [|w ws0] eqn:Ews.
    { apply pair_past_end. rewrite app_nil_r. lia. }
    rewrite <- Ews in *. pose proof (len_nonneg pre) as Hp.
    rewrite pair_unfold.
    2:{ rewrite len_app, Ews, len_cons. pose proof (len_nonneg ws0). lia. }
    rewrite to_nat_len, skipn_len_app.
    destruct (first_index is_newline_char ws) as [k|] eqn:E.
    + destruct (first_index_split _ _ _ E) as (l & c & ws' & Hws & _ & Hl & Hc).
      rewrite Hws in Hall. rewrite forallb_app in Hall.
      apply andb_true_iff in Hall as [Hall1 Hall2]. cbn [forallb] in Hall2.
      apply andb_true_iff in Hall2 as [_ Hall2].
      assert (no_newline l = true) as Hnl.
      { apply forallb_forall. intros x Hx. rewrite Forall_forall in Hl.
        rewrite (Hl x Hx). reflexivity. }
      rewrite Hws at 1.
      rewrite line_turn_blank_line by (cbn; assumption). cbn [bind].
      assert (pre ++ ws = (pre ++ l ++ [c]) ++ ws') as ->
        by (rewrite Hws, <- !app_assoc; reflexivity).
      replace (len pre + len l + 1) with (len (pre ++ l ++ [c]))
        by (rewrite !len_app; change (len [c]) with 1; lia).
      apply IH; [|exact Hall2].
      rewrite Hws, length_app in Hn. cbn in Hn. lia.
    + assert (no_newline ws = true) as Hnl.
      { apply first_index_none in E. apply forallb_forall. intros x Hx.
        rewrite Forall_forall in E. rewrite (E x Hx). reflexivity. }
      rewrite <- (app_nil_r ws) at 1.
      rewrite line_turn_blank_line by (assumption || reflexivity).
      cbn [bind]. apply pair_past_end. rewrite len_app. lia.
Qed.

Lemma trimming_text_not_old_format ws :
  forallb (char_in FORMAT_TRIMMING_CHARS) ws = true ->
  is_old_format_cfsfile ws = false.
Proof.
  destruct ws as [|w ws]; [reflexivity|]. cbn [forallb]. intros H.
  apply andb_true_iff in H as [H _].
  unfold is_old_format_cfsfile, Py.startswith.
  change (Py.is_prefix FORMAT_HEADER_PREFIX_OLD_FORMAT (w :: ws))
    with (chr_eqb "C"%char w && Py.is_prefix (lit "atalogFS.File.") ws).
  destruct (chr_eqb "C"%char w) eqn:E; [|reflexivity].
  apply chr_eqb_eq in E. subst w. discriminate H.
Qed.

(** X4. A text without any line that has something in it -- the empty text,
    or spaces, tabs, carriage returns and line feeds only -- is refused
    with the error of a missing header. *)
Theorem blank_text_has_no_header :
  forall (fuel : nat) (ws : str) (c : CFSFile),
    forallb (char_in FORMAT_TRIMMING_CHARS) ws = true ->
    read_cfsfile fuel ws c = Raises (RuntimeError No_valid_header).
Proof.
  intros fuel ws c H. unfold read_cfsfile.
  rewrite trimming_text_not_old_format by exact H.
  unfold fill_cfsfile_from_string.
  pose proof (pair_blank_text (length ws) ws [] (le_n _) H) as E.
  cbn [app] in E. change (len []) with 0 in E. rewrite E. reflexivity.
Qed.

Lemma blank_text_has_no_header_witness :
  forallb (char_in FORMAT_TRIMMING_CHARS) (lit "  
" ++ ["009"%char; "013"%char; " "%char]) = true /\
  read_cfsfile 0 (lit "  
" ++ ["009"%char; "013"%char; " "%char]) CFSFile_new
  = Raises (RuntimeError No_valid_header).
Proof.
  split; [reflexivity|].
  apply (blank_text_has_no_header 0
           (lit "  
" ++ ["009"%char; "013"%char; " "%char]) CFSFile_new).
  reflexivity.
Defined.

(** ** The header line *)

(** X5. The first line [name=value] of a text decides how the reader of the
    current format goes on.  When the name, trimmed, is not [CatalogFS] the
    error is the one of a missing header; when it is and the value is not
    an integer, the error is the one of an invalid version string, with the
    value; when the value is an integer other than 3, the error is the one
    of an unsupported version, with this integer. *)
Theorem header_line_errors :
  forall (name value rest : str) (c : CFSFile),
    no_delimiter name = true -> no_newline name = true ->
    no_newline value = true -> at_line_end rest = true ->
    (Py.strip_chars FORMAT_TRIMMING_CHARS name <> FORMAT_HEADER_NAME ->
     fill_cfsfile_from_string (name ++ "="%char :: value ++ rest) c
     = Raises (RuntimeError No_valid_header))
    /\ (Py.strip_chars FORMAT_TRIMMING_CHARS name = FORMAT_HEADER_NAME ->
        Py.int value = None ->
        fill_cfsfile_from_string (name ++ "="%char :: value ++ rest) c
        = Raises (RuntimeError (Invalid_version_string value)))
    /\ (forall z,
           Py.strip_chars FORMAT_TRIMMING_CHARS name = FORMAT_HEADER_NAME ->
           Py.int value = Some z -> z <> 3 ->
           fill_cfsfile_from_string (name ++ "="%char :: value ++ rest) c
           = Raises (RuntimeError (Unsupported_version z))).
Proof.
  intros name value rest c Hd Hn Hv Hr.
  pose proof (pair_at_line [] name value rest Hd Hn Hv Hr) as E.
  cbn [app] in E. change (len []) with 0 in E.
  split; [|split].
  - intros Hne. unfold fill_cfsfile_from_string. rewrite E. cbn [bind].
    rewrite str_eqb_neq by exact Hne. reflexivity.
  - intros He Hi. unfold fill_cfsfile_from_string. rewrite E. cbn [bind].
    rewrite He, str_eqb_refl, Hi. reflexivity.
  - intros z He Hi Hz. unfold fill_cfsfile_from_string.
    rewrite E. cbn [bind]. rewrite He, str_eqb_refl, Hi. cbn [negb].
    change CFSFILE_VERSION_3 with 3.
    destruct (Z.eqb_spec z 3); [contradiction|reflexivity].
Qed.

Lemma header_line_errors_witness :
  (no_delimiter (lit "Catalog") = true /\ no_newline (lit "Catalog") = true /\
   no_newline (lit "3") = true /\ at_line_end (lit "
size=1
") = true /\
   Py.strip_chars FORMAT_TRIMMING_CHARS (lit "Catalog") <> FORMAT_HEADER_NAME /\
   fill_cfsfile_from_string (lit "Catalog" ++ "="%char :: lit "3" ++ lit "
size=1
") CFSFile_new = Raises (RuntimeError No_valid_header))
  /\ (Py.strip_chars FORMAT_TRIMMING_CHARS (lit " CatalogFS ")
      = FORMAT_HEADER_NAME /\
      Py.int (lit "3.0") = None /\
      fill_cfsfile_from_string
        (lit " CatalogFS " ++ "="%char :: lit "3.0" ++ []) CFSFile_new
      = Raises (RuntimeError (Invalid_version_string (lit "3.0"))))
  /\ (Py.int (lit " 2 ") = Some 2 /\ 2 <> 3 /\
      fill_cfsfile_from_string
        (lit "CatalogFS" ++ "="%char :: lit " 2 " ++ lit "
") CFSFile_new
      = Raises (RuntimeError (Unsupported_version 2))).
Proof.
  split; [|split].
  - assert (Py.strip_chars FORMAT_TRIMMING_CHARS (lit "Catalog")
            <> FORMAT_HEADER_NAME) as Hne by discriminate.
    repeat (split; [reflexivity|]). split; [exact Hne|].
    exact (proj1 (header_line_errors (lit "Catalog") (lit "3") (lit "
size=1
") CFSFile_new eq_refl eq_refl eq_refl eq_refl) Hne).
  - split; [reflexivity|]. split; [reflexivity|].
    exact (proj1 (proj2 (header_line_errors (lit " CatalogFS ") (lit "3.0") []
                           CFSFile_new eq_refl eq_refl eq_refl eq_refl))
             eq_refl eq_refl).
  - assert (2 <> 3) as Hne by lia.
    split; [reflexivity|]. split; [exact Hne|].
    exact (proj2 (proj2 (header_line_errors (lit "CatalogFS") (lit " 2 ")
                           (lit "
") CFSFile_new eq_refl eq_refl eq_refl eq_refl))
             2 eq_refl eq_refl Hne).
Defined.

(** ** Errors in the body *)

Lemma fill_loop_lines_then lines : forall pre rest fuel c,
  forallb plain_line lines = true ->
  fill_loop (length lines + fuel) (pre ++ text_lines lines ++ rest) (len pre) c
  = (do c' <- fill_fields c lines;
     fill_loop fuel (pre ++ text_lines lines ++ rest)
       (len pre + len (text_lines lines)) c').
Proof.
  induction lines as [|[name value] lines IH]; intros pre rest fuel c Hl.
  - cbn [length text_lines fill_fields bind Nat.add app].
    change (len []) with 0. rewrite Z.add_0_r. reflexivity.
  - cbn [forallb] in Hl. apply andb_true_iff in Hl as [Hl Hls].
    unfold plain_line in Hl. cbn [fst snd] in Hl.
    apply andb_true_iff in Hl as [Hl Hv].
    apply andb_true_iff in Hl as [Hd Hn].
    cbn [length Nat.add fill_loop text_lines fill_fields].
    rewrite <- app_assoc. rewrite text_line_shape.
    rewrite pair_at_line by (assumption || reflexivity).
    cbn [bind].
    pose proof (len_nonneg pre). pose proof (len_nonneg name).
    pose proof (len_nonneg value).
    destruct (Z.eqb_spec (len pre + len name + len value + 2) (-1)); [lia|].
    destruct (fill_field c _ value) as [c'| |]; cbn [bind]; try reflexivity.
    rewrite <- text_line_shape.
    replace (pre ++ text_line name value ++ text_lines lines ++ rest)
      with ((pre ++ text_line name value) ++ text_lines lines ++ rest)
      by (rewrite <- app_assoc; reflexivity).
    replace (len pre + len name + len value + 2)
      with (len (pre ++ text_line name value))
      by (rewrite len_app, len_text_line; lia).
    rewrite IH by assumption.
    replace (len pre + len (text_line name value ++ text_lines lines))
      with (len (pre ++ text_line name value) + len (text_lines lines))
      by (rewrite !len_app; lia).
    reflexivity.
Qed.

(** The reader on the header and plain lines, followed by anything: the
    assignments of the lines, then the loop from the end of the lines,
    with one turn left at least. *)
Lemma fill_header_lines_then lines rest c :
  forallb plain_line lines = true ->
  exists fuel,
    (length rest <= fuel)%nat /\
    fill_cfsfile_from_string
      (FORMAT_HEADER_TO_WRITE ++ text_lines lines ++ rest) c
    = (do c' <- fill_fields c lines;
       fill_loop (S fuel)
         (FORMAT_HEADER_TO_WRITE ++ text_lines lines ++ rest)
         (len FORMAT_HEADER_TO_WRITE + len (text_lines lines)) c').
Proof.
  intros Hl. unfold fill_cfsfile_from_string.
  pose proof (pair_at_line [] (lit "CatalogFS") (lit "3")
                (FORMAT_NEW_LINE_CHAR :: text_lines lines ++ rest)
                eq_refl eq_refl eq_refl eq_refl) as H.
  change (cfsfile_get_next_option_pair
            (FORMAT_HEADER_TO_WRITE ++ text_lines lines ++ rest) 0 =
          Returns (12, lit "CatalogFS", lit "3")) in H.
  rewrite H. cbn [bind].
  change (negb (str_eqb (lit "CatalogFS") FORMAT_HEADER_NAME)) with false.
  change (Py.int (lit "3")) with (Some 3).
  change (negb (3 =? CFSFILE_VERSION_3)) with false. cbv iota.
  change 12 with (len FORMAT_HEADER_TO_WRITE).
  set (data := FORMAT_HEADER_TO_WRITE ++ text_lines lines ++ rest).
  exists (length data - length lines)%nat.
  assert (length lines <= length data)%nat as Hlen.
  { unfold data. rewrite !length_app.
    pose proof (length_text_lines lines). lia. }
  split.
  { unfold data in *. rewrite !length_app in *.
    pose proof (length_text_lines lines). lia. }
  replace (S (length data))
    with (length lines + S (length data - length lines))%nat by lia.
  unfold data. apply fill_loop_lines_then. exact Hl.
Qed.

Lemma valid_lines_fill lines c :
  forallb valid_line lines = true ->
  exists r, fill_fields c (named lines) = Returns r.
Proof.
  intros H. destruct (fill_fields_last lines c H) as (r & Hr & _).
  exists r. exact Hr.
Qed.

Lemma fill_field_unknown c o v :
  is_field_name o = false ->
  fill_field c o v = Raises (RuntimeError Unknown_param_name).
Proof.
  unfold is_field_name. cbn [existsb all_fields field_name]. intros H.
  repeat match type of H with
         | _ || _ = false =>
             let H' := fresh "H" in apply orb_false_iff in H as [H' H]
         end.
  unfold fill_field.
  repeat match goal with
         | E : str_eqb o ?n = false |- context [str_eqb o ?n] => rewrite E
         end.
  reflexivity.
Qed.

Lemma lstrip_by_not_all f s :
  forallb f s = false ->
  Py.lstrip_by f s <> [] /\ forallb f (Py.lstrip_by f s) = false.
Proof.
  induction s as [|x s IH]; cbn [forallb Py.lstrip_by]; [discriminate|].
  destruct (f x) eqn:E; cbn [andb].
  - exact IH.
  - intros _. split; [discriminate|]. cbn [forallb]. rewrite E. reflexivity.
Qed.

Lemma forallb_rev (f : ascii -> bool) s : forallb f (rev s) = forallb f s.
Proof.
  destruct (forallb f s) eqn:E.
  - apply forallb_forall. intros x Hx. rewrite forallb_forall in E.
    apply E. apply in_rev. exact Hx.
  - destruct (forallb f (rev s)) eqn:Er; [|reflexivity].
    rewrite <- E. symmetry. apply forallb_forall. intros x Hx.
    rewrite forallb_forall in Er. apply Er. apply in_rev.
    rewrite rev_involutive. exact Hx.
Qed.

Lemma strip_by_not_all f s : forallb f s = false -> Py.strip_by f s <> [].
Proof.
  intros H. destruct (lstrip_by_not_all f s H) as [_ Hm].
  unfold Py.strip_by, Py.rstrip_by.
  set (m := Py.lstrip_by f s) in *.
  rewrite <- forallb_rev in Hm.
  destruct (lstrip_by_not_all f (rev m) Hm) as [Hr _].
  intros E. apply Hr. apply (f_equal (@rev ascii)) in E.
  rewrite rev_involutive in E. exact E.
Qed.

(** X6. A line that has something in it and no delimiter makes the reader of
    the current format fail: after the header and any lines of fields that
    it accepts, such a line raises the error of an invalid string. *)
Theorem malformed_line_rejected :
  forall (fuel : nat) (lines : list (field * str)) (l rest : str)
         (c : CFSFile),
    forallb valid_line lines = true ->
    no_delimiter l = true -> no_newline l = true -> not_blank l = true ->
    at_line_end rest = true ->
    read_cfsfile fuel
      (FORMAT_HEADER_TO_WRITE ++ text_lines (named lines) ++ l ++ rest) c
    = Raises (RuntimeError Invalid_string).
Proof.
  intros fuel lines l rest c Hv Hd Hn Hb Hr.
  unfold read_cfsfile. rewrite header_not_old_format.
  destruct (fill_header_lines_then (named lines) (l ++ rest) c
              (named_plain lines Hv)) as [fuel' [_ ->]].
  destruct (valid_lines_fill lines c Hv) as [r ->]. cbn [bind fill_loop].
  rewrite app_assoc. rewrite <- len_app.
  set (pre := FORMAT_HEADER_TO_WRITE ++ text_lines (named lines)).
  assert (l <> []) as Hne by (intros ->; discriminate Hb).
  rewrite pair_unfold.
  2:{ pose proof (len_nonneg pre). rewrite !len_app.
      pose proof (len_nonneg rest). destruct l; [contradiction|].
      rewrite len_cons. pose proof (len_nonneg l). lia. }
  rewrite to_nat_len, skipn_len_app.
  unfold line_turn. rewrite line_length_of_line by assumption.
  rewrite firstn_exact.
  assert (first_index is_delimiter l = None) as ->
    by (apply first_index_none, forallb_negb; exact Hd).
  assert ((0 <? len (Py.strip_chars FORMAT_TRIMMING_CHARS l)) = true) as ->;
    [|reflexivity].
  apply Z.ltb_lt. unfold Py.strip_chars.
  pose proof (strip_by_not_all (char_in FORMAT_TRIMMING_CHARS) l) as Hs.
  unfold not_blank in Hb. apply negb_true_iff in Hb. specialize (Hs Hb).
  destruct (Py.strip_by (char_in FORMAT_TRIMMING_CHARS) l) as [|x t];
    [contradiction|].
  rewrite len_cons. pose proof (len_nonneg t). lia.
Qed.

Lemma malformed_line_rejected_witness :
  let lines := [(F_size, lit "4096")] in
  forallb valid_line lines = true /\
  no_delimiter (lit " mode 7 ") = true /\ no_newline (lit " mode 7 ") = true /\
  not_blank (lit " mode 7 ") = true /\ at_line_end (lit "
uid=1
") = true /\
  read_cfsfile 0
    (FORMAT_HEADER_TO_WRITE ++ text_lines (named lines)
       ++ lit " mode 7 " ++ lit "
uid=1
") CFSFile_new
  = Raises (RuntimeError Invalid_string).
Proof.
  repeat (split; [reflexivity|]).
  apply (malformed_line_rejected 0 [(F_size, lit "4096")] (lit " mode 7 ")
           (lit "
uid=1
") CFSFile_new); reflexivity.
Defined.

(** X7. A line whose name, trimmed, is not one of the fourteen names of
    fields makes the reader of the current format fail: after the header and
    any lines of fields that it accepts, such a line raises the error of an
    unknown parameter name, whatever its value is. *)
Theorem unknown_field_rejected :
  forall (fuel : nat) (lines : list (field * str)) (name value rest : str)
         (c : CFSFile),
    forallb valid_line lines = true ->
    no_delimiter name = true -> no_newline name = true ->
    no_newline value = true -> at_line_end rest = true ->
    is_field_name (Py.strip_chars FORMAT_TRIMMING_CHARS name) = false ->
    read_cfsfile fuel
      (FORMAT_HEADER_TO_WRITE ++ text_lines (named lines)
         ++ name ++ "="%char :: value ++ rest) c
    = Raises (RuntimeError Unknown_param_name).
Proof.
  intros fuel lines name value rest c Hv Hd Hn Hval Hr Hu.
  unfold read_cfsfile. rewrite header_not_old_format.
  destruct (fill_header_lines_then (named lines)
              (name ++ "="%char :: value ++ rest) c
              (named_plain lines Hv)) as [fuel' [_ ->]].
  destruct (valid_lines_fill lines c Hv) as [r ->]. cbn [bind fill_loop].
  rewrite app_assoc. rewrite <- len_app.
  rewrite pair_at_line by assumption. cbn [bind].
  match goal with
  | |- context [?n =? -1] =>
      destruct (Z.eqb_spec n (-1)) as [E|_]
  end.
  { pose proof (len_nonneg (FORMAT_HEADER_TO_WRITE ++ text_lines (named lines))).
    pose proof (len_nonneg name). pose proof (len_nonneg value). lia. }
  rewrite fill_field_unknown by exact Hu. reflexivity.
Qed.

Lemma unknown_field_rejected_witness :
  let lines := [(F_size, lit "4096")] in
  forallb valid_line lines = true /\
  no_delimiter (lit "bogus") = true /\ no_newline (lit "bogus") = true /\
  no_newline (lit "5") = true /\ at_line_end (lit "
") = true /\
  is_field_name (Py.strip_chars FORMAT_TRIMMING_CHARS (lit "bogus")) = false /\
  read_cfsfile 0
    (FORMAT_HEADER_TO_WRITE ++ text_lines (named lines)
       ++ lit "bogus" ++ "="%char :: lit "5" ++ lit "
") CFSFile_new
  = Raises (RuntimeError Unknown_param_name).
Proof.
  repeat (split; [reflexivity|]).
  apply (unknown_field_rejected 0 [(F_size, lit "4096")] (lit "bogus")
           (lit "5") (lit "
") CFSFile_new); reflexivity.
Defined.

(** X8. A value that is not an integer, on a line of a field other than the
    hash, makes the reader of the current format fail: after the header and
    any lines of fields that it accepts, such a line raises the error of a
    value that is not an integer, and the error carries the text found
    after the delimiter, untrimmed. *)
Theorem invalid_integer_rejected :
  forall (fuel : nat) (lines : list (field * str)) (f : field)
         (value rest : str) (c : CFSFile),
    forallb valid_line lines = true ->
    f <> F_sha256 ->
    no_newline value = true -> at_line_end rest = true ->
    Py.int (Py.strip_chars FORMAT_TRIMMING_CHARS value) = None ->
    read_cfsfile fuel
      (FORMAT_HEADER_TO_WRITE ++ text_lines (named lines)
         ++ field_name f ++ "="%char :: value ++ rest) c
    = Raises (RuntimeError (Not_an_integer value)).
Proof.
  intros fuel lines f value rest c Hv Hf Hval Hr Hi.
  unfold read_cfsfile. rewrite header_not_old_format.
  destruct (fill_header_lines_then (named lines)
              (field_name f ++ "="%char :: value ++ rest) c
              (named_plain lines Hv)) as [fuel' [_ ->]].
  destruct (valid_lines_fill lines c Hv) as [r ->]. cbn [bind fill_loop].
  rewrite app_assoc. rewrite <- len_app.
  destruct (field_name_plain f) as [Hd Hn].
  rewrite pair_at_line by assumption. cbn [bind].
  match goal with
  | |- context [?n =? -1] =>
      destruct (Z.eqb_spec n (-1)) as [E|_]
  end.
  { pose proof (len_nonneg (FORMAT_HEADER_TO_WRITE ++ text_lines (named lines))).
    pose proof (len_nonneg (field_name f)). pose proof (len_nonneg value).
    lia. }
  rewrite field_name_strip, fill_field_by_name.
  destruct f; try congruence;
    unfold read_value, cfsfile_extract_int; rewrite Hi; reflexivity.
Qed.

Lemma invalid_integer_rejected_witness :
  let lines := [(F_size, lit "4096")] in
  forallb valid_line lines = true /\ F_mode <> F_sha256 /\
  no_newline (lit " 0o644") = true /\ at_line_end (lit "
") = true /\
  Py.int (Py.strip_chars FORMAT_TRIMMING_CHARS (lit " 0o644")) = None /\
  read_cfsfile 0
    (FORMAT_HEADER_TO_WRITE ++ text_lines (named lines)
       ++ field_name F_mode ++ "="%char :: lit " 0o644" ++ lit "
") CFSFile_new
  = Raises (RuntimeError (Not_an_integer (lit " 0o644"))).
Proof.
  assert (F_mode <> F_sha256) as Hne by discriminate.
  split; [reflexivity|]. split; [exact Hne|].
  repeat (split; [reflexivity|]).
  apply (invalid_integer_rejected 0 [(F_size, lit "4096")] F_mode
           (lit " 0o644") (lit "
") CFSFile_new); try reflexivity. exact Hne.
Defined.

(** ** Blank lines, order of the lines, ends of lines *)

(** X9. Blank lines in the body are passed over: after the header and lines
    of fields that the reader accepts, lines made of spaces, tabs and
    carriage returns, each ended by a new-line character, do not change
    the outcome of reading, whatever follows them. *)
Theorem blank_lines_in_body_skipped :
  forall (fuel : nat) (lines : list (field * str)) (ws rest : str)
         (c : CFSFile),
    forallb valid_line lines = true ->
    blank_lines ws = true ->
    read_cfsfile fuel
      (FORMAT_HEADER_TO_WRITE ++ text_lines (named lines) ++ ws ++ rest) c
    = read_cfsfile fuel
        (FORMAT_HEADER_TO_WRITE ++ text_lines (named lines) ++ rest) c.
Proof.
  intros fuel lines ws rest c Hv Hb.
  unfold read_cfsfile. rewrite !header_not_old_format.
  destruct (fill_header_lines_then (named lines) (ws ++ rest) c
              (named_plain lines Hv)) as (f1 & Hf1 & ->).
  destruct (fill_header_lines_then (named lines) rest c
              (named_plain lines Hv)) as (f2 & Hf2 & ->).
  destruct (valid_lines_fill lines c Hv) as [r ->]. cbn [bind fill_loop].
  rewrite !(app_assoc FORMAT_HEADER_TO_WRITE). rewrite <- len_app.
  set (pre := FORMAT_HEADER_TO_WRITE ++ text_lines (named lines)).
  assert (cfsfile_get_next_option_pair (pre ++ ws ++ rest) (len pre)
          = shift_pair (len (pre ++ ws)) (cfsfile_get_next_option_pair rest 0))
    as E1.
  { rewrite (pair_skips_blank_lines (length ws) ws pre rest (le_n _) Hb).
    rewrite (app_assoc pre ws rest).
    replace (len pre + len ws) with (len (pre ++ ws) + 0)
      by (rewrite len_app; lia).
    apply pair_shift. lia. }
  assert (cfsfile_get_next_option_pair (pre ++ rest) (len pre)
          = shift_pair (len pre) (cfsfile_get_next_option_pair rest 0))
    as E2.
  { replace (len pre) with (len pre + 0) at 1 by lia.
    apply pair_shift. lia. }
  rewrite E1, E2. clear E1 E2. rewrite (app_assoc pre ws rest).
  destruct (Z.le_gt_cases (len rest) 0) as [Hle|Hrest].
  { rewrite pair_past_end by exact Hle. reflexivity. }
  destruct (cfsfile_get_next_option_pair rest 0) as [[[np o] v]|e|] eqn:E;
    cbn [shift_pair bind]; try reflexivity.
  apply pair_progress in E; [|lia].
  destruct E as [(-> & _ & _)|E]; [reflexivity|].
  rewrite !shift_pos_nonneg by lia.
  pose proof (len_nonneg (pre ++ ws)). pose proof (len_nonneg pre).
  destruct (Z.eqb_spec (len (pre ++ ws) + np) (-1)); [lia|].
  destruct (Z.eqb_spec (len pre + np) (-1)); [lia|].
  destruct (fill_field r o v) as [r'| |]; cbn [bind]; try reflexivity.
  rewrite !fill_loop_shift by lia.
  rewrite length_app in Hf1.
  apply fill_loop_enough; unfold len in *; lia.
Qed.

Lemma blank_lines_in_body_skipped_witness :
  let lines := [(F_size, lit "4096")] in
  let ws := lit " 
" ++ ["009"%char; "013"%char] in
  forallb valid_line lines = true /\ blank_lines ws = true /\
  read_cfsfile 0
    (FORMAT_HEADER_TO_WRITE ++ text_lines (named lines) ++ ws ++ lit "mode=7
") CFSFile_new
  = read_cfsfile 0
      (FORMAT_HEADER_TO_WRITE ++ text_lines (named lines) ++ lit "mode=7
") CFSFile_new.
Proof.
  split; [reflexivity|]. split; [reflexivity|].
  apply (blank_lines_in_body_skipped 0 [(F_size, lit "4096")]
           (lit " 
" ++ ["009"%char; "013"%char]) (lit "mode=7
") CFSFile_new); reflexivity.
Defined.

Lemma last_line_some_in f lines v :
  last_line f lines = Some v -> In (f, v) lines.
Proof.
  induction lines as [|[g v0] lines IH]; cbn [last_line]; [discriminate|].
  destruct (last_line f lines) as [v'|].
  - intros H. inversion H; subst. right. apply IH. reflexivity.
  - destruct (field_eqb f g) eqn:E; [|discriminate].
    apply field_eqb_eq in E. intros H. inversion H; subst. left. reflexivity.
Qed.

Lemma last_line_in_nodup f lines v :
  NoDup (map fst lines) -> In (f, v) lines -> last_line f lines = Some v.
Proof.
  induction lines as [|[g v0] lines IH]; cbn [map fst]; intros Hn Hin;
    [contradiction|].
  inversion Hn as [|? ? Hg Hn']; subst. cbn [last_line].
  destruct Hin as [E|Hin].
  - inversion E; subst.
    destruct (last_line f lines) as [v'|] eqn:El.
    + exfalso. apply Hg. apply last_line_some_in in El.
      apply (in_map fst) in El. exact El.
    + assert (field_eqb f f = true) as -> by (apply field_eqb_eq; reflexivity).
      reflexivity.
  - rewrite (IH Hn' Hin). reflexivity.
Qed.

(** X10. The order of the lines does not matter when no field has two
    lines: two texts made of the header and of the same lines of fields,
    each accepted by the reader, in two different orders, are read into
    the same record. *)
Theorem field_order_irrelevant :
  forall (fuel : nat) (lines lines' : list (field * str)) (c : CFSFile),
    Permutation lines lines' ->
    NoDup (map fst lines) ->
    forallb valid_line lines = true ->
    exists r,
      read_cfsfile fuel
        (FORMAT_HEADER_TO_WRITE ++ text_lines (named lines)) c = Returns r
      /\ read_cfsfile fuel
           (FORMAT_HEADER_TO_WRITE ++ text_lines (named lines')) c = Returns r.
Proof.
  intros fuel lines lines' c Hp Hn Hv.
  assert (forallb valid_line lines' = true) as Hv'.
  { apply forallb_forall. intros x Hx. rewrite forallb_forall in Hv.
    apply Hv. eapply Permutation_in; [apply Permutation_sym; exact Hp|exact Hx]. }
  assert (NoDup (map fst lines')) as Hn'.
  { eapply Permutation_NoDup; [apply Permutation_map; exact Hp|exact Hn]. }
  destruct (read_header_lines fuel lines c Hv) as (r & Hr & Hget).
  destruct (read_header_lines fuel lines' c Hv') as (r' & Hr' & Hget').
  exists r. split; [exact Hr|]. rewrite Hr'. f_equal.
  apply get_field_ext. intros f. rewrite Hget, Hget'.
  destruct (last_line f lines') as [v'|] eqn:E'.
  - apply last_line_some_in in E'.
    apply (Permutation_in _ (Permutation_sym Hp)) in E'.
    rewrite (last_line_in_nodup f lines v' Hn E'). reflexivity.
  - destruct (last_line f lines) as [v|] eqn:E; [|reflexivity].
    apply last_line_some_in in E. apply (Permutation_in _ Hp) in E.
    rewrite (last_line_in_nodup f lines' v Hn' E) in E'. discriminate.
Qed.

Lemma field_order_irrelevant_witness :
  let lines := [(F_size, lit "4096"); (F_mode, lit "33188");
                (F_sha256, lit "ab12")] in
  let lines' := [(F_sha256, lit "ab12"); (F_size, lit "4096");
                 (F_mode, lit "33188")] in
  Permutation lines lines' /\ NoDup (map fst lines) /\
  forallb valid_line lines = true /\
  exists r,
    read_cfsfile 0
      (FORMAT_HEADER_TO_WRITE ++ text_lines (named lines)) CFSFile_new
    = Returns r
    /\ read_cfsfile 0
         (FORMAT_HEADER_TO_WRITE ++ text_lines (named lines')) CFSFile_new
       = Returns r.
Proof.
  assert (Permutation
            [(F_size, lit "4096"); (F_mode, lit "33188"); (F_sha256, lit "ab12")]
            [(F_sha256, lit "ab12"); (F_size, lit "4096"); (F_mode, lit "33188")])
    as Hp.
  { apply Permutation_sym.
    apply (Permutation_cons_app [(F_size, lit "4096"); (F_mode, lit "33188")] []).
    rewrite app_nil_r. apply Permutation_refl. }
  assert (NoDup (map fst
            [(F_size, lit "4096"); (F_mode, lit "33188"); (F_sha256, lit "ab12")]))
    as Hn.
  { cbn. repeat constructor; cbn; intuition discriminate. }
  split; [exact Hp|]. split; [exact Hn|]. split; [reflexivity|].
  apply (field_order_irrelevant 0 _ _ CFSFile_new Hp Hn). reflexivity.
Defined.

Lemma fill_loop_crlf_lines lines : forall pre fuel c,
  forallb plain_line lines = true ->
  (length lines < fuel)%nat ->
  fill_loop fuel (pre ++ "010"%char :: crlf_lines lines) (len pre) c
  = fill_fields c lines.
Proof.
  induction lines as [|[name value] lines IH]; intros pre fuel c Hl Hf;
    (destruct fuel as [|fuel]; [cbn in Hf; lia|]); cbn [fill_loop].
  - cbn [crlf_lines].
    rewrite (pair_blank_text 1 ["010"%char] pre (le_n _) eq_refl).
    reflexivity.
  - cbn [forallb] in Hl. apply andb_true_iff in Hl as [Hl Hls].
    unfold plain_line in Hl. cbn [fst snd] in Hl.
    apply andb_true_iff in Hl as [Hl Hv].
    apply andb_true_iff in Hl as [Hd Hn].
    cbn [crlf_lines fill_fields].
    pose proof (pair_skips_blank_lines 1 ["010"%char] pre
                  (name ++ "="%char :: value
                     ++ "013"%char :: "010"%char :: crlf_lines lines)
                  (le_n _) eq_refl) as Hs.
    cbn [app] in Hs. rewrite Hs. clear Hs.
    change (pre ++ "010"%char :: name ++ "="%char :: value
              ++ "013"%char :: "010"%char :: crlf_lines lines)
      with (pre ++ ["010"%char] ++ name ++ "="%char :: value
              ++ "013"%char :: "010"%char :: crlf_lines lines).
    rewrite app_assoc. rewrite <- len_app.
    rewrite pair_at_line by (assumption || reflexivity).
    cbn [bind].
    pose proof (len_nonneg (pre ++ ["010"%char])).
    pose proof (len_nonneg name). pose proof (len_nonneg value).
    destruct (Z.eqb_spec (len (pre ++ ["010"%char]) + len name + len value + 2)
                (-1)); [lia|].
    destruct (fill_field c _ value) as [c'| |]; cbn [bind]; try reflexivity.
    replace ((pre ++ ["010"%char]) ++ name ++ "="%char :: value
               ++ "013"%char :: "010"%char :: crlf_lines lines)
      with (((pre ++ ["010"%char]) ++ name ++ "="%char :: value ++ ["013"%char])
              ++ "010"%char :: crlf_lines lines).
    2:{ rewrite <- !app_assoc. cbn [app]. rewrite <- !app_assoc. reflexivity. }
    replace (len (pre ++ ["010"%char]) + len name + len value + 2)
      with (len ((pre ++ ["010"%char]) ++ name ++ "="%char :: value
                   ++ ["013"%char])).
    2:{ rewrite !len_app, !len_cons, !len_app, !len_cons.
        change (len []) with 0. lia. }
    apply IH; [assumption|cbn in Hf; lia].
Qed.

(** X11. Lines ended by a carriage return and a line feed are read like
    lines ended by a line feed: for lines of fields that the reader
    accepts, the text with the two characters after the header and after
    every line has the outcome of the text that the writer would lay out. *)
Theorem crlf_line_ends_accepted :
  forall (fuel : nat) (lines : list (field * str)) (c : CFSFile),
    forallb valid_line lines = true ->
    read_cfsfile fuel
      (lit "CatalogFS=3" ++ "013"%char :: "010"%char
         :: crlf_lines (named lines)) c
    = read_cfsfile fuel
        (FORMAT_HEADER_TO_WRITE ++ text_lines (named lines)) c.
Proof.
  intros fuel lines c Hv. unfold read_cfsfile.
  rewrite header_not_old_format.
  change (is_old_format_cfsfile
            (lit "CatalogFS=3" ++ "013"%char :: "010"%char
               :: crlf_lines (named lines))) with false.
  cbv iota. rewrite fill_header_lines by (apply named_plain; exact Hv).
  unfold fill_cfsfile_from_string.
  pose proof (pair_at_line [] (lit "CatalogFS") (lit "3")
                ("013"%char :: "010"%char :: crlf_lines (named lines))
                eq_refl eq_refl eq_refl eq_refl) as H.
  change (cfsfile_get_next_option_pair
            (lit "CatalogFS=3" ++ "013"%char :: "010"%char
               :: crlf_lines (named lines)) 0 =
          Returns (12, lit "CatalogFS", lit "3")) in H.
  rewrite H. cbn [bind].
  change (negb (str_eqb (lit "CatalogFS") FORMAT_HEADER_NAME)) with false.
  change (Py.int (lit "3")) with (Some 3).
  change (negb (3 =? CFSFILE_VERSION_3)) with false. cbv iota.
  change (lit "CatalogFS=3" ++ "013"%char :: "010"%char
            :: crlf_lines (named lines))
    with ((lit "CatalogFS=3" ++ ["013"%char]) ++ "010"%char
            :: crlf_lines (named lines)).
  change 12 with (len (lit "CatalogFS=3" ++ ["013"%char])).
  apply fill_loop_crlf_lines; [apply named_plain; exact Hv|].
  rewrite length_app. cbn [length].
  assert (forall l, length l <= length (crlf_lines l))%nat as Hlen.
  { induction l as [|[n v] l IHl]; cbn [crlf_lines length]; [lia|].
    rewrite length_app. cbn [length]. rewrite length_app. cbn [length]. lia. }
  specialize (Hlen (named lines)). lia.
Qed.

Lemma crlf_line_ends_accepted_witness :
  let lines := [(F_size, lit "4096"); (F_sha256, lit "ab12")] in
  forallb valid_line lines = true /\
  read_cfsfile 0
    (lit "CatalogFS=3" ++ "013"%char :: "010"%char
       :: crlf_lines (named lines)) CFSFile_new
  = read_cfsfile 0
      (FORMAT_HEADER_TO_WRITE ++ text_lines (named lines)) CFSFile_new.
Proof.
  split; [reflexivity|].
  apply (crlf_line_ends_accepted 0
           [(F_size, lit "4096"); (F_sha256, lit "ab12")] CFSFile_new).
  reflexivity.
Defined.

(** * Further properties of the writer and of [process_one_file] *)

Ltac laid_field :=
  match goal with
  | |- context [if_not_none ?v] => destruct v; cbn
  | |- context [if_not_none_int ?v] => destruct v; cbn
  | |- context [if_not_none_nor_zero ?v] =>
      let z := fresh "z" in
      destruct v as [z|]; unfold if_not_none_nor_zero, nonzero;
      [destruct (z =? 0)|]; cbn
  | |- _ => idtac
  end;
  rewrite ?value_of_int by discriminate; try reflexivity.

Lemma read_written_onto fuel c c0 d t :
  hash_wellformed (sha256 c) = true ->
  read_cfsfile fuel (write_cfsfile c d t) c0 =
  Returns (overlay (preserved c d t) c0).
Proof.
  intros Hh. rewrite write_as_lines.
  destruct (read_header_lines fuel (written_lines c d t) c0
              (written_lines_valid c d t Hh)) as (r & Hr & Hget).
  rewrite Hr. f_equal. apply get_field_ext. intros f. rewrite Hget.
  clear Hr Hget. unfold written_lines, preserved, overlay.
  destruct c as [a1 a2 a3 a4 a5 a6 a7 a8 a9 a10 a11 a12 a13 h].
  destruct c0 as [b1 b2 b3 b4 b5 b6 b7 b8 b9 b10 b11 b12 b13 h0].
  cbn [size blocks mode uid gid atime mtime ctime atimensec mtimensec
       ctimensec nlink blksize sha256] in *.
  destruct d; [|destruct t]; destruct f;
    rewrite ?last_line_app, ?last_line_opt;
    cbn -[if_not_none if_not_none_int if_not_none_nor_zero value_of];
    try (destruct h as [s|]; cbn -[value_of];
         [rewrite (value_of_hash s Hh)|]; reflexivity);
    laid_field.
Qed.

(** X12. Reading what the writer wrote onto any record, fresh or not, sets
    the fields that the profile keeps and leaves every other field of the
    record as it was. *)
Theorem read_written_text_over_record :
  forall (fuel : nat) (c c0 : CFSFile)
         (flag_data_only flag_data_and_time_only : bool),
    hash_wellformed (sha256 c) = true ->
    read_cfsfile fuel
      (write_cfsfile c flag_data_only flag_data_and_time_only) c0
    = Returns
        (overlay (preserved c flag_data_only flag_data_and_time_only) c0).
Proof. intros fuel c c0 d t H. apply read_written_onto. exact H. Qed.

Lemma read_written_text_over_record_witness :
  let c := mkCFSFile (Some 4096) None None None None None
             (Some (Py.Int 1700000000))
             None None (Some 0) None None None (Some (lit "ab12")) in
  let c0 := mkCFSFile (Some 1) (Some 8) None None None None None None
              None (Some 5) None None None None in
  hash_wellformed (sha256 c) = true /\
  read_cfsfile 0 (write_cfsfile c false true) c0
  = Returns (mkCFSFile (Some 4096) (Some 8) None None None None
               (Some (Py.Int 1700000000)) None None (Some 5) None None None
               (Some (lit "ab12"))).
Proof.
  split; [reflexivity|].
  apply (read_written_text_over_record 0
           (mkCFSFile (Some 4096) None None None None None
              (Some (Py.Int 1700000000))
              None None (Some 0) None None None (Some (lit "ab12")))
           (mkCFSFile (Some 1) (Some 8) None None None None None None
              None (Some 5) None None None None) false true).
  reflexivity.
Defined.

Lemma nor_zero_nonzero v :
  if_not_none_nor_zero (nonzero v) = if_not_none_nor_zero v.
Proof.
  destruct v as [z|]; [|reflexivity]. cbn.
  destruct (z =? 0) eqn:E; [reflexivity|]. cbn. rewrite E. reflexivity.
Qed.

Lemma int_whole_seconds v :
  if_not_none_int (whole_seconds v) = if_not_none_int v.
Proof. destruct v; reflexivity. Qed.

Lemma write_preserved c d t d' t' :
  profile_within d' t' d t = true ->
  write_cfsfile (preserved c d t) d' t' = write_cfsfile c d' t'.
Proof.
  destruct c as [a1 a2 a3 a4 a5 a6 a7 a8 a9 a10 a11 a12 a13 h].
  destruct d, t, d', t'; try discriminate; intros _;
    unfold write_cfsfile, preserved;
    cbn [size blocks mode uid gid atime mtime ctime atimensec mtimensec
         ctimensec nlink blksize sha256];
    rewrite ?nor_zero_nonzero, ?int_whole_seconds; reflexivity.
Qed.

(** X13. Reading a written text and writing the record again gives the text
    written directly: under the same profile the text is reproduced, and
    under a profile that writes fewer fields the text is the one that the
    writer gives for the first record under that profile. *)
Theorem rewrite_after_read :
  forall (fuel : nat) (c : CFSFile) (d t d' t' : bool),
    hash_wellformed (sha256 c) = true ->
    profile_within d' t' d t = true ->
    exists r,
      read_cfsfile fuel (write_cfsfile c d t) CFSFile_new = Returns r
      /\ write_cfsfile r d' t' = write_cfsfile c d' t'.
Proof.
  intros fuel c d t d' t' Hh Hp. exists (preserved c d t). split.
  - apply read_written. exact Hh.
  - apply write_preserved. exact Hp.
Qed.

Lemma rewrite_after_read_witness :
  let c := mkCFSFile (Some 4096) None (Some 33188) None None None
             (Some (Py.Int 1700000000)) None None (Some 0) None None None
             (Some (lit "ab12")) in
  hash_wellformed (sha256 c) = true /\ profile_within false true false false = true /\
  exists r,
    read_cfsfile 0 (write_cfsfile c false false) CFSFile_new = Returns r
    /\ write_cfsfile r false true = write_cfsfile c false true.
Proof.
  split; [reflexivity|]. split; [reflexivity|].
  apply (rewrite_after_read 0
           (mkCFSFile (Some 4096) None (Some 33188) None None None
              (Some (Py.Int 1700000000)) None None (Some 0) None None None
              (Some (lit "ab12"))) false false false true); reflexivity.
Defined.



(** X15. Listing a regular file that is not a CatalogFS file, with nothing
    at the output path: a text is written, and this text, read on a fresh
    record, gives the fields of the stat that the profile keeps and the
    computed hash.  The size, the other counts and the hash are read back
    as they are.  A time in seconds is not: the stat has it as a float, the
    writer writes [int] of it, and what is read back is this integer, the
    time with its fraction dropped.  A nanosecond field is read back as the
    time in nanoseconds modulo 1,000,000,000, and is unset when this is
    zero. *)
Theorem listed_file_reads_back :
  forall (fuel fuel' : nat) (st : stat_result) (content : str)
         (sha256_str : option str)
         (skip_existing flag_data_only flag_data_and_time_only : bool),
    S_ISREG (st_mode st) = true ->
    hash_wellformed sha256_str = true ->
    let seconds x := Some (Py.Int (Py.int_of_float x)) in
    let nanoseconds n := nonzero (Some (n mod 1000000000)) in
    exists data,
      process_one_file fuel Nothing_there st content sha256_str
        skip_existing false flag_data_only flag_data_and_time_only
      = Returns (Listed data)
      /\ read_cfsfile fuel' data CFSFile_new
         = Returns
             (if flag_data_only then
                mkCFSFile (Some (st_size st)) None None None None
                  None None None None None None None None sha256_str
              else if flag_data_and_time_only then
                mkCFSFile (Some (st_size st)) None None None None
                  None (seconds (st_mtime st)) None
                  None (nanoseconds (st_mtime_ns st)) None
                  None None sha256_str
              else
                mkCFSFile (Some (st_size st)) (Some (st_blocks st))
                  (Some (st_mode st)) (Some (st_uid st)) (Some (st_gid st))
                  (seconds (st_atime st)) (seconds (st_mtime st))
                  (seconds (st_ctime st))
                  (nanoseconds (st_atime_ns st))
                  (nanoseconds (st_mtime_ns st))
                  (nanoseconds (st_ctime_ns st))
                  (Some (st_nlink st)) (Some (st_blksize st)) sha256_str).
Proof.
  intros fuel fuel' st content sha skip d t Hreg Hh seconds nanoseconds.
  eexists. split.
  - unfold process_one_file. rewrite Hreg. reflexivity.
  - rewrite read_written by exact Hh. destruct d, t; reflexivity.
Qed.

Lemma listed_file_reads_back_witness :
  let st := mkStat 33188 4096 8 1000 1000
              (Py.mkFloat 3400000001 (-1)) (Py.mkFloat (-3) (-1))
              (Py.mkFloat 1700000000 0)
              1700000000500000000 (-1500000000) 1700000000000000000
              1 4096 in
  S_ISREG (st_mode st) = true /\
  hash_wellformed (Some (lit "ab12")) = true /\
  exists data,
    process_one_file 0 Nothing_there st (lit "any content")
      (Some (lit "ab12")) false false false false
    = Returns (Listed data)
    /\ read_cfsfile 0 data CFSFile_new
       = Returns
           (mkCFSFile (Some 4096) (Some 8) (Some 33188) (Some 1000)
              (Some 1000) (Some (Py.Int 1700000000)) (Some (Py.Int (-1)))
              (Some (Py.Int 1700000000))
              (Some 500000000) (Some 500000000) None
              (Some 1) (Some 4096) (Some (lit "ab12"))).
Proof.
  split; [reflexivity|]. split; [reflexivity|].
  apply (listed_file_reads_back 0 0
           (mkStat 33188 4096 8 1000 1000
              (Py.mkFloat 3400000001 (-1)) (Py.mkFloat (-3) (-1))
              (Py.mkFloat 1700000000 0)
              1700000000500000000 (-1500000000) 1700000000000000000
              1 4096)
           (lit "any content") (Some (lit "ab12")) false false false);
    reflexivity.
Defined.

(** X16. Listing again a file that is a CatalogFS file, with nothing at the
    output path and a size within the limit: for the header and lines of
    fields that the reader accepts, the record written out takes each field
    from the last line of the field in the text and, for a field without a
    line, from the stat of the CatalogFS file itself; the hash, not part of
    a stat, stays unset without a line, whatever hash was computed. *)
Theorem relisted_fields_come_from_text :
  forall (fuel : nat) (st : stat_result) (lines : list (field * str))
         (sha256_str : option str)
         (skip_existing flag_data_only flag_data_and_time_only : bool),
    S_ISREG (st_mode st) = true ->
    st_size st <= FORMAT_MAX_FILE_SIZE ->
    forallb valid_line lines = true ->
    exists r,
      process_one_file fuel Nothing_there st
        (FORMAT_HEADER_TO_WRITE ++ text_lines (named lines)) sha256_str
        skip_existing true flag_data_only flag_data_and_time_only
      = Returns (Listed (write_cfsfile r flag_data_only
                           flag_data_and_time_only))
      /\ forall f,
          get_field f r =
          match last_line f lines with
          | Some v => value_of f v
          | None => get_field f (create_cfsfile_from_regularfile st)
          end.
Proof.
  intros fuel st lines sha skip d t Hreg Hsize Hv.
  destruct (read_header_lines fuel lines (create_cfsfile_from_regularfile st)
              Hv) as (r & Hr & Hget).
  exists r. split; [|exact Hget].
  unfold process_one_file. rewrite Hreg. cbn [negb andb].
  destruct (Z.ltb_spec FORMAT_MAX_FILE_SIZE (st_size st)); [lia|].
  rewrite Hr. reflexivity.
Qed.

Lemma relisted_fields_come_from_text_witness :
  let st := mkStat 33188 21 8 1000 1000
              (Py.mkFloat 1700000000 0) (Py.mkFloat 1700000000 0)
              (Py.mkFloat 1700000000 0) 0 0 0 1 4096 in
  let lines := [(F_size, lit "123456789")] in
  S_ISREG (st_mode st) = true /\ st_size st <= FORMAT_MAX_FILE_SIZE /\
  forallb valid_line lines = true /\
  exists r,
    process_one_file 0 Nothing_there st
      (FORMAT_HEADER_TO_WRITE ++ text_lines (named lines)) None
      false true true false
    = Returns (Listed (write_cfsfile r true false))
    /\ forall f,
        get_field f r =
        match last_line f lines with
        | Some v => value_of f v
        | None => get_field f (create_cfsfile_from_regularfile st)
        end.
Proof.
  assert (st_size (mkStat 33188 21 8 1000 1000
                     (Py.mkFloat 1700000000 0) (Py.mkFloat 1700000000 0)
                     (Py.mkFloat 1700000000 0) 0 0 0 1 4096)
          <= FORMAT_MAX_FILE_SIZE) as Hs
    by (cbn; unfold FORMAT_MAX_FILE_SIZE; lia).
  split; [reflexivity|]. split; [exact Hs|]. split; [reflexivity|].
  apply (relisted_fields_come_from_text 0
           (mkStat 33188 21 8 1000 1000
              (Py.mkFloat 1700000000 0) (Py.mkFloat 1700000000 0)
              (Py.mkFloat 1700000000 0) 0 0 0 1 4096)
           [(F_size, lit "123456789")] None
           false true false eq_refl Hs eq_refl).
Defined.

Lemma nonzero_some a :
  is_some (nonzero a) = true -> nonzero a = a /\ is_some a = true.
Proof.
  destruct a as [z|]; cbn; [|discriminate].
  destruct (z =? 0); [discriminate|]. intros _. split; reflexivity.
Qed.

Lemma overlay_complete c c0 :
  complete c = true -> sha256 c0 = None ->
  overlay (preserved c false false) c0 = preserved c false false.
Proof.
  destruct c as [a1 a2 a3 a4 a5 a6 a7 a8 a9 a10 a11 a12 a13 h].
  destruct c0 as [b1 b2 b3 b4 b5 b6 b7 b8 b9 b10 b11 b12 b13 h0].
  unfold complete, overlay, preserved.
  cbn [size blocks mode uid gid atime mtime ctime atimensec mtimensec
       ctimensec nlink blksize sha256].
  intros H ->.
  repeat match type of H with
         | _ && _ = true =>
             let H' := fresh "H" in apply andb_true_iff in H as [H H']
         end.
  repeat match goal with
         | H : is_some (nonzero ?a) = true |- _ =>
             destruct (nonzero_some a H) as [-> ?]; clear H
         end.
  repeat match goal with
         | H : is_some ?a = true |- _ =>
             destruct a; [clear H|cbn in H; discriminate H]
         end.
  destruct h; reflexivity.
Qed.

(** X17. Listing again a complete CatalogFS file reproduces it: when the
    source is the text written under the full profile for a record with
    every numeric field set and no nanosecond field zero, the text written
    out is the text of this record under the profile asked for -- the very
    same text under the full profile -- whatever the stat of the source
    file is, within the size limit. *)
Theorem relisting_complete_file :
  forall (fuel : nat) (st : stat_result) (c : CFSFile)
         (sha256_str : option str)
         (skip_existing flag_data_only flag_data_and_time_only : bool),
    S_ISREG (st_mode st) = true ->
    st_size st <= FORMAT_MAX_FILE_SIZE ->
    complete c = true ->
    hash_wellformed (sha256 c) = true ->
    process_one_file fuel Nothing_there st (write_cfsfile c false false)
      sha256_str skip_existing true flag_data_only flag_data_and_time_only
    = Returns (Listed (write_cfsfile c flag_data_only
                         flag_data_and_time_only)).
Proof.
  intros fuel st c sha skip d t Hreg Hsize Hc Hh.
  unfold process_one_file. rewrite Hreg. cbn [negb andb].
  destruct (Z.ltb_spec FORMAT_MAX_FILE_SIZE (st_size st)); [lia|].
  rewrite read_written_onto by exact Hh.
  rewrite overlay_complete by (assumption || reflexivity).
  rewrite write_preserved by (destruct d, t; reflexivity). reflexivity.
Qed.

Lemma relisting_complete_file_witness :
  let st := mkStat 33188 200 8 0 0 (Py.mkFloat 5 0) (Py.mkFloat 5 0)
              (Py.mkFloat 5 0) 1 2 3 1 4096 in
  let c := mkCFSFile (Some 4096) (Some 8) (Some 33188) (Some 1000)
             (Some 1000) (Some (Py.Int 1700000000)) (Some (Py.Int 1700000001))
             (Some (Py.Int 1700000002)) (Some 1) (Some 2) (Some 3) (Some 1)
             (Some 4096) None in
  S_ISREG (st_mode st) = true /\ st_size st <= FORMAT_MAX_FILE_SIZE /\
  complete c = true /\ hash_wellformed (sha256 c) = true /\
  process_one_file 0 Nothing_there st (write_cfsfile c false false)
    None false true false false
  = Returns (Listed (write_cfsfile c false false)).
Proof.
  assert (st_size (mkStat 33188 200 8 0 0 (Py.mkFloat 5 0) (Py.mkFloat 5 0)
              (Py.mkFloat 5 0) 1 2 3 1 4096)
          <= FORMAT_MAX_FILE_SIZE) as Hs
    by (cbn; unfold FORMAT_MAX_FILE_SIZE; lia).
  split; [reflexivity|]. split; [exact Hs|].
  split; [reflexivity|]. split; [reflexivity|].
  apply (relisting_complete_file 0
           (mkStat 33188 200 8 0 0 (Py.mkFloat 5 0) (Py.mkFloat 5 0)
              (Py.mkFloat 5 0) 1 2 3 1 4096)
           (mkCFSFile (Some 4096) (Some 8) (Some 33188) (Some 1000)
              (Some 1000) (Some (Py.Int 1700000000)) (Some (Py.Int 1700000001))
              (Some (Py.Int 1700000002)) (Some 1) (Some 2) (Some 3) (Some 1)
              (Some 4096) None)
           None false false false eq_refl Hs eq_refl eq_refl).
Defined.

(** * Further properties of the reader of the old formats *)

Lemma slice_whole s : Py.slice s 0 (len s) = s.
Proof.
  pose proof (slice_prefix s []) as H. rewrite app_nil_r in H. exact H.
Qed.

Lemma find_from_at pre s sub :
  Py.find_from (pre ++ s) sub (len pre) =
  shift_pos (len pre) (at_offset 0 (Py.index_of sub s)).
Proof.
  unfold Py.find_from. rewrite len_app.
  replace (len pre) with (len pre + 0) at 1 by lia.
  pose proof (len_nonneg s) as Hs.
  rewrite find_shift by lia. f_equal.
  rewrite find_nonneg_bounds by lia. rewrite slice_whole.
  replace (Z.min (len s) (len s) - 0) with (len s) by lia.
  destruct (Z.ltb_spec (len s) (len sub)); [|reflexivity].
  rewrite index_of_short by (unfold len in *; lia). reflexivity.
Qed.

Lemma find_at pre s sub (k : nat) :
  (k <= length s)%nat ->
  Py.find (pre ++ s) sub (len pre) (len pre + Z.of_nat k) =
  shift_pos (len pre) (at_offset 0 (Py.index_of sub (firstn k s))).
Proof.
  intros Hk. replace (len pre) with (len pre + 0) at 1 by lia.
  rewrite find_shift by lia. f_equal.
  rewrite find_nonneg_bounds by lia.
  assert (Py.slice s 0 (Z.of_nat k) = firstn k s) as ->.
  { rewrite slice_nonneg by lia. unfold len.
    replace (Z.min 0 (Z.of_nat (length s))) with 0 by lia.
    cbn [Z.to_nat skipn]. f_equal. lia. }
  destruct (Z.ltb_spec (Z.min (Z.of_nat k) (len s) - 0) (len sub));
    [|reflexivity].
  rewrite index_of_short; [reflexivity|].
  rewrite length_firstn. unfold len in *. lia.
Qed.

Lemma old_extract_int_at pre value rest :
  no_line_feed value = true ->
  old_format_extract_next_int (pre ++ value ++ "010"%char :: rest) (len pre)
  = match Py.int (Py.strip value) with
    | Some z => Returns (len pre + len value + 1, z)
    | None => Raises (RuntimeError (Not_an_integer (Py.strip value)))
    end.
Proof.
  intros Hv. unfold old_format_extract_next_int.
  change old_new_line with ["010"%char].
  rewrite find_from_single.
  rewrite first_index_app_hit
    by (try reflexivity; apply no_line_feed_Forall; exact Hv).
  cbn [at_offset]. rewrite shift_pos_nonneg by lia.
  pose proof (len_nonneg pre). pose proof (len_nonneg value).
  replace (len pre + (0 + Z.of_nat (length value)))
    with (len pre + len value) by (unfold len; lia).
  destruct (Z.eqb_spec (len pre + len value) (-1)); [lia|].
  rewrite slice_middle. change (len ["010"%char]) with 1. reflexivity.
Qed.

Lemma old_extract_string_at pre value rest :
  no_line_feed value = true ->
  old_format_extract_next_string (pre ++ value ++ "010"%char :: rest)
    (len pre)
  = (len pre + len value + 1, Py.strip value).
Proof.
  intros Hv. unfold old_format_extract_next_string.
  change old_new_line with ["010"%char].
  rewrite find_from_single.
  rewrite first_index_app_hit
    by (try reflexivity; apply no_line_feed_Forall; exact Hv).
  cbn [at_offset]. rewrite shift_pos_nonneg by lia.
  pose proof (len_nonneg pre). pose proof (len_nonneg value).
  replace (len pre + (0 + Z.of_nat (length value)))
    with (len pre + len value) by (unfold len; lia).
  destruct (Z.eqb_spec (len pre + len value) (-1)); [lia|].
  rewrite slice_middle. change (len ["010"%char]) with 1. reflexivity.
Qed.

Lemma index_of_path_end path rest :
  no_nul path = true ->
  Py.index_of old_path_end (path ++ old_path_end ++ rest)
  = Some (length path).
Proof.
  intros Hp. induction path as [|x path IH].
  - cbn [app]. apply index_of_prefix. reflexivity.
  - cbn [no_nul forallb] in Hp. apply andb_true_iff in Hp as [Hx Hp].
    cbn [app Py.index_of].
    assert (Py.is_prefix old_path_end (x :: path ++ old_path_end ++ rest)
            = false) as ->.
    { unfold old_path_end. cbn [Py.is_prefix].
      destruct (chr_eqb "000"%char x); [discriminate Hx|reflexivity]. }
    unfold no_nul in IH. rewrite (IH Hp). reflexivity.
Qed.

Lemma old_extract_path_at pre path rest :
  no_nul path = true ->
  fst (old_format_extract_next_path (pre ++ path ++ old_path_end ++ rest)
         (len pre))
  = len pre + len path + 2.
Proof.
  intros Hp. unfold old_format_extract_next_path.
  rewrite find_from_at, index_of_path_end by exact Hp.
  cbn [at_offset]. rewrite shift_pos_nonneg by lia.
  pose proof (len_nonneg pre). pose proof (len_nonneg path).
  destruct (Z.eqb_spec (len pre + (0 + Z.of_nat (length path))) (-1)); [lia|].
  cbn [fst]. change (len old_path_end) with 2. unfold len. lia.
Qed.

(** One turn of the loop at an entry [key: tail], when the tail has a line
    feed and the first [: ] of the entry is the one after the key. *)
Lemma old_step_at_key pre key tail c j :
  no_line_feed key = true ->
  (forall t, Py.index_of old_field_sep (key ++ old_field_sep ++ t)
             = Some (length key)) ->
  first_index (chr_eqb "010"%char) tail = Some j ->
  old_body_step (pre ++ key ++ old_field_sep ++ tail) (len pre) c
  = old_fill_field (pre ++ key ++ old_field_sep ++ tail) c key
      (len pre + len key + 2).
Proof.
  intros Hk Hidx Hj. unfold old_body_step.
  change old_new_line with ["010"%char].
  set (s := key ++ old_field_sep ++ tail).
  pose proof (len_nonneg pre) as Hp. pose proof (len_nonneg key) as Hkey.
  assert (first_index (chr_eqb "010"%char) s
          = Some (length key + 2 + j)%nat) as Hnl.
  { unfold s. rewrite first_index_app_miss
      by (apply no_line_feed_Forall; exact Hk).
    change old_field_sep with [":"%char; " "%char]. cbn [app first_index].
    change (chr_eqb "010"%char ":"%char) with false.
    change (chr_eqb "010"%char " "%char) with false. cbv iota.
    rewrite Hj. cbn [option_map]. f_equal. lia. }
  rewrite find_from_single, Hnl. cbn [at_offset].
  rewrite shift_pos_nonneg by lia.
  replace (len pre + (0 + Z.of_nat (length key + 2 + j)))
    with (len pre + Z.of_nat (length key + 2 + j)) by lia.
  pose proof (first_index_bound _ _ _ Hnl) as Hb.
  rewrite find_at by lia.
  assert (firstn (length key + 2 + j) s
          = key ++ old_field_sep ++ firstn j tail) as ->.
  { unfold s. rewrite firstn_app.
    rewrite firstn_all2 by lia.
    replace (length key + 2 + j - length key)%nat with (2 + j)%nat by lia.
    reflexivity. }
  rewrite Hidx. cbn [at_offset]. rewrite shift_pos_nonneg by lia.
  replace (len pre + (0 + Z.of_nat (length key))) with (len pre + len key)
    by (unfold len; lia).
  destruct (Z.eqb_spec (len pre + len key) (-1)); [lia|].
  unfold s. rewrite slice_middle.
  change (len old_field_sep) with 2. reflexivity.
Qed.

Lemma field_name_old_key f :
  no_line_feed (field_name f) = true /\
  forall t, Py.index_of old_field_sep (field_name f ++ old_field_sep ++ t)
            = Some (length (field_name f)).
Proof. destruct f; split; reflexivity. Qed.

Lemma path_key_old_key b :
  no_line_feed (path_key b) = true /\
  forall t, Py.index_of old_field_sep (path_key b ++ old_field_sep ++ t)
            = Some (length (path_key b)).
Proof. destruct b; split; reflexivity. Qed.

Lemma old_fill_field_by_name f data c value_start :
  old_fill_field data c (field_name f) value_start =
  match f with
  | F_sha256 =>
      let '(new_pos, v) := old_format_extract_next_string data value_start in
      Returns (new_pos, set_sha256 (Some v) c)
  | _ =>
      do (new_pos, v) <- old_format_extract_next_int data value_start;
      Returns (new_pos, store_value f (Int_value v) c)
  end.
Proof. destruct f; reflexivity. Qed.

Lemma old_fill_field_path b data c value_start :
  old_fill_field data c (path_key b) value_start =
  Returns (fst (old_format_extract_next_path data value_start), c).
Proof. destruct b; reflexivity. Qed.

(** One turn of the loop at an entry. *)
Lemma old_step_item pre i rest c :
  old_item_ok i = true ->
  old_body_step (pre ++ old_text_item i ++ rest) (len pre) c
  = match i with
    | Field_item f value =>
        do x <- old_read_value f value;
        Returns (len pre + len (old_text_item i), store_value f x c)
    | Path_item _ _ => Returns (len pre + len (old_text_item i), c)
    end.
Proof.
  intros Hi. pose proof (len_nonneg pre) as Hp.
  destruct i as [f value|b path]; cbn [old_item_ok old_text_item] in *.
  - destruct (field_name_old_key f) as [Hk Hidx].
    change old_new_line with ["010"%char]. rewrite <- !app_assoc.
    cbn [app].
    rewrite (old_step_at_key pre (field_name f)
               (value ++ "010"%char :: rest) c (length value) Hk Hidx)
      by (apply first_index_app_hit;
          [apply no_line_feed_Forall; exact Hi|reflexivity]).
    rewrite old_fill_field_by_name.
    replace (pre ++ field_name f ++ old_field_sep ++ value ++ "010"%char :: rest)
      with ((pre ++ field_name f ++ old_field_sep) ++ value
              ++ "010"%char :: rest)
      by (rewrite <- !app_assoc; reflexivity).
    replace (len pre + len (field_name f) + 2)
      with (len (pre ++ field_name f ++ old_field_sep))
      by (rewrite !len_app; change (len old_field_sep) with 2; lia).
    rewrite old_extract_int_at, old_extract_string_at by exact Hi.
    replace (len (pre ++ field_name f ++ old_field_sep) + len value + 1)
      with (len pre + len (field_name f ++ old_field_sep ++ value
                             ++ ["010"%char]))
      by (rewrite !len_app; change (len old_field_sep) with 2;
          change (len ["010"%char]) with 1; lia).
    destruct f; unfold old_read_value; try reflexivity;
      destruct (Py.int (Py.strip value)); reflexivity.
  - destruct (path_key_old_key b) as [Hk Hidx].
    rewrite <- !app_assoc.
    assert (exists j, first_index (chr_eqb "010"%char)
                        (path ++ old_path_end ++ rest) = Some j) as [j Hj].
    { clear. induction path as [|x path [j IH]]; cbn [app first_index].
      - exists 1%nat. reflexivity.
      - destruct (chr_eqb "010"%char x); [exists O; reflexivity|].
        rewrite IH. eexists; reflexivity. }
    rewrite (old_step_at_key pre (path_key b)
               (path ++ old_path_end ++ rest) c j Hk Hidx Hj).
    rewrite old_fill_field_path.
    replace (pre ++ path_key b ++ old_field_sep ++ path ++ old_path_end ++ rest)
      with ((pre ++ path_key b ++ old_field_sep) ++ path
              ++ old_path_end ++ rest)
      by (rewrite <- !app_assoc; reflexivity).
    replace (len pre + len (path_key b) + 2)
      with (len (pre ++ path_key b ++ old_field_sep))
      by (rewrite !len_app; change (len old_field_sep) with 2; lia).
    rewrite old_extract_path_at by exact Hi.
    f_equal. f_equal. rewrite !len_app.
    change (len old_field_sep) with 2. change (len old_path_end) with 2.
    lia.
Qed.

Lemma old_body_loop_items items : forall pre fuel c,
  forallb old_item_ok items = true ->
  (length items < fuel)%nat ->
  old_body_loop fuel (pre ++ old_text_items items) (len pre) c
  = old_fill_items c items.
Proof.
  induction items as [|i items IH]; intros pre fuel c Hok Hf;
    (destruct fuel as [|fuel]; [cbn in Hf; lia|]);
    rewrite old_body_loop_unfold.
  - cbn [old_text_items]. rewrite app_nil_r.
    destruct (Z.ltb_spec (len pre) (len pre)); [lia|reflexivity].
  - cbn [forallb] in Hok. apply andb_true_iff in Hok as [Hi Hok].
    cbn [old_text_items].
    assert (0 < len (old_text_item i)) as Hlen.
    { destruct i as [f v|b path]; cbn [old_text_item]; rewrite !len_app;
        change (len old_field_sep) with 2.
      - pose proof (len_nonneg (field_name f)). pose proof (len_nonneg v).
        pose proof (len_nonneg old_new_line). lia.
      - pose proof (len_nonneg (path_key b)). pose proof (len_nonneg path).
        pose proof (len_nonneg old_path_end). lia. }
    pose proof (len_nonneg (old_text_items items)) as Hrest.
    destruct (Z.ltb_spec (len pre)
                (len (pre ++ old_text_item i ++ old_text_items items)))
      as [_|Hge]; [|rewrite !len_app in Hge; lia].
    rewrite old_step_item by exact Hi.
    assert (forall c',
               old_body_loop fuel
                 (pre ++ old_text_item i ++ old_text_items items)
                 (len pre + len (old_text_item i)) c'
               = old_fill_items c' items) as Hnext.
    { intros c'. rewrite app_assoc, <- len_app.
      apply IH; [exact Hok|cbn in Hf; lia]. }
    destruct i as [f v|b path]; cbn [old_fill_items bind].
    + destruct (old_read_value f v) as [x| |]; cbn [bind]; try reflexivity.
      apply Hnext.
    + apply Hnext.
Qed.

Lemma old_header_read fuel second body c :
  read_cfsfile fuel (old_header second ++ body) c
  = old_body_loop fuel body 0 c.
Proof.
  unfold read_cfsfile, old_header. change old_new_line with ["010"%char].
  rewrite <- !app_assoc. cbn [app].
  rewrite old_prefix_is_old_format.
  rewrite old_format_header by (destruct second; reflexivity).
  destruct second; reflexivity.
Qed.

Lemma read_old_items fuel second items c :
  forallb old_item_ok items = true ->
  (length items < fuel)%nat ->
  read_cfsfile fuel (old_header second ++ old_text_items items) c
  = old_fill_items c items.
Proof.
  intros Hok Hf. rewrite old_header_read.
  apply (old_body_loop_items items [] fuel c Hok Hf).
Qed.

Lemma old_fill_items_fields c items :
  old_fill_items c (as_items (field_items items)) = old_fill_items c items.
Proof.
  revert c; induction items as [|[f v|b path] items IH]; intros c;
    cbn [field_items as_items map old_fill_items fst snd]; [reflexivity| |].
  - destruct (old_read_value f v); cbn [bind]; try reflexivity.
    apply IH.
  - apply IH.
Qed.

Lemma field_items_ok items :
  forallb old_item_ok items = true ->
  forallb old_item_ok (as_items (field_items items)) = true.
Proof.
  induction items as [|[f v|b path] items IH];
    cbn [field_items as_items map forallb old_item_ok fst snd]; [auto| |].
  - intros H. apply andb_true_iff in H as [-> H]. apply IH. exact H.
  - intros H. apply andb_true_iff in H as [_ H]. apply IH. exact H.
Qed.

Lemma field_items_length items :
  (length (as_items (field_items items)) <= length items)%nat.
Proof.
  unfold as_items. rewrite length_map.
  induction items as [|[f v|b path] items IH]; cbn [field_items length]; lia.
Qed.

(** X18. The entries [name] and [path] of a record of the old formats do not
    count: whatever text without NUL they hold -- line feeds and text that
    looks like lines of fields included -- the record is read, with turns
    enough for its entries, as the record with the lines of fields alone. *)
Theorem old_path_entries_ignored :
  forall (fuel : nat) (second : bool) (items : list old_item) (c : CFSFile),
    forallb old_item_ok items = true ->
    (length items < fuel)%nat ->
    read_cfsfile fuel (old_header second ++ old_text_items items) c
    = old_fill_items c items
    /\ read_cfsfile fuel (old_header second ++ old_text_items items) c
       = read_cfsfile fuel
           (old_header second
              ++ old_text_items (as_items (field_items items))) c.
Proof.
  intros fuel second items c Hok Hf.
  rewrite (read_old_items fuel second items c Hok Hf).
  split; [reflexivity|].
  rewrite read_old_items.
  - symmetry. apply old_fill_items_fields.
  - apply field_items_ok. exact Hok.
  - pose proof (field_items_length items). lia.
Qed.

Lemma old_path_entries_ignored_witness :
  let items := [Path_item true (lit "a
size: 9
b"); Field_item F_size (lit " 5 "); Path_item false (lit "/x: y")] in
  forallb old_item_ok items = true /\ (length items < 4)%nat /\
  read_cfsfile 4 (old_header false ++ old_text_items items) CFSFile_new
  = Returns (set_size (Some 5) CFSFile_new) /\
  read_cfsfile 4 (old_header false ++ old_text_items items) CFSFile_new
  = read_cfsfile 4
      (old_header false ++ old_text_items (as_items (field_items items)))
      CFSFile_new.
Proof.
  split; [reflexivity|]. split; [cbn; lia|]. split; [reflexivity|].
  apply (old_path_entries_ignored 4 false
           [Path_item true (lit "a
size: 9
b"); Field_item F_size (lit " 5 "); Path_item false (lit "/x: y")]
           CFSFile_new); [reflexivity|cbn; lia].
Defined.

Lemma plain_value_reads f v :
  forallb is_plain_char v = true -> old_read_value f v = read_value f v.
Proof.
  intros Hp.
  assert (Py.strip v = v) as Hs.
  { unfold Py.strip. apply strip_by_plain.
    eapply forallb_weaken; [apply plain_char_space|exact Hp]. }
  assert (Py.strip_chars FORMAT_TRIMMING_CHARS v = v) as Ht.
  { unfold Py.strip_chars. apply strip_by_plain.
    eapply forallb_weaken; [apply plain_char_trim|exact Hp]. }
  destruct f; unfold old_read_value, read_value, cfsfile_extract_int;
    rewrite ?Hs, ?Ht; try reflexivity;
    destruct (Py.int v); reflexivity.
Qed.

Lemma plain_values_fill lines : forall c,
  forallb plain_value lines = true ->
  old_fill_items c (as_items lines) = fill_fields c (named lines).
Proof.
  induction lines as [|[f v] lines IH]; intros c Hp; [reflexivity|].
  cbn [forallb] in Hp. apply andb_true_iff in Hp as [Hv Hp].
  unfold plain_value in Hv. cbn [snd] in Hv.
  cbn [as_items named map old_fill_items fill_fields fst snd].
  fold (as_items lines). fold (named lines).
  rewrite field_name_strip, fill_field_by_name, plain_value_reads by exact Hv.
  destruct (read_value f v); cbn [bind]; try reflexivity.
  apply IH. exact Hp.
Qed.

(** X19. A record of the old formats and a text of the current format with
    the same lines of fields are read alike: when the values are made of
    characters that are neither white space nor delimiters, the old text
    (version 1 or 2, lines [name: value]) and the current text (lines
    [name=value]) have the same outcome -- the same record, or the same
    error -- once the loop of the old reader has turns enough for the
    lines. *)
Theorem old_and_current_formats_agree :
  forall (fuel : nat) (second : bool) (lines : list (field * str))
         (c : CFSFile),
    forallb plain_value lines = true ->
    (length lines < fuel)%nat ->
    read_cfsfile fuel (old_header second ++ old_text_items (as_items lines)) c
    = read_cfsfile fuel
        (FORMAT_HEADER_TO_WRITE ++ text_lines (named lines)) c.
Proof.
  intros fuel second lines c Hp Hf.
  rewrite read_old_items.
  - unfold read_cfsfile at 1. rewrite header_not_old_format.
    rewrite fill_header_lines.
    + apply plain_values_fill. exact Hp.
    + apply forallb_forall. intros [n v] Hin.
      unfold named in Hin. apply in_map_iff in Hin as [[f v'] [E Hin]].
      inversion E; subst. rewrite forallb_forall in Hp.
      specialize (Hp _ Hin). unfold plain_value in Hp. cbn [snd] in Hp.
      unfold plain_line. cbn [fst snd].
      destruct (field_name_plain f) as [-> ->]. cbn [andb].
      eapply forallb_weaken; [apply plain_char_newline|exact Hp].
  - apply forallb_forall. intros i Hin.
    unfold as_items in Hin. apply in_map_iff in Hin as [[f v] [E Hin]].
    subst i. rewrite forallb_forall in Hp. specialize (Hp _ Hin).
    unfold plain_value in Hp. cbn [fst snd old_item_ok] in *.
    eapply forallb_weaken; [|exact Hp].
    intros x Hx. apply plain_char_newline in Hx.
    unfold is_newline_char in Hx. apply negb_true_iff in Hx.
    apply orb_false_iff in Hx as [Hx _].
    apply negb_true_iff.
    destruct (chr_eqb "010"%char x) eqn:E; [|reflexivity].
    apply chr_eqb_eq in E. subst x. discriminate Hx.
  - unfold as_items. rewrite length_map. exact Hf.
Qed.

Lemma old_and_current_formats_agree_witness :
  let lines := [(F_size, lit "4096"); (F_mode, lit "33188");
                (F_mtime, lit "-5"); (F_sha256, lit "ab12")] in
  forallb plain_value lines = true /\ (length lines < 5)%nat /\
  read_cfsfile 5 (old_header true ++ old_text_items (as_items lines))
    CFSFile_new
  = read_cfsfile 5 (FORMAT_HEADER_TO_WRITE ++ text_lines (named lines))
      CFSFile_new.
Proof.
  split; [reflexivity|]. split; [cbn; lia|].
  apply (old_and_current_formats_agree 5 true
           [(F_size, lit "4096"); (F_mode, lit "33188");
            (F_mtime, lit "-5"); (F_sha256, lit "ab12")] CFSFile_new);
    [reflexivity|cbn; lia].
Defined.

(** ** Errors in a body of the old formats *)

Lemma old_body_loop_items_then items : forall pre rest fuel c,
  forallb old_item_ok items = true ->
  old_body_loop (length items + fuel)
    (pre ++ old_text_items items ++ rest) (len pre) c
  = (do c' <- old_fill_items c items;
     old_body_loop fuel (pre ++ old_text_items items ++ rest)
       (len pre + len (old_text_items items)) c').
Proof.
  induction items as [|i items IH]; intros pre rest fuel c Hok.
  - cbn [length Nat.add old_text_items old_fill_items bind app].
    change (len []) with 0. rewrite Z.add_0_r. reflexivity.
  - cbn [forallb] in Hok. apply andb_true_iff in Hok as [Hi Hok].
    cbn [length Nat.add old_text_items]. rewrite old_body_loop_unfold.
    assert (0 < len (old_text_item i)) as Hlen.
    { destruct i as [f v|b path]; cbn [old_text_item]; rewrite !len_app;
        change (len old_field_sep) with 2.
      - pose proof (len_nonneg (field_name f)). pose proof (len_nonneg v).
        pose proof (len_nonneg old_new_line). lia.
      - pose proof (len_nonneg (path_key b)). pose proof (len_nonneg path).
        pose proof (len_nonneg old_path_end). lia. }
    pose proof (len_nonneg (old_text_items items ++ rest)) as Hrest.
    rewrite <- app_assoc.
    destruct (Z.ltb_spec (len pre)
                (len (pre ++ old_text_item i ++ old_text_items items ++ rest)))
      as [_|Hge]; [|rewrite !len_app in Hge; rewrite len_app in Hrest; lia].
    rewrite old_step_item by exact Hi.
    assert (forall c',
               old_body_loop (length items + fuel)
                 (pre ++ old_text_item i ++ old_text_items items ++ rest)
                 (len pre + len (old_text_item i)) c'
               = (do c'' <- old_fill_items c' items;
                  old_body_loop fuel
                    (pre ++ old_text_item i ++ old_text_items items ++ rest)
                    (len pre + len (old_text_item i ++ old_text_items items))
                    c'')) as Hnext.
    { intros c'. rewrite (app_assoc pre), <- len_app.
      rewrite IH by exact Hok. rewrite !len_app.
      rewrite Z.add_assoc. reflexivity. }
    destruct i as [f v|b path]; cbn [old_fill_items bind].
    + destruct (old_read_value f v) as [x| |]; cbn [bind]; try reflexivity.
      apply Hnext.
    + apply Hnext.
Qed.

Lemma index_of_no_colon key t :
  no_colon key = true ->
  Py.index_of old_field_sep (key ++ old_field_sep ++ t) = Some (length key).
Proof.
  intros Hk. induction key as [|x key IH].
  - apply index_of_prefix. reflexivity.
  - cbn [no_colon forallb] in Hk. apply andb_true_iff in Hk as [Hx Hk].
    cbn [app Py.index_of].
    assert (Py.is_prefix old_field_sep (x :: key ++ old_field_sep ++ t)
            = false) as ->.
    { change old_field_sep with [":"%char; " "%char]. cbn [Py.is_prefix].
      destruct (chr_eqb ":"%char x); [discriminate Hx|reflexivity]. }
    unfold no_colon in IH. rewrite (IH Hk). reflexivity.
Qed.

Lemma old_fill_field_unknown data c o value_start :
  is_old_key o = false ->
  old_fill_field data c o value_start
  = Raises (RuntimeError Unknown_param_name).
Proof.
  unfold is_old_key, is_field_name.
  cbn [existsb all_fields field_name]. intros H.
  repeat match goal with
         | H : _ || _ = false |- _ =>
             let A := fresh "H" in
             let B := fresh "H" in
             apply orb_false_iff in H as [A B]
         end.
  unfold old_fill_field.
  repeat match goal with
         | E : str_eqb o ?n = false |- context [str_eqb o ?n] => rewrite E
         end.
  reflexivity.
Qed.

Lemma read_old_items_then fuel second items rest c :
  forallb old_item_ok items = true ->
  (length items < fuel)%nat ->
  exists fuel',
    read_cfsfile fuel (old_header second ++ old_text_items items ++ rest) c
    = (do c' <- old_fill_items c items;
       old_body_loop (S fuel') (old_text_items items ++ rest)
         (len (old_text_items items)) c').
Proof.
  intros Hok Hf. exists (fuel - length items - 1)%nat.
  rewrite old_header_read.
  replace fuel with (length items + S (fuel - length items - 1))%nat at 1
    by lia.
  apply (old_body_loop_items_then items [] rest _ c Hok).
Qed.

(** X20. The reader of the old formats knows the names of the fields, [name]
    and [path], and compares them as they stand, untrimmed: after entries
    that it reads, an entry [key: value] whose key is none of them raises
    the error of an unknown parameter name. *)
Theorem old_unknown_entry_rejected :
  forall (fuel : nat) (second : bool) (items : list old_item)
         (key value rest : str) (c : CFSFile),
    forallb old_item_ok items = true ->
    (length items < fuel)%nat ->
    no_colon key = true -> no_line_feed key = true ->
    no_line_feed value = true ->
    is_old_key key = false ->
    read_cfsfile fuel
      (old_header second ++ old_text_items items
         ++ key ++ old_field_sep ++ value ++ "010"%char :: rest) c
    = then_raises (old_fill_items c items)
        (RuntimeError Unknown_param_name).
Proof.
  intros fuel second items key value rest c Hok Hf Hc Hk Hv Hu.
  destruct (read_old_items_then fuel second items
              (key ++ old_field_sep ++ value ++ "010"%char :: rest) c Hok Hf)
    as [fuel' ->].
  destruct (old_fill_items c items) as [r| |]; cbn [bind then_raises];
    try reflexivity.
  rewrite old_body_loop_unfold.
  pose proof (len_nonneg (old_text_items items)).
  pose proof (len_nonneg key).
  pose proof (len_nonneg (value ++ "010"%char :: rest)).
  destruct (Z.ltb_spec (len (old_text_items items))
              (len (old_text_items items ++ key ++ old_field_sep ++ value
                      ++ "010"%char :: rest))) as [_|Hge].
  2:{ rewrite !len_app in Hge. change (len old_field_sep) with 2 in Hge.
      rewrite len_app in *. lia. }
  rewrite (old_step_at_key (old_text_items items) key
             (value ++ "010"%char :: rest) r (length value) Hk
             (fun t => index_of_no_colon key t Hc))
    by (apply first_index_app_hit;
        [apply no_line_feed_Forall; exact Hv|reflexivity]).
  rewrite old_fill_field_unknown by exact Hu. reflexivity.
Qed.

Lemma old_unknown_entry_rejected_witness :
  let items := [Field_item F_mode (lit "33188")] in
  forallb old_item_ok items = true /\ (length items < 2)%nat /\
  no_colon (lit " size") = true /\ no_line_feed (lit " size") = true /\
  no_line_feed (lit "5") = true /\ is_old_key (lit " size") = false /\
  read_cfsfile 2
    (old_header false ++ old_text_items items
       ++ lit " size" ++ old_field_sep ++ lit "5" ++ "010"%char :: []) CFSFile_new
  = Raises (RuntimeError Unknown_param_name).
Proof.
  split; [reflexivity|]. split; [cbn; lia|].
  repeat (split; [reflexivity|]).
  apply (old_unknown_entry_rejected 2 false
           [Field_item F_mode (lit "33188")] (lit " size") (lit "5") []
           CFSFile_new); try reflexivity. cbn; lia.
Defined.

(** X21. In a body of the old formats, a line ended by a line feed that has
    something in it and no separator [: ] raises, after entries that the
    reader reads, the error of an invalid string. *)
Theorem old_malformed_line_rejected :
  forall (fuel : nat) (second : bool) (items : list old_item)
         (l rest : str) (c : CFSFile),
    forallb old_item_ok items = true ->
    (length items < fuel)%nat ->
    contains l old_field_sep = false ->
    no_line_feed l = true -> not_blank l = true ->
    read_cfsfile fuel
      (old_header second ++ old_text_items items ++ l ++ "010"%char :: rest) c
    = then_raises (old_fill_items c items) (RuntimeError Invalid_string).
Proof.
  intros fuel second items l rest c Hok Hf Hc Hl Hb.
  destruct (read_old_items_then fuel second items
              (l ++ "010"%char :: rest) c Hok Hf) as [fuel' ->].
  destruct (old_fill_items c items) as [r| |]; cbn [bind then_raises];
    try reflexivity.
  rewrite old_body_loop_unfold.
  set (pre := old_text_items items).
  pose proof (len_nonneg pre). pose proof (len_nonneg l).
  pose proof (len_nonneg rest).
  destruct (Z.ltb_spec (len pre) (len (pre ++ l ++ "010"%char :: rest)))
    as [_|Hge]; [|rewrite !len_app, len_cons in Hge; lia].
  unfold old_body_step. change old_new_line with ["010"%char].
  rewrite find_from_single.
  rewrite first_index_app_hit
    by (try reflexivity; apply no_line_feed_Forall; exact Hl).
  cbn [at_offset]. rewrite shift_pos_nonneg by lia.
  replace (len pre + (0 + Z.of_nat (length l)))
    with (len pre + Z.of_nat (length l)) by lia.
  rewrite find_at by (rewrite length_app; lia).
  rewrite firstn_exact.
  unfold contains in Hc.
  destruct (Py.index_of old_field_sep l); [discriminate Hc|].
  cbn [at_offset]. unfold shift_pos. cbn [Z.eqb].
  fold (len l). rewrite slice_middle.
  pose proof (strip_by_not_all (char_in FORMAT_TRIMMING_CHARS) l) as Hs.
  unfold not_blank in Hb. apply negb_true_iff in Hb. specialize (Hs Hb).
  unfold Py.strip_chars.
  destruct (Py.strip_by (char_in FORMAT_TRIMMING_CHARS) l) as [|x t];
    [contradiction|].
  rewrite len_cons. pose proof (len_nonneg t).
  destruct (Z.ltb_spec 0 (1 + len t)); [reflexivity|lia].
Qed.

Lemma old_malformed_line_rejected_witness :
  let items := [Field_item F_mode (lit "33188")] in
  forallb old_item_ok items = true /\ (length items < 2)%nat /\
  contains (lit "size=5") old_field_sep = false /\
  no_line_feed (lit "size=5") = true /\ not_blank (lit "size=5") = true /\
  read_cfsfile 2
    (old_header true ++ old_text_items items
       ++ lit "size=5" ++ "010"%char :: lit "uid: 1") CFSFile_new
  = Raises (RuntimeError Invalid_string).
Proof.
  split; [reflexivity|]. split; [cbn; lia|].
  repeat (split; [reflexivity|]).
  apply (old_malformed_line_rejected 2 true
           [Field_item F_mode (lit "33188")] (lit "size=5") (lit "uid: 1")
           CFSFile_new); try reflexivity. cbn; lia.
Defined.

(** * Further properties of the values and of the layout *)

Lemma lstrip_by_app_all f pad s :
  forallb f pad = true -> Py.lstrip_by f (pad ++ s) = Py.lstrip_by f s.
Proof.
  induction pad as [|x pad IH]; cbn [app forallb Py.lstrip_by]; [reflexivity|].
  intros H. apply andb_true_iff in H as [-> H]. apply IH. exact H.
Qed.

Lemma rstrip_by_app_all f s pad :
  forallb f pad = true -> Py.rstrip_by f (s ++ pad) = Py.rstrip_by f s.
Proof.
  intros H. unfold Py.rstrip_by. rewrite rev_app_distr.
  rewrite lstrip_by_app_all by (rewrite forallb_rev; exact H).
  reflexivity.
Qed.

Lemma strip_by_padded f pad1 s pad2 :
  forallb f pad1 = true -> forallb f pad2 = true ->
  forallb (fun c => negb (f c)) s = true ->
  Py.strip_by f (pad1 ++ s ++ pad2) = s.
Proof.
  intros H1 H2 Hs. unfold Py.strip_by.
  rewrite lstrip_by_app_all by exact H1.
  destruct s as [|x s].
  - cbn [app]. rewrite lstrip_by_all by exact H2. reflexivity.
  - rewrite lstrip_by_keeps.
    2:{ cbn [app]. cbn [forallb] in Hs.
        apply andb_true_iff in Hs as [Hx _]. exact Hx. }
    rewrite rstrip_by_app_all by exact H2.
    pose proof (strip_by_plain f (x :: s) Hs) as E.
    unfold Py.strip_by in E. rewrite lstrip_by_keeps in E; [exact E|].
    cbn [forallb] in Hs. apply andb_true_iff in Hs as [Hx _]. exact Hx.
Qed.

(** X22. [cfsfile_extract_int] gives back every integer from its decimal
    text, negative ones included, also when spaces, tabs, carriage returns
    or line feeds surround the text. *)
Theorem extract_int_accepts_padding :
  forall (z : Z) (pad1 pad2 : str),
    forallb (char_in FORMAT_TRIMMING_CHARS) pad1 = true ->
    forallb (char_in FORMAT_TRIMMING_CHARS) pad2 = true ->
    cfsfile_extract_int (pad1 ++ Py.str_of_int z ++ pad2) = Returns z.
Proof.
  intros z pad1 pad2 H1 H2. unfold cfsfile_extract_int, Py.strip_chars.
  rewrite strip_by_padded; try assumption.
  - rewrite int_str_of_int. reflexivity.
  - eapply forallb_weaken; [|apply str_of_int_plain].
    intros c. apply plain_char_trim.
Qed.

Lemma extract_int_accepts_padding_witness :
  forallb (char_in FORMAT_TRIMMING_CHARS) (lit "  ") = true /\
  forallb (char_in FORMAT_TRIMMING_CHARS) ["009"%char; "013"%char] = true /\
  cfsfile_extract_int
    (lit "  " ++ Py.str_of_int (-1700000000) ++ ["009"%char; "013"%char])
  = Returns (-1700000000).
Proof.
  split; [reflexivity|]. split; [reflexivity|].
  apply (extract_int_accepts_padding (-1700000000) (lit "  ")
           ["009"%char; "013"%char]); reflexivity.
Defined.

(** X23. The tokenizer reads a line back.  At the start of a line
    [name=value] -- a name without delimiter and new-line character, a value
    without new-line character, then a line feed, a carriage return or the
    end of the text -- it returns the position after the character that
    ends the line, the name trimmed, and the value as it stands, untrimmed
    and with any further delimiter. *)
Theorem tokenizer_reads_line :
  forall (pre name value rest : str),
    no_delimiter name = true -> no_newline name = true ->
    no_newline value = true -> at_line_end rest = true ->
    cfsfile_get_next_option_pair (pre ++ name ++ "="%char :: value ++ rest)
      (len pre)
    = Returns (len pre + len name + len value + 2,
               Py.strip_chars FORMAT_TRIMMING_CHARS name, value).
Proof.
  intros pre name value rest Hd Hn Hv Hr. apply pair_at_line; assumption.
Qed.

Lemma tokenizer_reads_line_witness :
  no_delimiter (lit " sha256 ") = true /\ no_newline (lit " sha256 ") = true /\
  no_newline (lit " a=b ") = true /\
  at_line_end ("013"%char :: lit "
size=1") = true /\
  cfsfile_get_next_option_pair
    (lit "CatalogFS=3
" ++ lit " sha256 " ++ "="%char :: lit " a=b " ++ "013"%char :: lit "
size=1") (len (lit "CatalogFS=3
"))
  = Returns (len (lit "CatalogFS=3
") + len (lit " sha256 ") + len (lit " a=b ") + 2,
             Py.strip_chars FORMAT_TRIMMING_CHARS (lit " sha256 "),
             lit " a=b ").
Proof.
  repeat (split; [reflexivity|]).
  apply (tokenizer_reads_line (lit "CatalogFS=3
") (lit " sha256 ") (lit " a=b ") ("013"%char :: lit "
size=1")); reflexivity.
Defined.

Lemma is_subsequence_tail x l fs :
  is_subsequence (x :: l) fs = true -> is_subsequence l fs = true.
Proof.
  revert x l; induction fs as [|g fs IH]; intros x l H; [discriminate H|].
  cbn [is_subsequence] in H.
  destruct l as [|y l]; [reflexivity|]. cbn [is_subsequence].
  destruct (field_eqb x g).
  - destruct (field_eqb y g); [apply (IH y l H)|exact H].
  - destruct (field_eqb y g); [|apply (IH x (y :: l) H)].
    apply (IH y l). apply (IH x (y :: l) H).
Qed.

Lemma is_subsequence_skip l g fs :
  is_subsequence l fs = true -> is_subsequence l (g :: fs) = true.
Proof.
  intros H. destruct l as [|x l]; [reflexivity|]. cbn [is_subsequence].
  destruct (field_eqb x g); [|exact H].
  apply (is_subsequence_tail x l fs H).
Qed.

Lemma is_subsequence_opt f v rest fs :
  is_subsequence (map fst rest) fs = true ->
  is_subsequence (map fst (opt_line f v ++ rest)) (f :: fs) = true.
Proof.
  intros H. destruct v as [x|]; cbn [opt_line app map fst].
  - cbn [is_subsequence].
    assert (field_eqb f f = true) as -> by (apply field_eqb_eq; reflexivity).
    exact H.
  - apply is_subsequence_skip. exact H.
Qed.

Lemma written_lines_in_order c d t :
  is_subsequence (map fst (written_lines c d t)) all_fields = true.
Proof.
  unfold written_lines, all_fields.
  destruct d; [|destruct t].
  - apply is_subsequence_opt. do 12 apply is_subsequence_skip.
    rewrite <- (app_nil_r (opt_line F_sha256 (sha256 c))).
    apply is_subsequence_opt. reflexivity.
  - apply is_subsequence_opt. do 5 apply is_subsequence_skip.
    apply is_subsequence_opt. do 2 apply is_subsequence_skip.
    apply is_subsequence_opt. do 3 apply is_subsequence_skip.
    rewrite <- (app_nil_r (opt_line F_sha256 (sha256 c))).
    apply is_subsequence_opt. reflexivity.
  - do 13 apply is_subsequence_opt.
    rewrite <- (app_nil_r (opt_line F_sha256 (sha256 c))).
    apply is_subsequence_opt. reflexivity.
Qed.

Lemma NoDup_subsequence (fs : list field) : forall l,
  is_subsequence l fs = true -> NoDup fs -> NoDup l.
Proof.
  induction fs as [|g fs IH]; intros l H Hn.
  - destruct l; [constructor|discriminate H].
  - destruct l as [|x l]; [constructor|]. cbn [is_subsequence] in H.
    inversion Hn as [|? ? Hg Hn']; subst.
    destruct (field_eqb x g) eqn:E.
    + apply field_eqb_eq in E. subst x. constructor; [|apply IH; assumption].
      intros Hin. apply Hg. clear - H Hin.
      revert l H Hin. induction fs as [|y fs IHf]; intros l H Hin.
      * destruct l; [contradiction|discriminate H].
      * destruct l as [|x l]; [contradiction|]. cbn [is_subsequence] in H.
        destruct (field_eqb x y) eqn:E.
        -- apply field_eqb_eq in E. subst x. destruct Hin as [->|Hin].
           ++ left. reflexivity.
           ++ right. apply (IHf l H Hin).
        -- right. apply (IHf (x :: l) H Hin).
    + apply IH; assumption.
Qed.

Lemma decimal_if_not_none f v :
  forallb hash_or_decimal (opt_line f (if_not_none v)) = true.
Proof.
  destruct v as [z|]; cbn [if_not_none option_map opt_line forallb];
    [|reflexivity].
  unfold hash_or_decimal. cbn [fst snd]. rewrite str_of_int_chars.
  rewrite orb_true_r. reflexivity.
Qed.

Lemma decimal_if_not_none_int f v :
  forallb hash_or_decimal (opt_line f (if_not_none_int v)) = true.
Proof.
  destruct v as [x|]; cbn [if_not_none_int option_map opt_line forallb];
    [|reflexivity].
  unfold hash_or_decimal. cbn [fst snd]. rewrite str_of_int_chars.
  rewrite orb_true_r. reflexivity.
Qed.

Lemma decimal_if_not_none_nor_zero f v :
  forallb hash_or_decimal (opt_line f (if_not_none_nor_zero v)) = true.
Proof.
  destruct v as [z|]; cbn [if_not_none_nor_zero]; [|reflexivity].
  destruct (z =? 0); cbn [opt_line forallb]; [reflexivity|].
  unfold hash_or_decimal. cbn [fst snd]. rewrite str_of_int_chars.
  rewrite orb_true_r. reflexivity.
Qed.

Lemma decimal_hash h : forallb hash_or_decimal (opt_line F_sha256 h) = true.
Proof. destruct h; reflexivity. Qed.

Lemma written_lines_decimal c d t :
  forallb hash_or_decimal (written_lines c d t) = true.
Proof.
  unfold written_lines.
  destruct d; [|destruct t]; rewrite ?forallb_app;
    rewrite ?decimal_if_not_none, ?decimal_if_not_none_int,
      ?decimal_if_not_none_nor_zero, decimal_hash; reflexivity.
Qed.

Lemma written_lines_values c d t f :
  last_line f (written_lines c d t) =
  option_map written_value (get_field f (preserved c d t)).
Proof.
  unfold written_lines, preserved.
  destruct c as [a1 a2 a3 a4 a5 a6 a7 a8 a9 a10 a11 a12 a13 h].
  cbn [size blocks mode uid gid atime mtime ctime atimensec mtimensec
       ctimensec nlink blksize sha256].
  destruct d; [|destruct t]; destruct f;
    rewrite ?last_line_app, ?last_line_opt;
    cbn -[if_not_none if_not_none_int if_not_none_nor_zero];
    try (destruct h; reflexivity);
    match goal with
    | |- context [if_not_none ?v] => destruct v; reflexivity
    | |- context [if_not_none_int ?v] => destruct v as [[|]|]; reflexivity
    | |- context [if_not_none_nor_zero ?v] =>
        let z := fresh "z" in
        destruct v as [z|]; unfold if_not_none_nor_zero, nonzero;
        [destruct (z =? 0)|]; reflexivity
    | |- _ => reflexivity
    end.
Qed.

(** X24. Under every profile the text of the writer is the header followed
    by lines [name=value] of fields, in the one order size, blocks, mode,
    uid, gid, atime, mtime, ctime, atimensec, mtimensec, ctimensec, nlink,
    blksize, sha256, with one line at most for a field.  The lines are
    those of the fields that the profile keeps, each with the text of the
    value kept.  The value of every line but the one of the hash is made
    of digits and of the minus sign, so that it holds on one line of the
    text; the hash, which is written as the record has it, comes last. *)
Theorem writer_canonical_order :
  forall (c : CFSFile) (flag_data_only flag_data_and_time_only : bool),
    exists lines,
      write_cfsfile c flag_data_only flag_data_and_time_only
      = FORMAT_HEADER_TO_WRITE ++ text_lines (named lines)
      /\ is_subsequence (map fst lines) all_fields = true
      /\ NoDup (map fst lines)
      /\ forallb hash_or_decimal lines = true
      /\ forall f,
          last_line f lines =
          option_map written_value
            (get_field f
               (preserved c flag_data_only flag_data_and_time_only)).
Proof.
  intros c d t. exists (written_lines c d t).
  split; [apply write_as_lines|]. split; [apply written_lines_in_order|].
  split; [|split].
  - apply (NoDup_subsequence all_fields);
      [apply written_lines_in_order|].
    unfold all_fields. repeat constructor; cbn; intuition discriminate.
  - apply written_lines_decimal.
  - intros f. apply written_lines_values.
Qed.

(** * White space around an integer, in the two readers *)

Lemma separator_facts c :
  is_separator c = true ->
  Py.isspace c = true /\ Py.int_space c = false
  /\ char_in FORMAT_TRIMMING_CHARS c = false
  /\ is_newline_char c = false /\ Py.digit_of c = None
  /\ chr_eqb "010"%char c = false.
Proof.
  destruct c as [[] [] [] [] [] [] [] []]; intros H;
    solve [discriminate H | repeat split; reflexivity].
Qed.

Lemma digit_not_separator c d :
  Py.digit_of c = Some d -> is_separator c = false.
Proof.
  destruct c as [[] [] [] [] [] [] [] []]; intros H;
    solve [discriminate H | reflexivity].
Qed.

(** A text with a separator is not a sequence of digits. *)
Lemma digits_no_separator n : forall u,
  (length u <= n)%nat -> existsb is_separator u = true -> Py.digits u = None.
Proof.
  induction n as [|n IH]; intros u Hn Hs.
  - destruct u; [discriminate Hs|cbn in Hn; lia].
  - destruct u as [|c t]; [discriminate Hs|].
    cbn [length] in Hn. cbn [existsb] in Hs.
    rewrite digits_unfold. destruct (Py.digit_of c) as [d|] eqn:Ec;
      [|reflexivity].
    rewrite (digit_not_separator c d Ec) in Hs. cbn [orb] in Hs.
    destruct t as [|c2 t2]; [discriminate Hs|].
    cbn [length] in Hn.
    assert (Py.digits (c2 :: t2) = None) as E
      by (apply IH; [cbn [length]; lia|exact Hs]).
    destruct (is_separator c2) eqn:E2.
    + destruct c2 as [[] [] [] [] [] [] [] []]; try discriminate E2;
        rewrite E; reflexivity.
    + cbn [existsb] in Hs. rewrite E2 in Hs. cbn [orb] in Hs.
      assert (Py.digits t2 = None) as E'
        by (apply IH; [lia|exact Hs]).
      destruct c2 as [[] [] [] [] [] [] [] []];
        first [rewrite E; reflexivity | rewrite E'; reflexivity].
Qed.

(** [int()] refuses a text that has a separator and none of the white
    space it passes over. *)
Lemma int_no_separator t :
  forallb (fun c => negb (Py.int_space c)) t = true ->
  existsb is_separator t = true ->
  Py.int t = None.
Proof.
  intros Hp Hs. unfold Py.int. rewrite strip_by_plain by exact Hp.
  destruct t as [|c t']; [discriminate Hs|].
  pose proof (digits_no_separator (length (c :: t')) (c :: t') (le_n _) Hs)
    as E.
  destruct (is_separator c) eqn:Ec.
  - destruct c as [[] [] [] [] [] [] [] []]; try discriminate Ec;
      rewrite E; reflexivity.
  - cbn [existsb] in Hs. rewrite Ec in Hs. cbn [orb] in Hs.
    pose proof (digits_no_separator (length t') t' (le_n _) Hs) as E'.
    destruct c as [[] [] [] [] [] [] [] []];
      first [rewrite E; reflexivity | rewrite E'; reflexivity].
Qed.

Lemma forallb_app_3 (f : ascii -> bool) a b c :
  forallb f a = true -> forallb f b = true -> forallb f c = true ->
  forallb f (a ++ b ++ c) = true.
Proof. intros Ha Hb Hc. rewrite !forallb_app, Ha, Hb, Hc. reflexivity. Qed.

Lemma separators_weaken (g : ascii -> bool) pad :
  (forall c, is_separator c = true -> g c = true) ->
  forallb is_separator pad = true -> forallb g pad = true.
Proof. intros Hg H. eapply forallb_weaken; [exact Hg|exact H]. Qed.

Lemma existsb_separator pad1 s pad2 :
  forallb is_separator pad1 = true -> forallb is_separator pad2 = true ->
  pad1 ++ pad2 <> [] ->
  existsb is_separator (pad1 ++ s ++ pad2) = true.
Proof.
  intros H1 H2 Hne. rewrite !existsb_app.
  destruct pad1 as [|x pad1].
  - destruct pad2 as [|y pad2]; [contradiction Hne; reflexivity|].
    cbn [forallb] in H2. apply andb_true_iff in H2 as [Hy _].
    cbn [existsb]. rewrite Hy. rewrite !orb_true_r. reflexivity.
  - cbn [forallb] in H1. apply andb_true_iff in H1 as [Hx _].
    cbn [existsb]. rewrite Hx. reflexivity.
Qed.

(** X25. The two readers do not take the same values for an integer.  A
    value made of the decimal text of an integer with separators
    U+001C..U+001F before it or after it is refused by the reader of the
    current format, which trims the four characters of the format only and
    hands the rest to [int()]; the reader of the old formats, which trims
    with [str.strip()], takes the integer. *)
Theorem separators_split_the_readers :
  forall (fuel : nat) (f : field) (z : Z) (pad1 pad2 : str) (c : CFSFile),
    f <> F_sha256 ->
    forallb is_separator pad1 = true ->
    forallb is_separator pad2 = true ->
    pad1 ++ pad2 <> [] ->
    let value := pad1 ++ Py.str_of_int z ++ pad2 in
    read_cfsfile fuel
      (FORMAT_HEADER_TO_WRITE ++ text_lines (named [(f, value)])) c
    = Raises (RuntimeError (Not_an_integer value))
    /\ forall second,
        read_cfsfile (S (S fuel))
          (old_header second ++ old_text_items [Field_item f value]) c
        = Returns (store_value f (Int_value z) c).
Proof.
  intros fuel f z pad1 pad2 c Hf H1 H2 Hne value.
  assert (forall g : ascii -> bool,
             (forall x, is_separator x = true -> g x = true) ->
             (forall x, is_plain_char x = true -> g x = true) ->
             forallb g value = true) as Hall.
  { intros g Hsep Hplain. apply forallb_app_3.
    - apply separators_weaken; assumption.
    - eapply forallb_weaken; [exact Hplain|apply str_of_int_plain].
    - apply separators_weaken; assumption. }
  assert (Py.int (Py.strip_chars FORMAT_TRIMMING_CHARS value) = None) as Hi.
  { unfold Py.strip_chars. rewrite strip_by_plain.
    - apply int_no_separator.
      + apply Hall.
        * intros x Hx. destruct (separator_facts x Hx) as (_ & -> & _).
          reflexivity.
        * apply plain_char_int_space.
      + apply existsb_separator; assumption.
    - apply Hall.
      + intros x Hx. destruct (separator_facts x Hx) as (_ & _ & -> & _).
        reflexivity.
      + apply plain_char_trim. }
  assert (Py.strip value = Py.str_of_int z) as Hs.
  { unfold Py.strip, value. apply strip_by_padded.
    - apply separators_weaken; [|exact H1].
      intros x Hx. apply (separator_facts x Hx).
    - apply separators_weaken; [|exact H2].
      intros x Hx. apply (separator_facts x Hx).
    - eapply forallb_weaken; [|apply str_of_int_plain].
      intros x. apply plain_char_space. }
  split.
  - unfold read_cfsfile. rewrite header_not_old_format.
    rewrite fill_header_lines.
    + cbn [named map fst snd fill_fields].
      rewrite field_name_strip, fill_field_by_name.
      destruct f; try congruence;
        unfold read_value, cfsfile_extract_int; rewrite Hi; reflexivity.
    + cbn [named map fst snd forallb]. unfold plain_line. cbn [fst snd].
      destruct (field_name_plain f) as [-> ->].
      assert (no_newline value = true) as ->; [|reflexivity].
      apply Hall.
      * intros x Hx. destruct (separator_facts x Hx) as (_ & _ & _ & -> & _).
        reflexivity.
      * apply plain_char_newline.
  - intros second. rewrite read_old_items.
    + cbn [old_fill_items]. unfold old_read_value.
      destruct f; try congruence;
        rewrite Hs, int_str_of_int; reflexivity.
    + cbn [forallb old_item_ok]. rewrite andb_true_r.
      apply Hall.
      * intros x Hx.
        destruct (separator_facts x Hx) as (_ & _ & _ & _ & _ & ->).
        reflexivity.
      * intros x Hx. destruct (chr_eqb "010"%char x) eqn:E; [|reflexivity].
        apply chr_eqb_eq in E. subst x. discriminate Hx.
    + cbn [length]. lia.
Qed.

Lemma separators_split_the_readers_witness :
  let value := "028"%char :: Py.str_of_int 5 ++ ["031"%char] in
  F_size <> F_sha256 /\
  read_cfsfile 0
    (FORMAT_HEADER_TO_WRITE ++ text_lines (named [(F_size, value)]))
    CFSFile_new
  = Raises (RuntimeError (Not_an_integer value))
  /\ read_cfsfile 2
       (old_header false ++ old_text_items [Field_item F_size value])
       CFSFile_new
     = Returns (set_size (Some 5) CFSFile_new).
Proof.
  assert (F_size <> F_sha256) as Hf by discriminate.
  split; [exact Hf|].
  destruct (separators_split_the_readers 0 F_size 5 ["028"%char]
              ["031"%char] CFSFile_new Hf eq_refl eq_refl)
    as [Hnew Hold]; [discriminate|].
  split; [exact Hnew|]. exact (Hold false).
Defined.
